(** * Webmake: the publish route and the static-site renderer

    A shallow embedding of [src/route.ts] (the [POST] handler of the publish
    API and its [sha1] helper) and of [buildHtml] from [src/page.tsx],
    together with executable models of the platform pieces they call
    (Buffer, base64, SHA-1, JSZip, JSON, fetch), and the properties the
    specification states about them.  The functions [generate],
    [exportZip] and [publish] of the page and its services editor follow,
    with properties of the route, of the page, and of the two together.

    Conventions.  A JavaScript string is represented by the bytes of its
    UTF-8 encoding, as a [string]; a Buffer is a [list byte].  Hence
    [Buffer.from(s)] is the list of bytes of the representation.  Only
    well-formed text is represented this way: a JavaScript string with an
    unpaired surrogate has no UTF-8 encoding and is outside the model. *)

From Stdlib Require Import String Ascii List ZArith Lia Bool.
From Stdlib Require Import Strings.Byte DecimalString.
Import ListNotations.

Local Open Scope string_scope.
Local Open Scope list_scope.
Local Open Scope Z_scope.

(** Concatenation of strings, as in a template literal. *)
Infix "+++" := String.append (right associativity, at level 60).

(** The double-quote character and a string holding it. *)
Definition dquote : ascii := ascii_of_nat 34.
Definition dq : string := String dquote EmptyString.

(** ** Bytes *)

Definition Z_of_byte (b : byte) : Z := Z.of_N (Byte.to_N b).

Definition byte_of_Z (z : Z) : byte :=
  match Byte.of_N (Z.to_N (z mod 256)) with
  | Some b => b
  | None => x00
  end.

(** [Buffer.from(s)]: the UTF-8 bytes of a string. *)
Definition Buffer_from (s : string) : list byte := list_byte_of_string s.

(** [buf.toString()] (UTF-8 decoding of well-formed bytes). *)
Definition Buffer_toString (l : list byte) : string := string_of_list_byte l.

(** ** Base64 (RFC 4648, with padding), as [buf.toString('base64')] *)

Module Base64.

Definition alphabet : string :=
  "ABCDEFGHIJKLMNOPQRSTUVWXYZabcdefghijklmnopqrstuvwxyz0123456789+/".

Definition pad : ascii := "="%char.

(** The character of a sextet. *)
Definition char_of (n : Z) : ascii :=
  nth (Z.to_nat n) (list_ascii_of_string alphabet) pad.

Fixpoint index_of (c : ascii) (l : list ascii) (i : Z) : option Z :=
  match l with
  | [] => None
  | d :: r => if Ascii.eqb c d then Some i else index_of c r (i + 1)
  end.

(** The sextet of a character of the alphabet. *)
Definition value_of (c : ascii) : option Z :=
  index_of c (list_ascii_of_string alphabet) 0.

Fixpoint encode (l : list byte) : string :=
  match l with
  | [] => EmptyString
  | [a] =>
      let x := Z_of_byte a in
      String (char_of (x / 4))
        (String (char_of ((x mod 4) * 16))
           (String pad (String pad EmptyString)))
  | [a; b] =>
      let x := Z_of_byte a in
      let y := Z_of_byte b in
      String (char_of (x / 4))
        (String (char_of ((x mod 4) * 16 + y / 16))
           (String (char_of ((y mod 16) * 4))
              (String pad EmptyString)))
  | a :: b :: c :: r =>
      let x := Z_of_byte a in
      let y := Z_of_byte b in
      let z := Z_of_byte c in
      String (char_of (x / 4))
        (String (char_of ((x mod 4) * 16 + y / 16))
           (String (char_of ((y mod 16) * 4 + z / 64))
              (String (char_of (z mod 64)) (encode r))))
  end.

Definition is_empty (s : string) : bool :=
  match s with EmptyString => true | _ => false end.

(** Strict decoding: the input is a sequence of quadruples, padding only
    in the last one. *)
Fixpoint decode (s : string) : option (list byte) :=
  match s with
  | EmptyString => Some []
  | String c0 (String c1 (String c2 (String c3 r))) =>
      match value_of c0, value_of c1 with
      | Some v0, Some v1 =>
          let b0 := byte_of_Z (v0 * 4 + v1 / 16) in
          if Ascii.eqb c2 pad then
            if Ascii.eqb c3 pad && is_empty r then Some [b0] else None
          else
            match value_of c2 with
            | Some v2 =>
                let b1 := byte_of_Z ((v1 mod 16) * 16 + v2 / 4) in
                if Ascii.eqb c3 pad then
                  if is_empty r then Some [b0; b1] else None
                else
                  match value_of c3, decode r with
                  | Some v3, Some t =>
                      Some (b0 :: b1 :: byte_of_Z ((v2 mod 4) * 64 + v3) :: t)
                  | _, _ => None
                  end
            | None => None
            end
      | _, _ => None
      end
  | _ => None
  end.

(** A sextet whose character maps back to it and is not the padding. *)
Definition sextet_ok (n : Z) : bool :=
  match value_of (char_of n) with
  | Some m => Z.eqb m n && negb (Ascii.eqb (char_of n) pad)
  | None => false
  end.

End Base64.

(** ** Hexadecimal, as [buf.toString('hex')] *)

Module Hex.

Definition digits : string := "0123456789abcdef".

Definition digit (n : Z) : ascii :=
  nth (Z.to_nat n) (list_ascii_of_string digits) "0"%char.

Fixpoint encode (l : list byte) : string :=
  match l with
  | [] => EmptyString
  | b :: r =>
      let x := Z_of_byte b in
      String (digit (x / 16)) (String (digit (x mod 16)) (encode r))
  end.

End Hex.

(** ** SHA-1 (FIPS 180-4), the digest behind [crypto.subtle.digest('SHA-1', _)]
       and [createHash('sha1')] *)

Module SHA1.

Definition w32 (x : Z) : Z := x mod 2 ^ 32.

Definition rotl (n x : Z) : Z :=
  w32 (Z.lor (Z.shiftl x n) (Z.shiftr x (32 - n))).

(** Big-endian bytes of a number, [k] of them. *)
Fixpoint be_bytes (k : nat) (x : Z) : list byte :=
  match k with
  | O => []
  | S k' => be_bytes k' (x / 256) ++ [byte_of_Z x]
  end.

Definition be_word (l : list byte) : Z :=
  fold_left (fun acc b => acc * 256 + Z_of_byte b) l 0.

(** The message followed by the bit 1, zeros up to 56 modulo 64 bytes, and
    the length in bits on 8 bytes. *)
Definition padded (msg : list byte) : list byte :=
  let n := Z.of_nat (length msg) in
  msg ++ [byte_of_Z 128]
      ++ repeat x00 (Z.to_nat ((55 - n) mod 64))
      ++ be_bytes 8 (8 * n).

(** Cuts a list into pieces of [n] elements. *)
Fixpoint chunks {A} (fuel n : nat) (l : list A) : list (list A) :=
  match fuel, l with
  | O, _ => []
  | _, [] => []
  | S f, _ => firstn n l :: chunks f n (skipn n l)
  end.

Definition block_words (blk : list byte) : list Z :=
  map be_word (chunks 16 4 blk).

(** The message schedule, most recent word first. *)
Definition extend (ws : list Z) : list Z :=
  rotl 1 (Z.lxor (Z.lxor (nth 2 ws 0) (nth 7 ws 0))
            (Z.lxor (nth 13 ws 0) (nth 15 ws 0))) :: ws.

Definition schedule (blk : list byte) : list Z :=
  rev (Nat.iter 64 extend (rev (block_words blk))).

Definition lnot32 (x : Z) : Z := Z.lxor x (2 ^ 32 - 1).

Definition f_k (i : nat) (b c d : Z) : Z * Z :=
  if (i <? 20)%nat then
    (Z.lor (Z.land b c) (Z.land (lnot32 b) d), 0x5A827999)
  else if (i <? 40)%nat then
    (Z.lxor (Z.lxor b c) d, 0x6ED9EBA1)
  else if (i <? 60)%nat then
    (Z.lor (Z.lor (Z.land b c) (Z.land b d)) (Z.land c d), 0x8F1BBCDC)
  else
    (Z.lxor (Z.lxor b c) d, 0xCA62C1D6).

Record state := mk { h0 : Z; h1 : Z; h2 : Z; h3 : Z; h4 : Z }.

Definition init : state :=
  mk 0x67452301 0xEFCDAB89 0x98BADCFE 0x10325476 0xC3D2E1F0.

Fixpoint rounds (i : nat) (ws : list Z) (s : state) : state :=
  match ws with
  | [] => s
  | w :: r =>
      let '(f, k) := f_k i (h1 s) (h2 s) (h3 s) in
      let t := w32 (rotl 5 (h0 s) + f + h4 s + k + w) in
      rounds (S i) r (mk t (h0 s) (rotl 30 (h1 s)) (h2 s) (h3 s))
  end.

Definition compress (s : state) (blk : list byte) : state :=
  let t := rounds 0 (schedule blk) s in
  mk (w32 (h0 s + h0 t)) (w32 (h1 s + h1 t)) (w32 (h2 s + h2 t))
     (w32 (h3 s + h3 t)) (w32 (h4 s + h4 t)).

Definition digest (msg : list byte) : list byte :=
  let p := padded msg in
  let s := fold_left compress (chunks (length p) 64 p) init in
  be_bytes 4 (h0 s) ++ be_bytes 4 (h1 s) ++ be_bytes 4 (h2 s)
    ++ be_bytes 4 (h3 s) ++ be_bytes 4 (h4 s).

End SHA1.

(** ** CRC-32 (the checksum of a ZIP entry) *)

Module CRC32.

Definition step (c : Z) : Z :=
  if Z.odd c then Z.lxor (Z.shiftr c 1) 0xEDB88320 else Z.shiftr c 1.

Definition update (c : Z) (b : byte) : Z :=
  Nat.iter 8 step (Z.lxor c (Z_of_byte b)).

Definition crc32 (l : list byte) : Z :=
  Z.lxor (fold_left update l 0xFFFFFFFF) 0xFFFFFFFF.

End CRC32.

(** ** The ZIP container, as JSZip writes it

    [generate] follows JSZip's writer for its default options: every
    entry is stored uncompressed, with a local header before its data, a
    central directory after the last entry and an end-of-central-directory
    record; there is no data descriptor, no ZIP64 record and no comment.
    Entry names are ASCII (as the two names the route uses), for which
    JSZip sets no flag and writes no extra field.  [load] reads an archive
    through its central directory. *)

Module Zip.

Record entry := mkEntry { name : string; data : list byte }.

(** Little-endian numbers on 2 and 4 bytes. *)
Definition le16 (x : Z) : list byte :=
  [byte_of_Z x; byte_of_Z (x / 256)].

Definition le32 (x : Z) : list byte :=
  [byte_of_Z x; byte_of_Z (x / 256); byte_of_Z (x / 65536);
   byte_of_Z (x / 16777216)].

Definition rd16 (l : list byte) : Z :=
  Z_of_byte (nth 0 l x00) + 256 * Z_of_byte (nth 1 l x00).

Definition rd32 (l : list byte) : Z :=
  Z_of_byte (nth 0 l x00) + 256 * Z_of_byte (nth 1 l x00)
  + 65536 * Z_of_byte (nth 2 l x00) + 16777216 * Z_of_byte (nth 3 l x00).

Definition len {A} (l : list A) : Z := Z.of_nat (length l).

Definition sig_local : list byte := [x50; x4b; x03; x04].
Definition sig_central : list byte := [x50; x4b; x01; x02].
Definition sig_end : list byte := [x50; x4b; x05; x06].

(** The fields shared by the local and the central header of an entry:
    version needed, flags, method (0: stored), time, date, CRC-32,
    compressed size, size, name length, extra length. *)
Definition header (time date : Z) (e : entry) : list byte :=
  [x0a; x00] ++ le16 0 ++ le16 0 ++ le16 time ++ le16 date
    ++ le32 (CRC32.crc32 (data e))
    ++ le32 (len (data e)) ++ le32 (len (data e))
    ++ le16 (len (Buffer_from (name e))) ++ le16 0.

Definition fileRecord (time date : Z) (e : entry) : list byte :=
  sig_local ++ header time date e ++ Buffer_from (name e).

(** The central header: made by version 2.0 on DOS, no comment, disk 0,
    no attributes, then the offset of the local header. *)
Definition dirRecord (time date : Z) (offset : Z) (e : entry) : list byte :=
  sig_central ++ le16 0x0014 ++ header time date e
    ++ le16 0 ++ [x00; x00] ++ [x00; x00] ++ le32 0 ++ le32 offset
    ++ Buffer_from (name e).

Definition local_part (time date : Z) (e : entry) : list byte :=
  fileRecord time date e ++ data e.

Fixpoint locals (time date : Z) (es : list entry) : list byte :=
  match es with
  | [] => []
  | e :: r => local_part time date e ++ locals time date r
  end.

Fixpoint centrals (time date : Z) (offset : Z) (es : list entry) : list byte :=
  match es with
  | [] => []
  | e :: r =>
      dirRecord time date offset e
        ++ centrals time date (offset + len (local_part time date e)) r
  end.

Definition dirEnd (count dirLength localLength : Z) : list byte :=
  sig_end ++ [x00; x00] ++ [x00; x00] ++ le16 count ++ le16 count
    ++ le32 dirLength ++ le32 localLength ++ le16 0.

Definition generate (time date : Z) (es : list entry) : list byte :=
  let l := locals time date es in
  let c := centrals time date 0 es in
  l ++ c ++ dirEnd (len es) (len c) (len l).

(** *** Reading *)

Definition slice {A} (off n : Z) (l : list A) : list A :=
  firstn (Z.to_nat n) (skipn (Z.to_nat off) l).

Fixpoint bytes_eqb (a b : list byte) : bool :=
  match a, b with
  | [], [] => true
  | x :: a', y :: b' => Byte.eqb x y && bytes_eqb a' b'
  | _, _ => false
  end.

(** What the central directory says of an entry. *)
Record dirEntry := mkDir {
  d_name : list byte;
  d_method : Z;
  d_crc : Z;
  d_size : Z;
  d_offset : Z
}.

(** The end record: number of entries, and offset of the directory. *)
Definition read_end (bs : list byte) : option (Z * Z) :=
  let n := len bs in
  if n <? 22 then None
  else
    let t := skipn (Z.to_nat (n - 22)) bs in
    if bytes_eqb (firstn 4 t) sig_end
    then Some (rd16 (skipn 10 t), rd32 (skipn 16 t))
    else None.

Fixpoint read_centrals (count : nat) (cd : list byte) : option (list dirEntry) :=
  match count with
  | O => Some []
  | S k =>
      if bytes_eqb (firstn 4 cd) sig_central then
        let nameLen := rd16 (skipn 28 cd) in
        let extraLen := rd16 (skipn 30 cd) in
        let commentLen := rd16 (skipn 32 cd) in
        let d := mkDir (slice 46 nameLen cd) (rd16 (skipn 10 cd))
                   (rd32 (skipn 16 cd)) (rd32 (skipn 20 cd))
                   (rd32 (skipn 42 cd)) in
        match read_centrals k
                (skipn (Z.to_nat (46 + nameLen + extraLen + commentLen)) cd) with
        | Some r => Some (d :: r)
        | None => None
        end
      else None
  end.

(** The data of an entry: after its local header, as many bytes as the
    directory says, stored, with the checksum the directory says. *)
Definition read_entry (bs : list byte) (d : dirEntry) : option entry :=
  let lh := skipn (Z.to_nat (d_offset d)) bs in
  if bytes_eqb (firstn 4 lh) sig_local && (d_method d =? 0)%Z then
    let nameLen := rd16 (skipn 26 lh) in
    let extraLen := rd16 (skipn 28 lh) in
    let content := slice (30 + nameLen + extraLen) (d_size d) lh in
    if (len content =? d_size d)%Z && (CRC32.crc32 content =? d_crc d)%Z
    then Some (mkEntry (Buffer_toString (d_name d)) content)
    else None
  else None.

Fixpoint read_entries (bs : list byte) (ds : list dirEntry) : option (list entry) :=
  match ds with
  | [] => Some []
  | d :: r =>
      match read_entry bs d, read_entries bs r with
      | Some e, Some es => Some (e :: es)
      | _, _ => None
      end
  end.

Definition load (bs : list byte) : option (list entry) :=
  match read_end bs with
  | Some (count, dirOffset) =>
      match read_centrals (Z.to_nat count) (skipn (Z.to_nat dirOffset) bs) with
      | Some ds => read_entries bs ds
      | None => None
      end
  | None => None
  end.

(** [zip.file(name)]: the entry of that name. *)
Fixpoint find (n : string) (es : list entry) : option entry :=
  match es with
  | [] => None
  | e :: r => if String.eqb (name e) n then Some e else find n r
  end.

(** *** What an archive is expected to hold *)

(** The central directory of the archive of [es], as [load] reads it
    back. *)
Fixpoint dirs (time date : Z) (offset : Z) (es : list entry) : list dirEntry :=
  match es with
  | [] => []
  | e :: r =>
      mkDir (Buffer_from (name e)) 0 (CRC32.crc32 (data e)) (len (data e)) offset
        :: dirs time date (offset + len (local_part time date e)) r
  end.

(** An entry whose name and data fit the fields of its headers. *)
Definition fits (e : entry) : Prop :=
  len (Buffer_from (name e)) < 65536 /\ len (data e) < 2 ^ 32.

End Zip.

(** ** JavaScript values

    The values a JSON document decodes to, and [undefined].  Numbers are
    the integral ones; an object keeps its properties in insertion order. *)

#[local] Set Warnings "-register-all".

Inductive JsVal : Type :=
| JUndefined
| JNull
| JBool (b : bool)
| JNum (n : Z)
| JStr (s : string)
| JArr (items : list JsVal)
| JObj (fields : list (string * JsVal)).

(** [ToBoolean]: what [!v], [a || b] and [if (v)] look at. *)
Definition truthy (v : JsVal) : bool :=
  match v with
  | JUndefined | JNull => false
  | JBool b => b
  | JNum n => negb (n =? 0)
  | JStr s => negb (String.eqb s EmptyString)
  | JArr _ | JObj _ => true
  end.

(** [a || b] *)
Definition js_or (a b : JsVal) : JsVal := if truthy a then a else b.

(** [v === 'lit'] for a string literal. *)
Definition is_str (v : JsVal) (lit : string) : bool :=
  match v with
  | JStr s => String.eqb s lit
  | _ => false
  end.

Fixpoint lookup (k : string) (fs : list (string * JsVal)) : JsVal :=
  match fs with
  | [] => JUndefined
  | (k', v) :: r => if String.eqb k' k then v else lookup k r
  end.

(** [o[k] = v]: the property keeps its place when it exists already. *)
Fixpoint set_prop (k : string) (v : JsVal) (fs : list (string * JsVal))
  : list (string * JsVal) :=
  match fs with
  | [] => [(k, v)]
  | (k', v') :: r =>
      if String.eqb k' k then (k, v) :: r else (k', v') :: set_prop k v r
  end.

(** An exception, given by its [message]. *)
Definition Exn : Type := string.

(** A value, or the exception thrown instead. *)
Definition Result (A : Type) : Type := (Exn + A)%type.

(** [v.k], for the property names this program reads (none of them is
    a property of a primitive or of an array): a TypeError on [null] and
    [undefined], [undefined] when the property is absent. *)
Definition get_prop (v : JsVal) (k : string) : Result JsVal :=
  match v with
  | JUndefined =>
      inl ("Cannot read properties of undefined (reading '" +++ k +++ "')")
  | JNull =>
      inl ("Cannot read properties of null (reading '" +++ k +++ "')")
  | JObj fs => inr (lookup k fs)
  | _ => inr JUndefined
  end.

(** The decimal writing of an integer, as a number is written in a
    template literal or by [JSON.stringify].  This is the writing of
    JavaScript for the integers of magnitude below 10^21 (a status, a
    year, a time in milliseconds); from 10^21 JavaScript writes an
    exponent, which is outside the model. *)
Definition decimal (n : Z) : string := NilZero.string_of_int (Z.to_int n).

Definition nl : string := String (ascii_of_nat 10) EmptyString.

(** [array.join(sep)] *)
Fixpoint join (sep : string) (l : list string) : string :=
  match l with
  | [] => EmptyString
  | [s] => s
  | s :: r => s +++ sep +++ join sep r
  end.

(** ** JSON *)

Module JSON.

Definition code (c : ascii) : Z := Z.of_nat (nat_of_ascii c).
Definition chr (n : Z) : ascii := ascii_of_nat (Z.to_nat n).
Definition backslash : ascii := chr 92.

Definition esc (c : ascii) : string := String backslash (String c EmptyString).

(** [QuoteJSONString]: the characters between the quotes. *)
Fixpoint quote_chars (s : string) : string :=
  match s with
  | EmptyString => EmptyString
  | String c r =>
      let n := code c in
      (if n =? 34 then esc dquote
       else if n =? 92 then esc backslash
       else if n =? 8 then esc "b"
       else if n =? 12 then esc "f"
       else if n =? 10 then esc "n"
       else if n =? 13 then esc "r"
       else if n =? 9 then esc "t"
       else if n <? 32 then
         String backslash
           ("u00" +++ String (Hex.digit (n / 16))
                       (String (Hex.digit (n mod 16)) EmptyString))
       else String c EmptyString) +++ quote_chars r
  end.

Definition quote (s : string) : string := dq +++ quote_chars s +++ dq.

(** The text between the brackets of an array or an object. *)
Definition wrap (opening closing gap indent : string) (parts : list string)
  : string :=
  match parts with
  | [] => opening +++ closing
  | _ =>
      if String.eqb gap EmptyString then
        opening +++ join "," parts +++ closing
      else
        let inner := indent +++ gap in
        opening +++ nl +++ inner +++ join ("," +++ nl +++ inner) parts
          +++ nl +++ indent +++ closing
  end.

(** [SerializeJSONProperty]: nothing for [undefined]; a property whose
    value is [undefined] is left out of its object, an [undefined] item
    of an array is written [null]. *)
Fixpoint serialize (gap indent : string) (v : JsVal) : option string :=
  match v with
  | JUndefined => None
  | JNull => Some "null"
  | JBool true => Some "true"
  | JBool false => Some "false"
  | JNum n => Some (decimal n)
  | JStr s => Some (quote s)
  | JArr items =>
      let item x :=
        match serialize gap (indent +++ gap) x with
        | Some s => s
        | None => "null"
        end in
      Some (wrap "[" "]" gap indent (map item items))
  | JObj fields =>
      let sep := if String.eqb gap EmptyString then ":" else ": " in
      let members :=
        (fix members (fs : list (string * JsVal)) : list string :=
           match fs with
           | [] => []
           | (k, x) :: r =>
               match serialize gap (indent +++ gap) x with
               | Some s => (quote k +++ sep +++ s) :: members r
               | None => members r
               end
           end) in
      Some (wrap "{" "}" gap indent (members fields))
  end.

Fixpoint spaces (n : nat) : string :=
  match n with
  | O => EmptyString
  | S k => String " " (spaces k)
  end.

(** [JSON.stringify(v, null, space)]; [JSON.stringify(v)] is
    [stringify v 0].  The indentation is at most ten spaces. *)
Definition stringify (v : JsVal) (space : nat) : JsVal :=
  match serialize (spaces (Nat.min space 10)) EmptyString v with
  | Some s => JStr s
  | None => JUndefined
  end.

(** The value a receiver decodes from what [JSON.stringify] wrote of
    [v]: the same value without its [undefined] parts. *)
Fixpoint clean (v : JsVal) : JsVal :=
  match v with
  | JArr items =>
      JArr (map (fun x => match x with
                          | JUndefined => JNull
                          | _ => clean x
                          end) items)
  | JObj fields =>
      JObj ((fix members (fs : list (string * JsVal)) :=
               match fs with
               | [] => []
               | (k, JUndefined) :: r => members r
               | (k, x) :: r => (k, clean x) :: members r
               end) fields)
  | _ => v
  end.

(** *** Decoding *)

Definition is_ws (c : ascii) : bool :=
  let n := code c in
  (n =? 32) || (n =? 10) || (n =? 13) || (n =? 9).

Fixpoint skip_ws (l : list ascii) : list ascii :=
  match l with
  | c :: r => if is_ws c then skip_ws r else l
  | [] => []
  end.

Definition is_digit (c : ascii) : bool :=
  (48 <=? code c) && (code c <=? 57).

Fixpoint digits (acc : Z) (l : list ascii) : Z * list ascii :=
  match l with
  | c :: r => if is_digit c then digits (acc * 10 + (code c - 48)) r else (acc, l)
  | [] => (acc, [])
  end.

(** An integral number; a fraction or an exponent is not read. *)
Definition number (l : list ascii) : option (Z * list ascii) :=
  let '(neg, l') :=
    match l with
    | c :: r => if code c =? 45 then (true, r) else (false, l)
    | [] => (false, l)
    end in
  match l' with
  | c :: _ =>
      if is_digit c then
        let '(n, rest) := digits 0 l' in
        match rest with
        | d :: _ =>
            if (code d =? 46) || (code d =? 101) || (code d =? 69) then None
            else Some (if neg then - n else n, rest)
        | [] => Some (if neg then - n else n, rest)
        end
      else None
  | [] => None
  end.

(** The characters of a string up to its closing quote; the escapes of
    two characters are read, [\u] escapes are not. *)
Fixpoint string_chars (l : list ascii) : option (string * list ascii) :=
  match l with
  | [] => None
  | c :: r =>
      if code c =? 34 then Some (EmptyString, r)
      else if code c =? 92 then
        match r with
        | e :: r' =>
            let n := code e in
            let plain :=
              if (n =? 34) || (n =? 92) || (n =? 47) then Some e
              else if n =? 98 then Some (chr 8)
              else if n =? 102 then Some (chr 12)
              else if n =? 110 then Some (chr 10)
              else if n =? 114 then Some (chr 13)
              else if n =? 116 then Some (chr 9)
              else None in
            match plain, string_chars r' with
            | Some x, Some (s, rest) => Some (String x s, rest)
            | _, _ => None
            end
        | [] => None
        end
      else if code c <? 32 then None
      else
        match string_chars r with
        | Some (s, rest) => Some (String c s, rest)
        | None => None
        end
  end.

Fixpoint starts_with (p l : list ascii) : option (list ascii) :=
  match p, l with
  | [], _ => Some l
  | a :: p', b :: l' => if Ascii.eqb a b then starts_with p' l' else None
  | _ :: _, [] => None
  end.

Definition literal (word : string) (v : JsVal) (l : list ascii)
  : option (JsVal * list ascii) :=
  match starts_with (list_ascii_of_string word) l with
  | Some rest => Some (v, rest)
  | None => None
  end.

(** A value, then the items of an array after its first, then the
    members of an object after its first; [fuel] bounds the nesting and
    the number of items. *)
Fixpoint value (fuel : nat) (l : list ascii) : option (JsVal * list ascii) :=
  match fuel with
  | O => None
  | S f =>
      match skip_ws l with
      | [] => None
      | c :: r =>
          let n := code c in
          if n =? 123 then
            match skip_ws r with
            | d :: r' =>
                if code d =? 125 then Some (JObj [], r')
                else
                  match member f (d :: r') with
                  | Some (kv, rest) =>
                      match members f rest with
                      | Some (fs, rest') =>
                          Some (JObj (fold_left (fun acc p => set_prop (fst p) (snd p) acc)
                                        (kv :: fs) []), rest')
                      | None => None
                      end
                  | None => None
                  end
            | [] => None
            end
          else if n =? 91 then
            match skip_ws r with
            | d :: r' =>
                if code d =? 93 then Some (JArr [], r')
                else
                  match value f (d :: r') with
                  | Some (x, rest) =>
                      match items f rest with
                      | Some (xs, rest') => Some (JArr (x :: xs), rest')
                      | None => None
                      end
                  | None => None
                  end
            | [] => None
            end
          else if n =? 34 then
            match string_chars r with
            | Some (s, rest) => Some (JStr s, rest)
            | None => None
            end
          else if n =? 116 then literal "true" (JBool true) (c :: r)
          else if n =? 102 then literal "false" (JBool false) (c :: r)
          else if n =? 110 then literal "null" JNull (c :: r)
          else
            match number (c :: r) with
            | Some (z, rest) => Some (JNum z, rest)
            | None => None
            end
      end
  end

with items (fuel : nat) (l : list ascii) : option (list JsVal * list ascii) :=
  match fuel with
  | O => None
  | S f =>
      match skip_ws l with
      | c :: r =>
          if code c =? 93 then Some ([], r)
          else if code c =? 44 then
            match value f r with
            | Some (x, rest) =>
                match items f rest with
                | Some (xs, rest') => Some (x :: xs, rest')
                | None => None
                end
            | None => None
            end
          else None
      | [] => None
      end
  end

with member (fuel : nat) (l : list ascii)
  : option ((string * JsVal) * list ascii) :=
  match fuel with
  | O => None
  | S f =>
      match skip_ws l with
      | c :: r =>
          if code c =? 34 then
            match string_chars r with
            | Some (k, rest) =>
                match skip_ws rest with
                | d :: rest' =>
                    if code d =? 58 then
                      match value f rest' with
                      | Some (x, rest'') => Some ((k, x), rest'')
                      | None => None
                      end
                    else None
                | [] => None
                end
            | None => None
            end
          else None
      | [] => None
      end
  end

with members (fuel : nat) (l : list ascii)
  : option (list (string * JsVal) * list ascii) :=
  match fuel with
  | O => None
  | S f =>
      match skip_ws l with
      | c :: r =>
          if code c =? 125 then Some ([], r)
          else if code c =? 44 then
            match member f r with
            | Some (kv, rest) =>
                match members f rest with
                | Some (fs, rest') => Some (kv :: fs, rest')
                | None => None
                end
            | None => None
            end
          else None
      | [] => None
      end
  end.

(** [JSON.parse(s)], on the documents described above. *)
Definition parse (s : string) : option JsVal :=
  let l := list_ascii_of_string s in
  match value (S (length l)) l with
  | Some (v, rest) =>
      match skip_ws rest with
      | [] => Some v
      | _ :: _ => None
      end
  | None => None
  end.

End JSON.

(** ** The platform of the route: environment, requests, fetch *)

(** [process.env]: a variable is a string, or is not set. *)
Record Env := mkEnv {
  NETLIFY_TOKEN : option string;
  NETLIFY_SITE_ID : option string;
  VERCEL_TOKEN : option string;
  VERCEL_PROJECT_ID : option string;
  VERCEL_TEAM_ID : option string
}.

(** The value of [process.env.X]. *)
Definition env_val (o : option string) : JsVal :=
  match o with
  | Some s => JStr s
  | None => JUndefined
  end.

(** A value inside a template literal: [ToString].  A number is written
    by [decimal], hence as JavaScript writes it below 10^21. *)
Fixpoint template (v : JsVal) : string :=
  match v with
  | JStr s => s
  | JUndefined => "undefined"
  | JNull => "null"
  | JBool true => "true"
  | JBool false => "false"
  | JNum n => decimal n
  | JArr items =>
      join ","
        (map (fun x => match x with
                       | JUndefined | JNull => EmptyString
                       | _ => template x
                       end) items)
  | JObj _ => "[object Object]"
  end.

(** The incoming request: what [await request.json()] gives. *)
Record Request := mkRequest { req_json : Result JsVal }.

(** A multipart form, as the form-data package holds it. *)
Record FormPart := mkPart {
  part_field : string;
  part_content : list byte;
  part_filename : string;
  part_contentType : string
}.

Record FormData := mkForm { form_boundary : string; form_parts : list FormPart }.

Inductive Body : Type :=
| BodyForm (fd : FormData)
| BodyText (s : string)
| BodyNone.

(** The arguments of a call of [fetch]. *)
Record FetchReq := mkFetch {
  rq_url : string;
  rq_method : string;
  rq_headers : list (string * string);
  rq_body : Body
}.

(** What a provider answers: the status, and what [res.text()] and
    [res.json()] give. *)
Record FetchRes := mkRes {
  res_status : Z;
  res_text : Result string;
  res_json : Result JsVal
}.

(** [res.ok] *)
Definition res_ok (r : FetchRes) : bool :=
  (200 <=? res_status r) && (res_status r <=? 299).

(** Everything outside the handler that its result depends on. *)
Record World := mkWorld {
  (** [Date.now()] *)
  Date_now : Z;
  (** the time and date JSZip stamps the entries with, in DOS format *)
  zip_time : Z;
  zip_date : Z;
  (** the boundary a new form draws *)
  new_boundary : string;
  (** whether [crypto.subtle] is there *)
  has_subtle : bool;
  (** the network *)
  fetch : FetchReq -> Result FetchRes;
  (** what JSZip reads from a content that is not a string *)
  JSZip_content : JsVal -> Result (list byte);
  (** what [Buffer.from] makes of a value that is not a string *)
  Buffer_from_value : JsVal -> Result (list byte)
}.

(** The response of the route: [NextResponse.json(data, { status })]. *)
Record HttpResponse := mkResponse { status : Z; body : JsVal }.

Definition NextResponse_json (data : JsVal) (st : Z) : HttpResponse :=
  mkResponse st (JSON.clean data).

(** ** Effects: a trace of events, and exceptions *)

Inductive Event : Type :=
| ArchiveBuilt (zipped : list byte)
| Fetched (rq : FetchReq)
| ConsoleError (err : Exn).

Definition M (A : Type) : Type := list Event -> list Event * Result A.

Definition ret {A} (a : A) : M A := fun tr => (tr, inr a).

Definition bind {A B} (m : M A) (k : A -> M B) : M B :=
  fun tr =>
    match m tr with
    | (tr', inr a) => k a tr'
    | (tr', inl e) => (tr', inl e)
    end.

Definition emit (e : Event) : M unit := fun tr => (tr ++ [e], inr tt).

(** [await p], or any expression that may throw. *)
Definition await {A} (r : Result A) : M A := fun tr => (tr, r).

(** [try { m } catch (err) { h err }], where the handler does not throw. *)
Definition try_catch {A} (m : M A) (h : Exn -> list Event -> list Event * A)
  : list Event -> list Event * A :=
  fun tr =>
    match m tr with
    | (tr', inr a) => (tr', a)
    | (tr', inl e) => h e tr'
    end.

Notation "x <- m ;; k" := (bind m (fun x => k))
  (at level 61, m at next level, right associativity).
Notation "m ;;; k" := (bind m (fun _ => k))
  (at level 61, right associativity).

(** ** JSZip, as the route uses it *)

Module JSZip.

(** The files of the archive under construction, with the content each
    was given. *)
Definition t : Type := list (string * JsVal).

Definition new : t := [].

(** [zip.file(name, data)] *)
Definition file (zip : t) (name : string) (data : JsVal) : t :=
  set_prop name data zip.

(** The bytes of a content: the UTF-8 bytes of a string, nothing for a
    falsy content. *)
Definition content (w : World) (v : JsVal) : Result (list byte) :=
  if negb (truthy v) then inr []
  else
    match v with
    | JStr s => inr (Buffer_from s)
    | _ => JSZip_content w v
    end.

Fixpoint entries (w : World) (zip : t) : Result (list Zip.entry) :=
  match zip with
  | [] => inr []
  | (n, v) :: r =>
      match content w v, entries w r with
      | inr d, inr es => inr (Zip.mkEntry n d :: es)
      | inl e, _ => inl e
      | _, inl e => inl e
      end
  end.

(** [await zip.generateAsync({ type: 'nodebuffer' })] *)
Definition generateAsync (w : World) (zip : t) : M (list byte) :=
  es <- await (entries w zip) ;;
  let zipped := Zip.generate (zip_time w) (zip_date w) es in
  emit (ArchiveBuilt zipped) ;;;
  ret zipped.

End JSZip.

(** ** The publish route: [src/route.ts] *)

(** [!x] for an environment variable. *)
Definition unset (o : option string) : bool := negb (truthy (env_val o)).

(** [const { html, provider } = v]: a TypeError when [v] is [null]. *)
Definition destructure (v : JsVal) (k : string) : Result JsVal :=
  match v with
  | JNull | JUndefined =>
      inl ("Cannot destructure property '" +++ k +++ "' of '(intermediate value)' as it is "
             +++ template v +++ ".")
  | JObj fs => inr (lookup k fs)
  | _ => inr JUndefined
  end.

(** [Buffer.from(v)] *)
Definition Buffer_from_js (w : World) (v : JsVal) : Result (list byte) :=
  match v with
  | JStr s => inr (Buffer_from s)
  | _ => Buffer_from_value w v
  end.

(** [new FormData()], [formData.append(field, content, options)] and
    [formData.getHeaders()]. *)
Definition FormData_new (w : World) : FormData := mkForm (new_boundary w) [].

Definition FormData_append (fd : FormData) (field : string) (content : list byte)
  (filename contentType : string) : FormData :=
  mkForm (form_boundary fd)
    (form_parts fd ++ [mkPart field content filename contentType]).

Definition FormData_getHeaders (fd : FormData) : list (string * string) :=
  [("content-type", "multipart/form-data; boundary=" +++ form_boundary fd)].

(** [await fetch(url, init)] *)
Definition do_fetch (w : World) (rq : FetchReq) : M FetchRes :=
  emit (Fetched rq) ;;;
  await (fetch w rq).

(** The body of a request given as a value: a string is sent as it is,
    [undefined] means no body. *)
Definition body_of (v : JsVal) : Body :=
  match v with
  | JUndefined | JNull => BodyNone
  | _ => BodyText (template v)
  end.

(** [sha1(data)]: the digest by SubtleCrypto when there is one, by Node's
    crypto otherwise, in hexadecimal. *)
Definition sha1 (w : World) (data : list byte) : M string :=
  if has_subtle w then
    hash <- await (inr (SHA1.digest data)) ;;
    ret (Hex.encode hash)
  else
    ret (Hex.encode (SHA1.digest data)).

(** The manifest [{ name: 'webmake-site', version: '1.0.0' }]. *)
Definition manifest : JsVal :=
  JObj [("name", JStr "webmake-site"); ("version", JStr "1.0.0")].

(** Lines 24 to 28: the archive of the site. *)
Definition build_archive (w : World) (html : JsVal) : M (list byte) :=
  let zip := JSZip.new in
  let zip := JSZip.file zip "index.html" html in
  let zip := JSZip.file zip "package.json" (JSON.stringify manifest 2) in
  JSZip.generateAsync w zip.

(** Lines 45 to 57: the request to Netlify. *)
Definition netlify_request (w : World) (token siteId : JsVal)
  (zipped : list byte) : FetchReq :=
  let formData := FormData_new w in
  let formData :=
    FormData_append formData "file" zipped "site.zip" "application/zip" in
  mkFetch
    ("https://api.netlify.com/api/v1/sites/" +++ template siteId +++ "/deploys")
    "POST"
    (("Authorization", "Bearer " +++ template token)
       :: FormData_getHeaders formData)
    (BodyForm formData).

(** Lines 78 to 98: the deployment payload for Vercel. *)
Definition vercel_payload (w : World) (projectId teamId html : JsVal)
  : M JsVal :=
  data <- await (Buffer_from_js w html) ;;
  sha <- sha1 w data ;;
  data2 <- await (Buffer_from_js w (JSON.stringify manifest 0)) ;;
  data3 <- await (Buffer_from_js w (JSON.stringify manifest 0)) ;;
  sha2 <- sha1 w data3 ;;
  let files :=
    JArr [JObj [("file", JStr "index.html");
                ("data", JStr (Base64.encode data));
                ("sha", JStr sha)];
          JObj [("file", JStr "package.json");
                ("data", JStr (Base64.encode data2));
                ("sha", JStr sha2)]] in
  let body :=
    [("name", JStr ("webmake-site-" +++ decimal (Date_now w)));
     ("project", projectId);
     ("files", files);
     ("target", JStr "production")] in
  let body := if truthy teamId then set_prop "teamId" teamId body else body in
  ret (JObj body).

(** Lines 99 to 106: the request to Vercel. *)
Definition vercel_request (token payload : JsVal) : FetchReq :=
  mkFetch "https://api.vercel.com/v13/deployments" "POST"
    [("Authorization", "Bearer " +++ template token);
     ("Content-Type", "application/json")]
    (body_of (JSON.stringify payload 0)).

Definition netlify_message : string :=
  "NETLIFY_TOKEN and NETLIFY_SITE_ID must be set as environment variables to deploy.".

Definition vercel_message : string :=
  "VERCEL_TOKEN and VERCEL_PROJECT_ID must be set as environment variables to deploy.".

(** Lines 31 to 64: the Netlify branch. *)
Definition deploy_netlify (w : World) (env : Env) (zipped : list byte)
  : M HttpResponse :=
  let token := env_val (NETLIFY_TOKEN env) in
  let siteId := env_val (NETLIFY_SITE_ID env) in
  if negb (truthy token) || negb (truthy siteId) then
    let base64zip := Base64.encode zipped in
    ret (NextResponse_json
           (JObj [("message", JStr netlify_message);
                  ("zipBase64", JStr base64zip)]) 200)
  else
    res <- do_fetch w (netlify_request w token siteId zipped) ;;
    if negb (res_ok res) then
      errText <- await (res_text res) ;;
      ret (NextResponse_json
             (JObj [("error", JStr "Netlify deploy failed");
                    ("details", JStr errText)]) 500)
    else
      result <- await (res_json res) ;;
      deploy_url <- await (get_prop result "deploy_url") ;;
      url <- (if truthy deploy_url then ret deploy_url
              else await (get_prop result "url")) ;;
      ret (NextResponse_json (JObj [("url", url)]) 200).

(** Lines 65 to 113: the Vercel branch. *)
Definition deploy_vercel (w : World) (env : Env) (html : JsVal)
  (zipped : list byte) : M HttpResponse :=
  let token := env_val (VERCEL_TOKEN env) in
  let projectId := env_val (VERCEL_PROJECT_ID env) in
  let teamId := env_val (VERCEL_TEAM_ID env) in
  if negb (truthy token) || negb (truthy projectId) then
    let base64zip := Base64.encode zipped in
    ret (NextResponse_json
           (JObj [("message", JStr vercel_message);
                  ("zipBase64", JStr base64zip)]) 200)
  else
    payload <- vercel_payload w projectId teamId html ;;
    res <- do_fetch w (vercel_request token payload) ;;
    if negb (res_ok res) then
      errText <- await (res_text res) ;;
      ret (NextResponse_json
             (JObj [("error", JStr "Vercel deploy failed");
                    ("details", JStr errText)]) 500)
    else
      result <- await (res_json res) ;;
      url <- await (get_prop result "url") ;;
      url <- (if truthy url then ret url
              else await (get_prop result "inspectorUrl")) ;;
      ret (NextResponse_json (JObj [("url", url)]) 200).

(** Lines 19 to 114: the handler once [html] and [provider] are read. *)
Definition respond (w : World) (env : Env) (html provider : JsVal)
  : M HttpResponse :=
  if negb (truthy html) || negb (truthy provider) then
    ret (NextResponse_json
           (JObj [("error", JStr "Missing html or provider")]) 400)
  else
    zipped <- build_archive w html ;;
    if is_str provider "netlify" then deploy_netlify w env zipped
    else if is_str provider "vercel" then deploy_vercel w env html zipped
    else
      ret (NextResponse_json (JObj [("error", JStr "Unknown provider")]) 400).

(** Lines 115 to 118: the [catch] clause. *)
Definition on_error (err : Exn) (tr : list Event) : list Event * HttpResponse :=
  (tr ++ [ConsoleError err],
   NextResponse_json
     (JObj [("error", JStr "Server error"); ("details", JStr err)]) 500).

(** The handler [POST(request)].  Its result is the trace of what it
    did and the response it returns. *)
Definition POST (w : World) (env : Env) (request : Request)
  : list Event * HttpResponse :=
  try_catch
    (parsed <- await (req_json request) ;;
     html <- await (destructure parsed "html") ;;
     provider <- await (destructure parsed "provider") ;;
     respond w env html provider)
    on_error
    [].

(** The outbound calls of a trace. *)
Fixpoint calls (tr : list Event) : list FetchReq :=
  match tr with
  | [] => []
  | Fetched rq :: r => rq :: calls r
  | _ :: r => calls r
  end.

(** The archives built in a trace. *)
Fixpoint archives (tr : list Event) : list (list byte) :=
  match tr with
  | [] => []
  | ArchiveBuilt z :: r => z :: archives r
  | _ :: r => archives r
  end.

(** ** Vocabulary of the specification *)

(** The request is a JSON object whose [html] and [provider] properties
    are the given values, [undefined] standing for a missing property. *)
Definition request_of (request : Request) (html provider : JsVal) : Prop :=
  exists fields,
    req_json request = inr (JObj fields)
    /\ lookup "html" fields = html
    /\ lookup "provider" fields = provider.

(** The configuration keys a provider requires, with their values. *)
Definition required (env : Env) (provider : string)
  : list (string * option string) :=
  if String.eqb provider "netlify" then
    [("NETLIFY_TOKEN", NETLIFY_TOKEN env);
     ("NETLIFY_SITE_ID", NETLIFY_SITE_ID env)]
  else if String.eqb provider "vercel" then
    [("VERCEL_TOKEN", VERCEL_TOKEN env);
     ("VERCEL_PROJECT_ID", VERCEL_PROJECT_ID env)]
  else [].

(** Some required key is not set (or is set to the empty string). *)
Definition credentials_missing (env : Env) (provider : string) : bool :=
  existsb (fun kv => unset (snd kv)) (required env provider).

Definition supported (provider : string) : Prop :=
  provider = "netlify" \/ provider = "vercel".

(** The address at which a provider is called. *)
Definition endpoint (env : Env) (provider : string) : string :=
  if String.eqb provider "netlify" then
    "https://api.netlify.com/api/v1/sites/"
      +++ template (env_val (NETLIFY_SITE_ID env)) +++ "/deploys"
  else "https://api.vercel.com/v13/deployments".

(** What a receiver reads in a fallback payload: the content of the
    entry [name] of the archive that [zipBase64] encodes. *)
Definition extract (zipBase64 name : string) : option string :=
  match Base64.decode zipBase64 with
  | Some zipped =>
      match Zip.load zipped with
      | Some es =>
          match Zip.find name es with
          | Some e => Some (Buffer_toString (Zip.data e))
          | None => None
          end
      | None => None
      end
  | None => None
  end.

(** A JavaScript string holds at most 2^29 - 24 UTF-16 code units (the
    limit of V8), each of at most three bytes in UTF-8. *)
Definition max_utf8_length : Z := 3 * (2 ^ 29 - 24).

Definition js_string (s : string) : Prop :=
  Z.of_nat (String.length s) <= max_utf8_length.

(** The three kinds of response.  A success carries the [url] read in
    the answer of the provider (no property at all when the answer has
    none), a fallback the instructions and the encoded archive, a failure
    an [error]. *)
Definition is_success (r : HttpResponse) : Prop :=
  exists url, body r = JSON.clean (JObj [("url", url)]).

Definition is_fallback (r : HttpResponse) : Prop :=
  exists message zipBase64,
    body r = JObj [("message", JStr message); ("zipBase64", JStr zipBase64)].

Definition is_failure (r : HttpResponse) : Prop :=
  exists error fields, body r = JObj (("error", JStr error) :: fields).

(** The properties of the body of a response. *)
Definition properties (r : HttpResponse) : list (string * JsVal) :=
  match body r with
  | JObj fields => fields
  | _ => []
  end.

(** The entry [name] of an archive. *)
Definition archive_entry (name : string) (zipped : list byte)
  : option (list byte) :=
  match Zip.load zipped with
  | Some es => option_map Zip.data (Zip.find name es)
  | None => None
  end.

(** Among the files of a payload, the one called [name]. *)
Fixpoint file_named (name : string) (files : list JsVal) : JsVal :=
  match files with
  | [] => JUndefined
  | JObj fs :: r =>
      if is_str (lookup "file" fs) name then JObj fs else file_named name r
  | _ :: r => file_named name r
  end.

(** The bytes that a call carries as the [data] of the file [name] of
    its payload. *)
Definition payload_file_data (name : string) (rq : FetchReq)
  : option (list byte) :=
  match rq_body rq with
  | BodyText text =>
      match JSON.parse text with
      | Some (JObj fields) =>
          match lookup "files" fields with
          | JArr files =>
              match file_named name files with
              | JObj fs =>
                  match lookup "data" fs with
                  | JStr d => Base64.decode d
                  | _ => None
                  end
              | _ => None
              end
          | _ => None
          end
      | _ => None
      end
  | _ => None
  end.

(** ** The renderer: [buildHtml] of [src/page.tsx] *)

Record GenResult := mkGen {
  headline : string;
  subheadline : string;
  about : string;
  services : list string;
  cta : string;
  keywords : list string;
  color : string;
  imageUrl : string
}.

(** The text of the template literal between its interpolations, in
    order. *)
Definition tpl0 : string :=
  "<!doctype html>
<html lang=" +++ dq +++ "en" +++ dq +++ ">
<head>
  <meta charset=" +++ dq +++ "utf-8" +++ dq +++ " />
  <meta name=" +++ dq +++ "viewport" +++ dq +++ " content=" +++ dq +++ "width=device-width, initial-scale=1" +++ dq +++ " />
  <title>".

Definition tpl1 : string :=
  "</title>
  <style>
    body { font-family: system-ui, -apple-system, Segoe UI, Roboto, Inter, sans-serif; margin:0; color:#111; }
    .hero{ background: linear-gradient(135deg, ".

Definition tpl2 : string :=
  ", #111827); color:white; padding:64px 20px; }
    .container{ max-width: 960px; margin:0 auto; padding:0 16px; }
    .card{ background:#fff; border-radius:16px; box-shadow:0 8px 30px rgba(0,0,0,.08); padding:24px; margin:16px 0; }
    .btn{ background:".

Definition tpl3 : string :=
  "; color:white; border-radius:10px; padding:12px 18px; text-decoration:none; display:inline-block; }
    .services li { margin: 6px 0; }
    .hero-img { width:100%; border-radius:16px; margin-top:16px; }
  </style>
</head>
<body>
  <header class=" +++ dq +++ "hero" +++ dq +++ ">
    <div class=" +++ dq +++ "container" +++ dq +++ ">
      <h1>".

Definition tpl4 : string :=
  "</h1>
      <p>".

Definition tpl5 : string :=
  "</p>
      <a href=" +++ dq +++ "https://wa.me/9580378761" +++ dq +++ " class=" +++ dq +++ "btn" +++ dq +++ ">".

Definition tpl6 : string :=
  "</a>
      <img class=" +++ dq +++ "hero-img" +++ dq +++ " src=" +++ dq.

Definition tpl7 : string :=
  dq +++ " alt=" +++ dq +++ "hero" +++ dq +++ " />
    </div>
  </header>
  <main class=" +++ dq +++ "container" +++ dq +++ ">
    <section class=" +++ dq +++ "card" +++ dq +++ ">
      <h2>About Us</h2>
      <p>".

Definition tpl8 : string :=
  "</p>
    </section>
    <section class=" +++ dq +++ "card" +++ dq +++ ">
      <h2>Our Services</h2>
      <ul class=" +++ dq +++ "services" +++ dq +++ ">
        ".

Definition tpl9 : string :=
  "
      </ul>
    </section>
  </main>
  <footer class=" +++ dq +++ "container" +++ dq +++ " style=" +++ dq +++ "padding:32px 16px;opacity:.7;" +++ dq +++ ">
    © ".

Definition tpl10 : string :=
  " ".

Definition tpl11 : string :=
  "
  </footer>
</body>
</html>".

(** [(s) => `<li>... ${s}</li>`] *)
Definition service_item (s : string) : string := "<li>• " +++ s +++ "</li>".

(** [buildHtml(data)], in the year [new Date().getFullYear()] gives. *)
Definition buildHtml (year : Z) (data : GenResult) : string :=
  tpl0 +++ headline data
  +++ tpl1 +++ color data
  +++ tpl2 +++ color data
  +++ tpl3 +++ headline data
  +++ tpl4 +++ subheadline data
  +++ tpl5 +++ template (js_or (JStr (cta data)) (JStr "Contact Us"))
  +++ tpl6 +++ imageUrl data
  +++ tpl7 +++ about data
  +++ tpl8 +++ join EmptyString (map service_item (services data))
  +++ tpl9 +++ decimal year
  +++ tpl10 +++ headline data
  +++ tpl11.

(** [s.includes(sub)] *)
Fixpoint includes (s sub : string) : bool :=
  String.prefix sub s
  || match s with
     | EmptyString => false
     | String _ r => includes r sub
     end.

(** [{ ...data, color }] *)
Definition with_color (data : GenResult) (c : string) : GenResult :=
  mkGen (headline data) (subheadline data) (about data) (services data)
    (cta data) (keywords data) c (imageUrl data).

(** The text of the call to action: [data.cta || 'Contact Us']. *)
Definition cta_text (data : GenResult) : string :=
  if String.eqb (cta data) EmptyString then "Contact Us" else cta data.

(** ** The page: [DemoPage] of [src/page.tsx]

    The state of the component, and what its functions do to it and to
    the browser.  [edit] has the type the source declares for it.  The
    effect of lines 40 to 44, which React runs after a render in which
    [result] has changed, is not one of these functions. *)

Module Page.

Record GenInput := mkInput {
  businessName : string;
  description : string;
  category : string
}.

(** The seven [useState] cells.  [null] is [None] for the typed cells;
    [result] and [publishUrl] hold whatever the server sent. *)
Record State := mkState {
  input : GenInput;
  loading : bool;
  result : JsVal;
  edit : option GenResult;
  error : option string;
  publishing : option string;
  publishUrl : JsVal
}.

(** What the page does to the browser. *)
Inductive Effect : Type :=
| Called (rq : FetchReq)
| ObjectURLCreated (url : string) (blob : list byte)
| Clicked (href download : string)
| ObjectURLRevoked (url : string).

(** A run of the page: its state, and what it did so far. *)
Record Session := mkSession { state : State; effects : list Effect }.

(** An asynchronous function of the component: it changes the session,
    and returns or throws. *)
Definition Run (A : Type) : Type := Session -> Session * Result A.

Definition ret {A} (a : A) : Run A := fun s => (s, inr a).

Definition bind {A B} (m : Run A) (k : A -> Run B) : Run B :=
  fun s =>
    match m s with
    | (s', inr a) => k a s'
    | (s', inl e) => (s', inl e)
    end.

(** [await p], or any expression that may throw. *)
Definition await {A} (r : Result A) : Run A := fun s => (s, r).

(** [throw new Error(message)] *)
Definition throw {A} (message : JsVal) : Run A :=
  fun s => (s, inl (template message)).

Definition effect (e : Effect) : Run unit :=
  fun s => (mkSession (state s) (effects s ++ [e]), inr tt).

Definition update (f : State -> State) : Run unit :=
  fun s => (mkSession (f (state s)) (effects s), inr tt).

(** [try { m } catch (e) { h e } finally { fin }] *)
Definition try_catch_finally {A} (m : Run A) (h : Exn -> Run A)
  (fin : Run unit) : Run A :=
  fun s =>
    let '(s1, r) :=
      match m s with
      | (s', inr a) => (s', inr a)
      | (s', inl e) => h e s'
      end in
    match fin s1 with
    | (s2, inr _) => (s2, r)
    | (s2, inl e) => (s2, inl e)
    end.

Declare Scope page_scope.

Notation "x <- m ;; k" := (bind m (fun x => k))
  (at level 61, m at next level, right associativity) : page_scope.
Notation "m ;;; k" := (bind m (fun _ => k))
  (at level 61, right associativity) : page_scope.

#[local] Open Scope page_scope.

(** The setters of the state. *)
Definition setLoading (b : bool) : Run unit :=
  update (fun st => mkState (input st) b (result st) (edit st) (error st)
                      (publishing st) (publishUrl st)).

Definition setResult (v : JsVal) : Run unit :=
  update (fun st => mkState (input st) (loading st) v (edit st) (error st)
                      (publishing st) (publishUrl st)).

Definition setError (e : option string) : Run unit :=
  update (fun st => mkState (input st) (loading st) (result st) (edit st) e
                      (publishing st) (publishUrl st)).

Definition setPublishing (p : option string) : Run unit :=
  update (fun st => mkState (input st) (loading st) (result st) (edit st)
                      (error st) p (publishUrl st)).

Definition setPublishUrl (u : JsVal) : Run unit :=
  update (fun st => mkState (input st) (loading st) (result st) (edit st)
                      (error st) (publishing st) u).

(** [await fetch(url, init)], in the browser. *)
Definition do_fetch (w : World) (rq : FetchReq) : Run FetchRes :=
  effect (Called rq) ;;;
  await (fetch w rq).

(** [e.message || fallback] *)
Definition message_or (e : Exn) (fallback : string) : string :=
  template (js_or (JStr e) (JStr fallback)).

(** The payload of [generate], as an object. *)
Definition input_object (payload : GenInput) : JsVal :=
  JObj [("businessName", JStr (businessName payload));
        ("description", JStr (description payload));
        ("category", JStr (category payload))].

(** Lines 51 to 55: the call of [generate]. *)
Definition generate_call (payload : GenInput) : FetchReq :=
  mkFetch "/api/generate" "POST" [("Content-Type", "application/json")]
    (body_of (JSON.stringify (input_object payload) 0)).

(** Lines 46 to 64: [generate(payload)]. *)
Definition generate (w : World) (payload : GenInput) : Run unit :=
  setLoading true ;;;
  setError None ;;;
  setPublishUrl JNull ;;;
  try_catch_finally
    (res <- do_fetch w (generate_call payload) ;;
     if negb (res_ok res) then
       throw (JStr ("Generation failed (" +++ decimal (res_status res) +++ ")"))
     else
       data <- await (res_json res) ;;
       setResult data)
    (fun e => setError (Some (message_or e "Something went wrong.")))
    (setLoading false).

(** Lines 66 to 78: [exportZip()].  [object_url] is the address that
    [URL.createObjectURL] draws. *)
Definition exportZip (w : World) (year : Z) (object_url : string) : Run unit :=
  fun s =>
    match edit (state s) with
    | None => ret tt s
    | Some data =>
        (let zip := JSZip.new in
         let html := buildHtml year data in
         let zip := JSZip.file zip "index.html" (JStr html) in
         es <- await (JSZip.entries w zip) ;;
         let blob := Zip.generate (zip_time w) (zip_date w) es in
         let url := object_url in
         effect (ObjectURLCreated url blob) ;;;
         effect (Clicked url "webmake-site.zip") ;;;
         effect (ObjectURLRevoked url)) s
    end.

(** Lines 135 to 139: the call of [publish]. *)
Definition publish_call (provider html : string) : FetchReq :=
  mkFetch "/api/publish" "POST" [("Content-Type", "application/json")]
    (body_of
       (JSON.stringify
          (JObj [("provider", JStr provider); ("html", JStr html)]) 0)).

(** Lines 128 to 148: [publish(provider)]. *)
Definition publish (w : World) (year : Z) (provider : string) : Run unit :=
  fun s =>
    match edit (state s) with
    | None => ret tt s
    | Some site =>
        (setPublishing (Some provider) ;;;
         setError None ;;;
         setPublishUrl JNull ;;;
         try_catch_finally
           (let html := buildHtml year site in
            res <- do_fetch w (publish_call provider html) ;;
            data <- await (res_json res) ;;
            if negb (res_ok res) then
              err <- await (get_prop data "error") ;;
              throw (js_or err
                       (JStr ("Publish failed (" +++ decimal (res_status res)
                                +++ ")")))
            else
              url <- await (get_prop data "url") ;;
              setPublishUrl url)
           (fun e => setError (Some (message_or e "Publishing error.")))
           (setPublishing None)) s
    end.

(** The services editor, lines 224 and 225.  [split sep s] is
    [s.split(sep)] for a separator of one character. *)
Fixpoint split (sep : ascii) (s : string) : list string :=
  match s with
  | EmptyString => [EmptyString]
  | String c r =>
      if Ascii.eqb c sep then EmptyString :: split sep r
      else
        match split sep r with
        | x :: xs => String c x :: xs
        | [] => [String c EmptyString]
        end
  end.

Definition newline : ascii := ascii_of_nat 10.

(** [edit.services.join('\n')]: what the text area shows. *)
Definition services_text (l : list string) : string := join nl l.

(** [value.split('\n').filter(Boolean)]: the services read in the text
    area. *)
Definition services_of_text (value : string) : list string :=
  filter (fun s => truthy (JStr s)) (split newline value).

(** [onChange] of the text area: [{ ...edit, services }]. *)
Definition edit_services (data : GenResult) (value : string) : GenResult :=
  mkGen (headline data) (subheadline data) (about data)
    (services_of_text value) (cta data) (keywords data) (color data)
    (imageUrl data).

(** A service as the editor can hold it: a text that is not empty and
    has no line break. *)
Definition single_line (s : string) : bool :=
  negb (existsb (fun c => Ascii.eqb c newline) (list_ascii_of_string s)).

Definition service_line (s : string) : Prop :=
  s <> EmptyString /\ single_line s = true.

End Page.

(** ** The page and the route together *)

(** What the browser receives of a response of the route: its status,
    and its body as text and as JSON. *)
Definition delivered (r : HttpResponse) : FetchRes :=
  mkRes (status r) (inr (template (JSON.stringify (body r) 0))) (inr (body r)).

(** ** Sample data *)

Definition sample_html : string := "<p>x</p>".

(** A provider that answers 500 with the text [quota exceeded]. *)
Definition quota_exceeded : FetchRes :=
  mkRes 500 (inr "quota exceeded") (inl "Unexpected token q in JSON at position 0").

(** A provider that accepts the deployment. *)
Definition deployed : FetchRes :=
  mkRes 200 (inr "{}") (inr (JObj [("url", JStr "https://example.vercel.app")])).

(** A world whose network gives the same answer to every call. *)
Definition world_of (answer : FetchRes) : World :=
  mkWorld 1700000000000 0 33 "--------------------------000000000000000000000000"
    true
    (fun _ => inr answer)
    (fun _ => inl "Can't read the data of 'index.html'.")
    (fun _ => inl "The first argument must be of type string.").

Definition no_credentials : Env := mkEnv None None None None None.

Definition all_credentials : Env :=
  mkEnv (Some "nf-token") (Some "site-1") (Some "vc-token") (Some "prj-1") None.

(** The request [{ html, provider }]. *)
Definition publish_request (html provider : JsVal) : Request :=
  mkRequest (inr (JObj [("html", html); ("provider", provider)])).

(** The request [{}]. *)
Definition empty_request : Request := mkRequest (inr (JObj [])).

(** ** Derived definitions

    What the handler computes on a request whose [html] is a string, in
    closed form; each is related to the handler by a lemma below. *)

(** The two writings of the manifest: indented by two spaces, as
    [JSON.stringify(manifest, null, 2)] writes it, and compact, as
    [JSON.stringify(manifest)] does. *)
Definition manifest_pretty : string :=
  "{" +++ nl
  +++ "  " +++ dq +++ "name" +++ dq +++ ": " +++ dq +++ "webmake-site" +++ dq +++ "," +++ nl
  +++ "  " +++ dq +++ "version" +++ dq +++ ": " +++ dq +++ "1.0.0" +++ dq +++ nl
  +++ "}".

Definition manifest_compact : string :=
  "{" +++ dq +++ "name" +++ dq +++ ":" +++ dq +++ "webmake-site" +++ dq
  +++ "," +++ dq +++ "version" +++ dq +++ ":" +++ dq +++ "1.0.0" +++ dq +++ "}".

(** The entries and the bytes of the archive that [build_archive] makes
    of a site. *)
Definition site_entries (html : string) : list Zip.entry :=
  [Zip.mkEntry "index.html" (Buffer_from html);
   Zip.mkEntry "package.json" (Buffer_from manifest_pretty)].

Definition site_archive (w : World) (html : string) : list byte :=
  Zip.generate (zip_time w) (zip_date w) (site_entries html).

(** The message of the fallback of a provider. *)
Definition fallback_message (provider : string) : string :=
  if String.eqb provider "netlify" then netlify_message else vercel_message.

(** The two files of the payload sent to Vercel. *)
Definition index_file (html : string) : JsVal :=
  JObj [("file", JStr "index.html");
        ("data", JStr (Base64.encode (Buffer_from html)));
        ("sha", JStr (Hex.encode (SHA1.digest (Buffer_from html))))].

Definition manifest_file : JsVal :=
  JObj [("file", JStr "package.json");
        ("data", JStr (Base64.encode (Buffer_from manifest_compact)));
        ("sha", JStr (Hex.encode (SHA1.digest (Buffer_from manifest_compact))))].

(** The payload that [vercel_payload] makes of a site. *)
Definition payload_of (w : World) (projectId teamId : JsVal) (html : string)
  : JsVal :=
  let fields :=
    [("name", JStr ("webmake-site-" +++ decimal (Date_now w)));
     ("project", projectId);
     ("files", JArr [index_file html; manifest_file]);
     ("target", JStr "production")] in
  JObj (if truthy teamId then fields ++ [("teamId", teamId)] else fields).

(** The request a provider receives for a site. *)
Definition deploy_request (w : World) (env : Env) (html provider : string)
  : FetchReq :=
  if String.eqb provider "netlify" then
    netlify_request w (env_val (NETLIFY_TOKEN env))
      (env_val (NETLIFY_SITE_ID env)) (site_archive w html)
  else
    vercel_request (env_val (VERCEL_TOKEN env))
      (payload_of w (env_val (VERCEL_PROJECT_ID env))
         (env_val (VERCEL_TEAM_ID env)) html).

(** What the handler makes of the answer of the provider: lines 58 to 63
    and 107 to 112. *)
Definition answer_of (provider : string) (answer : Result FetchRes)
  : Result HttpResponse :=
  match answer with
  | inl e => inl e
  | inr res =>
      if negb (res_ok res) then
        match res_text res with
        | inl e => inl e
        | inr errText =>
            inr (mkResponse 500
                   (JObj [("error",
                           JStr (if String.eqb provider "netlify"
                                 then "Netlify deploy failed"
                                 else "Vercel deploy failed"));
                          ("details", JStr errText)]))
        end
      else
        match res_json res with
        | inl e => inl e
        | inr result =>
            let first := if String.eqb provider "netlify" then "deploy_url" else "url" in
            let second := if String.eqb provider "netlify" then "url" else "inspectorUrl" in
            match get_prop result first with
            | inl e => inl e
            | inr u =>
                if truthy u then inr (NextResponse_json (JObj [("url", u)]) 200)
                else
                  match get_prop result second with
                  | inl e => inl e
                  | inr u' => inr (NextResponse_json (JObj [("url", u')]) 200)
                  end
            end
        end
  end.

(** [Q] holds of whatever [m] returns. *)
Definition returns {A} (m : M A) (Q : A -> Prop) : Prop :=
  forall tr tr' a, m tr = (tr', inr a) -> Q a.

(** A response is one of: 200 with a success or a fallback; 400 with an
    [error] only; 500 with an [error] and its [details]. *)
Definition ok_200 (r : HttpResponse) : Prop :=
  status r = 200 /\ (is_success r \/ is_fallback r).

Definition failure_400 (r : HttpResponse) : Prop :=
  status r = 400
  /\ exists e, body r = JObj [("error", JStr e)]
       /\ (e = "Missing html or provider" \/ e = "Unknown provider").

Definition failure_500 (r : HttpResponse) : Prop :=
  status r = 500
  /\ exists e d, body r = JObj [("error", JStr e); ("details", JStr d)]
       /\ (e = "Netlify deploy failed" \/ e = "Vercel deploy failed"
           \/ e = "Server error").

Definition shaped (r : HttpResponse) : Prop :=
  ok_200 r \/ failure_400 r \/ failure_500 r.

(** ** More vocabulary: the traces of the handler *)

(** The errors logged in a trace. *)
Fixpoint logged (tr : list Event) : list Exn :=
  match tr with
  | [] => []
  | ConsoleError err :: r => err :: logged r
  | _ :: r => logged r
  end.

(** What the handler does before it returns or throws: nothing, or the
    archive, or the archive and then one call. *)
Inductive respond_trace : list Event -> Prop :=
| rt_none : respond_trace []
| rt_built (zipped : list byte) : respond_trace [ArchiveBuilt zipped]
| rt_called (zipped : list byte) (rq : FetchReq) :
    respond_trace [ArchiveBuilt zipped; Fetched rq].


(** The response of the [catch] clause. *)
Definition server_error (err : Exn) : HttpResponse :=
  mkResponse 500 (JObj [("error", JStr "Server error"); ("details", JStr err)]).

Definition not_server_error (r : HttpResponse) : Prop :=
  lookup "error" (properties r) <> JStr "Server error".

(** The two properties of the answer of a provider in which the handler
    looks for the address of the site, in this order. *)
Definition url_keys (provider : string) : string * string :=
  if String.eqb provider "netlify" then ("deploy_url", "url")
  else ("url", "inspectorUrl").

(** A lowercase hexadecimal digit. *)
Definition is_hex_digit (c : ascii) : bool :=
  existsb (Ascii.eqb c) (list_ascii_of_string Hex.digits).

(** A world without network: every call of [fetch] is rejected. *)
Definition offline : World :=
  mkWorld 1700000000000 0 33 "--------------------------000000000000000000000000"
    true
    (fun _ => inl "fetch failed")
    (fun _ => inl "Can't read the data of 'index.html'.")
    (fun _ => inl "The first argument must be of type string.").

(** A provider that answers 200 with a page that is not JSON. *)
Definition not_json : FetchRes :=
  mkRes 200 (inr "<html></html>") (inl "Unexpected token < in JSON at position 0").

(** A provider that answers 200 with the object [{ id: 7 }]. *)
Definition no_address : FetchRes :=
  mkRes 200 (inr "{}") (inr (JObj [("id", JNum 7)])).

Definition team_credentials : Env :=
  mkEnv None None (Some "vc-token") (Some "prj-1") (Some "team-9").

(** A sample site, and a session in which it is being edited. *)
Definition sample_site : GenResult :=
  mkGen "Peacock Salon" "Premium hair & beauty" "Hair, skin and bridal."
    ["Haircuts"; "Makeup"] EmptyString [] "#4f46e5"
    "https://example.com/hero.jpg".

Definition editing (site : GenResult) : Page.Session :=
  Page.mkSession
    (Page.mkState (Page.mkInput "Peacock Salon" "Premium salon" "salon")
       false JNull (Some site) None None JNull)
    [].

(** The application server answering the page with a response. *)
Definition answering (r : HttpResponse) : World :=
  world_of (delivered r).

(** What [publish] leaves in [error] and in [publishUrl], from the
    answer to its call: lines 140 to 144 of the page. *)
Definition publish_outcome (answer : Result FetchRes) : option string * JsVal :=
  let failed := fun e : Exn =>
    (Some (Page.message_or e "Publishing error."), JNull) in
  match answer with
  | inl e => failed e
  | inr res =>
      match res_json res with
      | inl e => failed e
      | inr data =>
          if negb (res_ok res) then
            match get_prop data "error" with
            | inl e => failed e
            | inr err =>
                failed (template
                          (js_or err
                             (JStr ("Publish failed ("
                                      +++ decimal (res_status res) +++ ")"))))
            end
          else
            match get_prop data "url" with
            | inl e => failed e
            | inr url => (None, url)
            end
      end
  end.

(** The state after [publish] has settled. *)
Definition published (st : Page.State) (o : option string * JsVal) : Page.State :=
  Page.mkState (Page.input st) (Page.loading st) (Page.result st) (Page.edit st)
    (fst o) None (snd o).

(** A character that [JSON.stringify] writes as itself or as an escape
    of two characters: any character but the control characters other
    than backspace, tab, line feed, form feed and carriage return. *)
Definition plain_char (c : ascii) : bool :=
  let n := JSON.code c in
  (32 <=? n) || (n =? 8) || (n =? 9) || (n =? 10) || (n =? 12) || (n =? 13).

Definition plain (s : string) : bool :=
  forallb plain_char (list_ascii_of_string s).

(** What the route reads of the body of a call: [await request.json()]
    on a request with that body. *)
Definition received (rq : FetchReq) : option JsVal :=
  match rq_body rq with
  | BodyText text => JSON.parse text
  | _ => None
  end.

(** ** Facts about bytes and base64 *)

Lemma Z_of_byte_range (b : byte) : 0 <= Z_of_byte b < 256.
Proof.
  unfold Z_of_byte.
  pose proof (Byte.to_N_bounded b) as Hb.
  lia.
Qed.

Lemma byte_of_Z_of_byte (b : byte) : byte_of_Z (Z_of_byte b) = b.
Proof.
  unfold byte_of_Z.
  rewrite Z.mod_small by apply Z_of_byte_range.
  unfold Z_of_byte. rewrite N2Z.id, Byte.of_to_N. reflexivity.
Qed.

Lemma Z_of_byte_of_Z (z : Z) : Z_of_byte (byte_of_Z z) = z mod 256.
Proof.
  unfold byte_of_Z, Z_of_byte.
  assert (Hr : 0 <= z mod 256 < 256) by (apply Z.mod_pos_bound; lia).
  destruct (Byte.of_N (Z.to_N (z mod 256))) as [b|] eqn:E.
  - apply Byte.to_of_N in E. rewrite E. lia.
  - apply Byte.of_N_None_iff in E. lia.
Qed.

Lemma Buffer_roundtrip (s : string) : Buffer_toString (Buffer_from s) = s.
Proof. apply string_of_list_byte_of_string. Qed.

Module Base64Facts.
Import Base64.

(** Every sextet is mapped to a character that maps back to it and is not
    the padding character: checked on the 64 sextets. *)
Lemma sextets_ok : forallb sextet_ok (map Z.of_nat (seq 0 64)) = true.
Proof. vm_compute. reflexivity. Qed.

Lemma sextet_ok_lt (n : Z) : 0 <= n < 64 -> sextet_ok n = true.
Proof.
  intros Hn.
  pose proof sextets_ok as H.
  rewrite forallb_forall in H. apply H.
  apply in_map_iff. exists (Z.to_nat n). split; [lia|].
  apply in_seq. lia.
Qed.

Lemma value_of_char_of (n : Z) : 0 <= n < 64 -> value_of (char_of n) = Some n.
Proof.
  intros Hn. pose proof (sextet_ok_lt n Hn) as H. unfold sextet_ok in H.
  destruct (value_of (char_of n)) as [m|]; [|discriminate].
  apply andb_true_iff in H. destruct H as [H _].
  apply Z.eqb_eq in H. now subst.
Qed.

Lemma char_of_not_pad (n : Z) : 0 <= n < 64 -> Ascii.eqb (char_of n) pad = false.
Proof.
  intros Hn. pose proof (sextet_ok_lt n Hn) as H. unfold sextet_ok in H.
  destruct (value_of (char_of n)) as [m|]; [|discriminate].
  apply andb_true_iff in H. destruct H as [_ H].
  now apply negb_true_iff in H.
Qed.

(** Induction over a list three elements at a time. *)
Lemma list_ind3 {A} (P : list A -> Prop) :
  P [] -> (forall a, P [a]) -> (forall a b, P [a; b]) ->
  (forall a b c r, P r -> P (a :: b :: c :: r)) ->
  forall l, P l.
Proof.
  intros H0 H1 H2 H3.
  fix IH 1.
  intros [|a [|b [|c r]]];
    [exact H0 | apply H1 | apply H2 | apply H3; apply IH].
Qed.

Lemma sextet_arith (x y z : Z) :
  0 <= x < 256 -> 0 <= y < 256 -> 0 <= z < 256 ->
  (0 <= x / 4 < 64) /\
  (0 <= (x mod 4) * 16 + y / 16 < 64) /\
  (0 <= (y mod 16) * 4 + z / 64 < 64) /\
  (0 <= z mod 64 < 64) /\
  (x / 4) * 4 + ((x mod 4) * 16 + y / 16) / 16 = x /\
  (((x mod 4) * 16 + y / 16) mod 16) * 16 + ((y mod 16) * 4 + z / 64) / 4 = y /\
  (((y mod 16) * 4 + z / 64) mod 4) * 64 + z mod 64 = z.
Proof.
  intros Hx Hy Hz.
  repeat split; Z.div_mod_to_equations; lia.
Qed.

Ltac use_sextet H :=
  rewrite ?(value_of_char_of _ H), ?(char_of_not_pad _ H).

(** Decoding undoes encoding. *)
Lemma decode_encode (l : list byte) : decode (encode l) = Some l.
Proof.
  induction l as [|a|a b|a b c r IH] using list_ind3.
  - reflexivity.
  - pose proof (Z_of_byte_range a) as Ha.
    destruct (sextet_arith (Z_of_byte a) 0 0 Ha) as (H0 & H1 & _ & _ & E0 & _);
      try lia.
    rewrite Z.add_0_r in H1, E0.
    cbn [encode decode]. use_sextet H0. use_sextet H1.
    rewrite E0, byte_of_Z_of_byte. reflexivity.
  - pose proof (Z_of_byte_range a) as Ha.
    pose proof (Z_of_byte_range b) as Hb.
    destruct (sextet_arith (Z_of_byte a) (Z_of_byte b) 0 Ha Hb)
      as (H0 & H1 & H2 & _ & E0 & E1 & _); try lia.
    rewrite Z.add_0_r in H2, E1.
    cbn [encode decode]. use_sextet H0. use_sextet H1. use_sextet H2.
    rewrite E0, E1, !byte_of_Z_of_byte. reflexivity.
  - pose proof (Z_of_byte_range a) as Ha.
    pose proof (Z_of_byte_range b) as Hb.
    pose proof (Z_of_byte_range c) as Hc.
    destruct (sextet_arith (Z_of_byte a) (Z_of_byte b) (Z_of_byte c) Ha Hb Hc)
      as (H0 & H1 & H2 & H3 & E0 & E1 & E2).
    cbn [encode decode]. use_sextet H0. use_sextet H1. use_sextet H2.
    use_sextet H3. rewrite IH, E0, E1, E2, !byte_of_Z_of_byte. reflexivity.
Qed.

(** The encoding of a non-empty buffer is a non-empty string. *)
Lemma encode_nonempty (l : list byte) : l <> [] -> encode l <> EmptyString.
Proof.
  destruct l as [|a [|b [|c r]]]; intros H; [congruence| | |]; discriminate.
Qed.

End Base64Facts.
(** ** Facts about strings *)

Lemma append_assoc (a b c : string) : (a +++ b) +++ c = a +++ b +++ c.
Proof.
  induction a as [|x a IH]; cbn [String.append]; [reflexivity|].
  now rewrite IH.
Qed.

Lemma append_nil_r (a : string) : a +++ EmptyString = a.
Proof.
  induction a as [|x a IH]; cbn [String.append]; [reflexivity|].
  now rewrite IH.
Qed.

Lemma length_Buffer_from (s : string) :
  length (Buffer_from s) = String.length s.
Proof.
  unfold Buffer_from, list_byte_of_string.
  rewrite length_map.
  induction s as [|c s IH]; cbn; [reflexivity|now rewrite IH].
Qed.

(** ** Facts about CRC-32 and the ZIP container *)

Module ZipFacts.
Import Zip.

Lemma lxor_bound (n a b : Z) :
  0 < n -> 0 <= a < 2 ^ n -> 0 <= b < 2 ^ n -> 0 <= Z.lxor a b < 2 ^ n.
Proof.
  intros Hn Ha Hb.
  assert (H0 : 0 <= Z.lxor a b) by (apply Z.lxor_nonneg; lia).
  split; [exact H0|].
  assert (Hlog : forall x, 0 <= x < 2 ^ n -> Z.log2 x < n).
  { intros x Hx. destruct (Z.eq_dec x 0) as [->|Hne].
    - cbn. lia.
    - apply Z.log2_lt_pow2; lia. }
  destruct (Z.eq_dec (Z.lxor a b) 0) as [E|Hne].
  - rewrite E. apply Z.pow_pos_nonneg; lia.
  - apply Z.log2_lt_pow2; [lia|].
    pose proof (Z.log2_lxor a b (proj1 Ha) (proj1 Hb)) as Hl.
    pose proof (Hlog a Ha). pose proof (Hlog b Hb). lia.
Qed.

Lemma step_bound (c : Z) : 0 <= c < 2 ^ 32 -> 0 <= CRC32.step c < 2 ^ 32.
Proof.
  intros Hc. unfold CRC32.step.
  assert (Hs : 0 <= Z.shiftr c 1 < 2 ^ 32).
  { rewrite Z.shiftr_div_pow2 by lia. change (2 ^ 1) with 2.
    Z.div_mod_to_equations. lia. }
  destruct (Z.odd c); [|exact Hs].
  apply lxor_bound; lia.
Qed.

Lemma update_bound (c : Z) (b : byte) :
  0 <= c < 2 ^ 32 -> 0 <= CRC32.update c b < 2 ^ 32.
Proof.
  intros Hc. unfold CRC32.update.
  assert (H : 0 <= Z.lxor c (Z_of_byte b) < 2 ^ 32).
  { apply lxor_bound; try lia. pose proof (Z_of_byte_range b). lia. }
  revert H. generalize (Z.lxor c (Z_of_byte b)) as x. intros x Hx.
  cbn [Nat.iter nat_rect].
  repeat apply step_bound. exact Hx.
Qed.

Lemma crc32_bound (l : list byte) : 0 <= CRC32.crc32 l < 2 ^ 32.
Proof.
  unfold CRC32.crc32.
  apply lxor_bound; try lia.
  assert (H : 0 <= 0xFFFFFFFF < 2 ^ 32) by lia.
  revert H. generalize 0xFFFFFFFF as c.
  induction l as [|b l IH]; intros c Hc; cbn [fold_left]; [exact Hc|].
  apply IH, update_bound, Hc.
Qed.

(** *** Numbers *)

Lemma rd16_le16 (x : Z) (t : list byte) :
  0 <= x < 65536 -> rd16 (le16 x ++ t) = x.
Proof.
  intros Hx. unfold rd16, le16. cbn [app nth].
  rewrite !Z_of_byte_of_Z. Z.div_mod_to_equations. lia.
Qed.

Lemma rd32_le32 (x : Z) (t : list byte) :
  0 <= x < 2 ^ 32 -> rd32 (le32 x ++ t) = x.
Proof.
  intros Hx. unfold rd32, le32. cbn [app nth].
  rewrite !Z_of_byte_of_Z. Z.div_mod_to_equations. lia.
Qed.

(** *** Lists *)

Lemma len_app {A} (a b : list A) : len (a ++ b) = len a + len b.
Proof. unfold len. rewrite length_app. lia. Qed.

Lemma len_nonneg {A} (a : list A) : 0 <= len a.
Proof. unfold len. lia. Qed.

Lemma skipn_len_app {A} (a b : list A) (n : Z) :
  n = len a -> skipn (Z.to_nat n) (a ++ b) = b.
Proof.
  intros ->. unfold len. rewrite Nat2Z.id.
  rewrite skipn_app, skipn_all, Nat.sub_diag. reflexivity.
Qed.

Lemma firstn_len_app {A} (a b : list A) (n : Z) :
  n = len a -> firstn (Z.to_nat n) (a ++ b) = a.
Proof.
  intros ->. unfold len. rewrite Nat2Z.id.
  rewrite firstn_app, firstn_all, Nat.sub_diag. cbn. apply app_nil_r.
Qed.

(** *** The records of an archive *)

Section Records.
Variables time date : Z.

Lemma len_fileRecord (e : entry) :
  len (fileRecord time date e) = 30 + len (Buffer_from (name e)).
Proof.
  unfold fileRecord, header, len. rewrite !length_app.
  cbn [length sig_local le16 le32]. lia.
Qed.

Lemma len_local_part (e : entry) :
  len (local_part time date e)
  = 30 + len (Buffer_from (name e)) + len (data e).
Proof. unfold local_part. rewrite len_app, len_fileRecord. reflexivity. Qed.

Lemma len_dirRecord (offset : Z) (e : entry) :
  len (dirRecord time date offset e) = 46 + len (Buffer_from (name e)).
Proof.
  unfold dirRecord, header, len. rewrite !length_app.
  cbn [length sig_central le16 le32]. lia.
Qed.

Ltac field_tac :=
  unfold local_part, dirRecord, fileRecord, dirEnd, header,
    sig_central, sig_local, sig_end, le16, le32;
  cbn [app skipn firstn];
  unfold rd16, rd32; cbn [nth];
  rewrite ?Z_of_byte_of_Z;
  try (Z.div_mod_to_equations; lia).

Lemma read_centrals_step (k : nat) (offset : Z) (e : entry) (rest : list byte) :
  fits e -> 0 <= offset < 2 ^ 32 ->
  read_centrals (S k) (dirRecord time date offset e ++ rest)
  = match read_centrals k rest with
    | Some r =>
        Some (mkDir (Buffer_from (name e)) 0 (CRC32.crc32 (data e))
                (len (data e)) offset :: r)
    | None => None
    end.
Proof.
  intros [Hn Hd] Ho.
  pose proof (len_nonneg (Buffer_from (name e))) as Hn0.
  pose proof (len_nonneg (data e)) as Hd0.
  pose proof (crc32_bound (data e)) as Hc.
  set (X := dirRecord time date offset e ++ rest).
  assert (Hsig : bytes_eqb (firstn 4 X) sig_central = true).
  { subst X. unfold dirRecord, sig_central. cbn [app firstn]. reflexivity. }
  assert (Hnl : rd16 (skipn 28 X) = len (Buffer_from (name e))) by (subst X; field_tac).
  assert (Hel : rd16 (skipn 30 X) = 0) by (subst X; field_tac).
  assert (Hcl : rd16 (skipn 32 X) = 0) by (subst X; field_tac).
  assert (Hm : rd16 (skipn 10 X) = 0) by (subst X; field_tac).
  assert (Hcrc : rd32 (skipn 16 X) = CRC32.crc32 (data e)) by (subst X; field_tac).
  assert (Hsz : rd32 (skipn 20 X) = len (data e)) by (subst X; field_tac).
  assert (Hoff : rd32 (skipn 42 X) = offset) by (subst X; field_tac).
  assert (Hname : slice 46 (len (Buffer_from (name e))) X = Buffer_from (name e)).
  { subst X. unfold slice. change (Z.to_nat 46) with 46%nat.
    unfold dirRecord, header, sig_central, le16, le32. cbn [app skipn].
    apply firstn_len_app. reflexivity. }
  assert (Hrest : skipn (Z.to_nat (46 + len (Buffer_from (name e)) + 0 + 0)) X = rest).
  { subst X. apply skipn_len_app. rewrite len_dirRecord. lia. }
  cbn [read_centrals].
  rewrite Hsig, Hnl, Hel, Hcl, Hm, Hcrc, Hsz, Hoff, Hname, Hrest.
  reflexivity.
Qed.

Lemma len_locals_nonneg (es : list entry) : 0 <= len (locals time date es).
Proof. apply len_nonneg. Qed.

Lemma read_centrals_all (es : list entry) :
  forall (offset : Z) (rest : list byte),
    Forall fits es -> 0 <= offset ->
    offset + len (locals time date es) < 2 ^ 32 ->
    read_centrals (length es) (centrals time date offset es ++ rest)
    = Some (dirs time date offset es).
Proof.
  induction es as [|e r IH]; intros offset rest Hf Ho Hb.
  - reflexivity.
  - inversion Hf as [|? ? He Hr]; subst.
    cbn [centrals length dirs locals] in *.
    rewrite len_app in Hb.
    pose proof (len_nonneg (local_part time date e)) as Hl.
    pose proof (len_locals_nonneg r) as Hl'.
    rewrite <- app_assoc.
    rewrite read_centrals_step by (auto; lia).
    rewrite IH by (auto; lia).
    reflexivity.
Qed.

Lemma read_entry_at (pre post : list byte) (e : entry) :
  fits e ->
  read_entry (pre ++ local_part time date e ++ post)
    (mkDir (Buffer_from (name e)) 0 (CRC32.crc32 (data e)) (len (data e)) (len pre))
  = Some e.
Proof.
  intros [Hn Hd].
  pose proof (len_nonneg (Buffer_from (name e))) as Hn0.
  unfold read_entry. cbn [d_offset d_method d_size d_crc d_name].
  rewrite skipn_len_app by reflexivity.
  set (X := local_part time date e ++ post).
  assert (Hsig : bytes_eqb (firstn 4 X) sig_local = true).
  { subst X. unfold local_part, fileRecord, sig_local. cbn [app firstn].
    reflexivity. }
  assert (Hnl : rd16 (skipn 26 X) = len (Buffer_from (name e)))
    by (subst X; field_tac).
  assert (Hel : rd16 (skipn 28 X) = 0) by (subst X; field_tac).
  assert (Hdata : slice (30 + len (Buffer_from (name e)) + 0) (len (data e)) X
                  = data e).
  { subst X. unfold slice, local_part. rewrite <- app_assoc.
    rewrite skipn_len_app by (rewrite len_fileRecord; lia).
    apply firstn_len_app. reflexivity. }
  rewrite Hsig, Hnl, Hel, Hdata, !Z.eqb_refl. cbn [andb].
  rewrite Buffer_roundtrip. destruct e; reflexivity.
Qed.

Lemma read_entries_all (es : list entry) :
  forall pre post : list byte,
    Forall fits es ->
    read_entries (pre ++ locals time date es ++ post) (dirs time date (len pre) es)
    = Some es.
Proof.
  induction es as [|e r IH]; intros pre post Hf.
  - reflexivity.
  - inversion Hf as [|? ? He Hr]; subst.
    cbn [locals dirs read_entries].
    rewrite <- (app_assoc (local_part time date e)).
    rewrite read_entry_at by exact He.
    rewrite <- len_app.
    rewrite (app_assoc pre).
    rewrite IH by exact Hr.
    reflexivity.
Qed.

Lemma read_end_dirEnd (front : list byte) (count dirLength localLength : Z) :
  0 <= count < 65536 -> 0 <= localLength < 2 ^ 32 ->
  read_end (front ++ dirEnd count dirLength localLength)
  = Some (count, localLength).
Proof.
  intros Hc Hl. unfold read_end.
  assert (Hlen : len (dirEnd count dirLength localLength) = 22) by reflexivity.
  pose proof (len_nonneg front) as Hf.
  rewrite len_app, Hlen.
  destruct (Z.ltb_spec (len front + 22) 22) as [Hlt|_]; [lia|].
  rewrite skipn_len_app by lia.
  set (X := dirEnd count dirLength localLength).
  assert (Hsig : bytes_eqb (firstn 4 X) sig_end = true) by reflexivity.
  assert (Hcount : rd16 (skipn 10 X) = count) by (subst X; field_tac).
  assert (Hoff : rd32 (skipn 16 X) = localLength) by (subst X; field_tac).
  rewrite Hsig, Hcount, Hoff. reflexivity.
Qed.

(** Reading an archive gives back the entries it was written from. *)
Lemma load_generate (es : list entry) :
  Forall fits es -> len es < 65536 -> len (locals time date es) < 2 ^ 32 ->
  load (generate time date es) = Some es.
Proof.
  intros Hf Hn Hl.
  pose proof (len_nonneg es) as Hn0.
  pose proof (len_locals_nonneg es) as Hl0.
  unfold load, generate.
  rewrite app_assoc, read_end_dirEnd by lia.
  rewrite <- app_assoc.
  rewrite skipn_len_app by reflexivity.
  unfold len at 1. rewrite Nat2Z.id.
  rewrite read_centrals_all by (auto; lia).
  change (locals time date es ++ centrals time date 0 es
            ++ dirEnd (len es) (len (centrals time date 0 es))
                 (len (locals time date es)))
    with ([] ++ locals time date es ++ centrals time date 0 es
            ++ dirEnd (len es) (len (centrals time date 0 es))
                 (len (locals time date es))).
  change 0 with (len (@nil byte)).
  apply read_entries_all. exact Hf.
Qed.

End Records.

End ZipFacts.
(** ** Facts about the route *)

Lemma stringify_manifest_pretty : JSON.stringify manifest 2 = JStr manifest_pretty.
Proof. vm_compute. reflexivity. Qed.

Lemma stringify_manifest_compact : JSON.stringify manifest 0 = JStr manifest_compact.
Proof. vm_compute. reflexivity. Qed.

Lemma parse_manifest_pretty : JSON.parse manifest_pretty = Some manifest.
Proof. vm_compute. reflexivity. Qed.

Lemma parse_manifest_compact : JSON.parse manifest_compact = Some manifest.
Proof. vm_compute. reflexivity. Qed.

Lemma truthy_JStr (s : string) : s <> EmptyString -> truthy (JStr s) = true.
Proof.
  intros H. cbn [truthy]. apply negb_true_iff, String.eqb_neq. exact H.
Qed.

Lemma POST_request_of (w : World) (env : Env) (request : Request)
  (html provider : JsVal) :
  request_of request html provider ->
  POST w env request = try_catch (respond w env html provider) on_error [].
Proof.
  intros (fields & Hj & Hh & Hp). subst html provider.
  unfold POST, try_catch, bind, await. rewrite Hj.
  cbn [destructure]. reflexivity.
Qed.

Lemma build_archive_string (w : World) (html : string) (tr : list Event) :
  html <> EmptyString ->
  build_archive w (JStr html) tr
  = (tr ++ [ArchiveBuilt (site_archive w html)], inr (site_archive w html)).
Proof.
  intros H.
  unfold build_archive, JSZip.generateAsync, JSZip.file, JSZip.new.
  rewrite stringify_manifest_pretty.
  cbn [set_prop]. change (String.eqb "index.html" "package.json") with false.
  cbn iota. unfold bind, await, emit, ret.
  cbn [JSZip.entries]. unfold JSZip.content.
  rewrite (truthy_JStr html H).
  change (truthy (JStr manifest_pretty)) with true.
  cbn [negb]. reflexivity.
Qed.

(** The archive of a site whose text is a JavaScript string can be read
    back. *)
Lemma load_site_archive (w : World) (html : string) :
  js_string html ->
  Zip.load (site_archive w html) = Some (site_entries html).
Proof.
  intros H. unfold js_string, max_utf8_length in H.
  apply ZipFacts.load_generate.
  - repeat constructor; cbn [Zip.name Zip.data];
      unfold Zip.len; rewrite ?length_Buffer_from;
      try change (String.length manifest_pretty) with 50%nat;
      cbn [String.length]; lia.
  - unfold Zip.len. cbn [site_entries length]. lia.
  - cbn [site_entries Zip.locals]. rewrite !ZipFacts.len_app, !ZipFacts.len_local_part.
    cbn [Zip.name Zip.data]. unfold Zip.len. rewrite !length_Buffer_from.
    change (String.length manifest_pretty) with 50%nat.
    cbn [String.length length]. lia.
Qed.

Lemma find_index_html (html : string) :
  Zip.find "index.html" (site_entries html)
  = Some (Zip.mkEntry "index.html" (Buffer_from html)).
Proof. reflexivity. Qed.

Lemma find_package_json (html : string) :
  Zip.find "package.json" (site_entries html)
  = Some (Zip.mkEntry "package.json" (Buffer_from manifest_pretty)).
Proof. reflexivity. Qed.

(** What a receiver reads in the encoded archive of a site. *)
Lemma extract_site_archive (w : World) (html : string) :
  js_string html ->
  extract (Base64.encode (site_archive w html)) "index.html" = Some html
  /\ extract (Base64.encode (site_archive w html)) "package.json"
     = Some manifest_pretty.
Proof.
  intros H. unfold extract.
  rewrite Base64Facts.decode_encode, (load_site_archive w html H).
  rewrite find_index_html, find_package_json. cbn [Zip.data].
  rewrite !Buffer_roundtrip. split; reflexivity.
Qed.

(** *** How the handler runs *)

Lemma POST_returns (w : World) (env : Env) (request : Request)
  (html provider : JsVal) (tr : list Event) (r : HttpResponse) :
  request_of request html provider ->
  respond w env html provider [] = (tr, inr r) ->
  POST w env request = (tr, r).
Proof.
  intros Hreq Hr. rewrite (POST_request_of w env request html provider Hreq).
  unfold try_catch. rewrite Hr. reflexivity.
Qed.

Lemma POST_throws (w : World) (env : Env) (request : Request)
  (html provider : JsVal) (tr : list Event) (e : Exn) :
  request_of request html provider ->
  respond w env html provider [] = (tr, inl e) ->
  POST w env request = on_error e tr.
Proof.
  intros Hreq Hr. rewrite (POST_request_of w env request html provider Hreq).
  unfold try_catch. rewrite Hr. reflexivity.
Qed.

(** The validation of line 19 rejects a falsy [html] or [provider]
    before anything else is done. *)
Lemma respond_rejects (w : World) (env : Env) (html provider : JsVal)
  (tr : list Event) :
  truthy html = false \/ truthy provider = false ->
  respond w env html provider tr
  = (tr, inr (mkResponse 400 (JObj [("error", JStr "Missing html or provider")]))).
Proof.
  intros H. unfold respond.
  assert (E : negb (truthy html) || negb (truthy provider) = true).
  { destruct H as [-> | ->]; cbn [negb orb]; [reflexivity | apply orb_true_r]. }
  rewrite E. reflexivity.
Qed.

(** Past the validation, the archive is built and the provider looked at. *)
Lemma respond_valid (w : World) (env : Env) (html : string) (provider : JsVal)
  (tr : list Event) :
  html <> EmptyString -> truthy provider = true ->
  respond w env (JStr html) provider tr
  = (if is_str provider "netlify" then
       deploy_netlify w env (site_archive w html)
     else if is_str provider "vercel" then
       deploy_vercel w env (JStr html) (site_archive w html)
     else
       ret (mkResponse 400 (JObj [("error", JStr "Unknown provider")])))
      (tr ++ [ArchiveBuilt (site_archive w html)]).
Proof.
  intros Hh Hp. unfold respond.
  rewrite (truthy_JStr html Hh), Hp. cbn [negb orb].
  unfold bind at 1. rewrite (build_archive_string w html tr Hh).
  reflexivity.
Qed.

Lemma is_str_false (v : JsVal) (lit : string) :
  v <> JStr lit -> is_str v lit = false.
Proof.
  intros H. destruct v; try reflexivity. cbn [is_str].
  apply String.eqb_neq. congruence.
Qed.

Lemma generate_nonempty (time date : Z) (es : list Zip.entry) :
  Zip.generate time date es <> [].
Proof.
  unfold Zip.generate. intros H.
  apply app_eq_nil in H. destruct H as [_ H].
  apply app_eq_nil in H. destruct H as [_ H].
  discriminate H.
Qed.

Lemma unset_false (o : option string) :
  unset o = false -> truthy (env_val o) = true.
Proof. unfold unset. intros H. now apply negb_false_iff in H. Qed.

Lemma respond_fallback (w : World) (env : Env) (html provider : string) :
  html <> EmptyString -> supported provider ->
  credentials_missing env provider = true ->
  respond w env (JStr html) (JStr provider) []
  = ([ArchiveBuilt (site_archive w html)],
     inr (mkResponse 200
            (JObj [("message", JStr (fallback_message provider));
                   ("zipBase64", JStr (Base64.encode (site_archive w html)))]))).
Proof.
  intros Hh Hs Hm.
  destruct Hs as [-> | ->];
    (rewrite respond_valid; [|exact Hh|reflexivity]);
    unfold credentials_missing, required, unset in Hm;
    cbn [String.eqb Ascii.eqb Bool.eqb existsb snd] in Hm;
    rewrite orb_false_r in Hm;
    cbn [is_str String.eqb Ascii.eqb Bool.eqb app];
    [unfold deploy_netlify | unfold deploy_vercel];
    rewrite Hm; reflexivity.
Qed.

(** *** What the handler can return *)

Lemma returns_ret {A} (a : A) (Q : A -> Prop) : Q a -> returns (ret a) Q.
Proof. intros H tr tr' b E. inversion E; subst. exact H. Qed.

Lemma returns_bind {A B} (m : M A) (k : A -> M B) (Q : B -> Prop) :
  (forall a, returns (k a) Q) -> returns (bind m k) Q.
Proof.
  intros H tr tr' b E. unfold bind in E.
  destruct (m tr) as [tr1 [e|a]]; [discriminate|].
  exact (H a tr1 tr' b E).
Qed.

Ltac returns_tac :=
  cbv zeta;
  repeat first
    [ apply returns_ret
    | apply returns_bind; intros ?
    | match goal with
      | |- returns (if ?c then _ else _) _ => destruct c
      end ].

Lemma shaped_success (url : JsVal) :
  shaped (NextResponse_json (JObj [("url", url)]) 200).
Proof. left. split; [reflexivity|]. left. exists url. reflexivity. Qed.

Lemma shaped_fallback (message zipBase64 : string) :
  shaped (NextResponse_json
            (JObj [("message", JStr message); ("zipBase64", JStr zipBase64)]) 200).
Proof.
  left. split; [reflexivity|]. right. exists message, zipBase64. reflexivity.
Qed.

Lemma shaped_400 (e : string) :
  e = "Missing html or provider" \/ e = "Unknown provider" ->
  shaped (NextResponse_json (JObj [("error", JStr e)]) 400).
Proof.
  intros H. right. left. split; [reflexivity|]. exists e. split; [reflexivity|exact H].
Qed.

Lemma shaped_500 (e d : string) :
  e = "Netlify deploy failed" \/ e = "Vercel deploy failed" \/ e = "Server error" ->
  shaped (NextResponse_json (JObj [("error", JStr e); ("details", JStr d)]) 500).
Proof.
  intros H. right. right. split; [reflexivity|].
  exists e, d. split; [reflexivity|exact H].
Qed.

Create HintDb shape.

#[local] Hint Resolve shaped_success shaped_fallback shaped_400 shaped_500 : shape.

Lemma deploy_netlify_shaped (w : World) (env : Env) (zipped : list byte) :
  returns (deploy_netlify w env zipped) shaped.
Proof. unfold deploy_netlify. returns_tac; auto 6 with shape. Qed.

Lemma deploy_vercel_shaped (w : World) (env : Env) (html : JsVal)
  (zipped : list byte) :
  returns (deploy_vercel w env html zipped) shaped.
Proof. unfold deploy_vercel. returns_tac; auto 6 with shape. Qed.

Lemma respond_shaped (w : World) (env : Env) (html provider : JsVal) :
  returns (respond w env html provider) shaped.
Proof.
  unfold respond. returns_tac; auto 6 with shape.
  - apply deploy_netlify_shaped.
  - apply deploy_vercel_shaped.
Qed.

(** Every response of the handler has one of the three shapes. *)
Lemma POST_shaped (w : World) (env : Env) (request : Request) :
  shaped (snd (POST w env request)).
Proof.
  assert (H : forall m : M HttpResponse,
             returns m shaped -> shaped (snd (try_catch m on_error []))).
  { intros m Hm. unfold try_catch.
    destruct (m []) as [tr [e|r]] eqn:E.
    - cbn [snd on_error]. apply shaped_500. auto.
    - exact (Hm _ _ _ E). }
  unfold POST. apply H. returns_tac. apply respond_shaped.
Qed.

(** *** The deployment *)

Lemma sha1_returns (w : World) (data : list byte) (tr : list Event) :
  sha1 w data tr = (tr, inr (Hex.encode (SHA1.digest data))).
Proof. unfold sha1. destruct (has_subtle w); reflexivity. Qed.

Lemma vercel_payload_string (w : World) (projectId teamId : JsVal)
  (html : string) (tr : list Event) :
  vercel_payload w projectId teamId (JStr html) tr
  = (tr, inr (payload_of w projectId teamId html)).
Proof.
  unfold vercel_payload, bind, await, ret.
  rewrite stringify_manifest_compact. cbn [Buffer_from_js].
  rewrite !sha1_returns.
  unfold payload_of. destruct (truthy teamId); reflexivity.
Qed.

Lemma files_of_payload (w : World) (projectId teamId : JsVal) (html : string) :
  get_prop (payload_of w projectId teamId html) "files"
  = inr (JArr [index_file html; manifest_file]).
Proof. unfold payload_of. destruct (truthy teamId); reflexivity. Qed.

(** The payload is sent as a text. *)
Lemma payload_text (w : World) (projectId teamId : JsVal) (html : string) :
  exists text,
    JSON.stringify (payload_of w projectId teamId html) 0 = JStr text.
Proof.
  unfold payload_of, JSON.stringify.
  destruct (truthy teamId); cbn [JSON.serialize]; eexists; reflexivity.
Qed.

Lemma credentials_present (env : Env) (provider : string) :
  supported provider ->
  credentials_missing env provider = false ->
  (provider = "netlify"
   /\ truthy (env_val (NETLIFY_TOKEN env)) = true
   /\ truthy (env_val (NETLIFY_SITE_ID env)) = true)
  \/ (provider = "vercel"
      /\ truthy (env_val (VERCEL_TOKEN env)) = true
      /\ truthy (env_val (VERCEL_PROJECT_ID env)) = true).
Proof.
  intros [-> | ->] H; [left | right];
    unfold credentials_missing, required in H;
    cbn [String.eqb Ascii.eqb Bool.eqb existsb snd] in H;
    rewrite orb_false_r in H;
    apply orb_false_iff in H; destruct H as [H1 H2];
    auto using unset_false.
Qed.

(** With its credentials set, the handler builds the archive, calls the
    provider once and answers from what the provider says. *)
Lemma respond_deploys (w : World) (env : Env) (html provider : string) :
  html <> EmptyString -> supported provider ->
  credentials_missing env provider = false ->
  respond w env (JStr html) (JStr provider) []
  = ([ArchiveBuilt (site_archive w html);
      Fetched (deploy_request w env html provider)],
     answer_of provider (fetch w (deploy_request w env html provider))).
Proof.
  intros Hh Hs Hm.
  rewrite respond_valid; [|exact Hh|destruct Hs as [-> | ->]; reflexivity].
  destruct (credentials_present env provider Hs Hm)
    as [(-> & Ht & Hi) | (-> & Ht & Hi)];
    cbn [is_str String.eqb Ascii.eqb Bool.eqb app].
  - unfold deploy_netlify. rewrite Ht, Hi. cbn [negb orb].
    unfold deploy_request, answer_of. cbn [String.eqb Ascii.eqb Bool.eqb].
    unfold do_fetch. unfold bind, emit, await, ret. cbn [app].
    match goal with
    | |- context [fetch w ?rq] => destruct (fetch w rq) as [e|res]
    end; [reflexivity|].
    destruct (res_ok res); cbn [negb].
    + destruct (res_json res) as [e|result]; [reflexivity|].
      match goal with
      | |- context [get_prop result ?k] => destruct (get_prop result k) as [e|u]
      end; [reflexivity|].
      destruct (truthy u); [reflexivity|].
      match goal with
      | |- context [get_prop result ?k] => destruct (get_prop result k) as [e|u']
      end; reflexivity.
    + destruct (res_text res) as [e|errText]; reflexivity.
  - unfold deploy_vercel. rewrite Ht, Hi. cbn [negb orb].
    unfold deploy_request, answer_of. cbn [String.eqb Ascii.eqb Bool.eqb].
    unfold bind at 1. rewrite vercel_payload_string.
    unfold do_fetch. unfold bind, emit, await, ret. cbn [app].
    match goal with
    | |- context [fetch w ?rq] => destruct (fetch w rq) as [e|res]
    end; [reflexivity|].
    destruct (res_ok res); cbn [negb].
    + destruct (res_json res) as [e|result]; [reflexivity|].
      match goal with
      | |- context [get_prop result ?k] => destruct (get_prop result k) as [e|u]
      end; [reflexivity|].
      destruct (truthy u); [reflexivity|].
      match goal with
      | |- context [get_prop result ?k] => destruct (get_prop result k) as [e|u']
      end; reflexivity.
    + destruct (res_text res) as [e|errText]; reflexivity.
Qed.

(** With its credentials set, the handler builds one archive and makes
    one call, whatever the provider answers. *)
Lemma POST_deploys_trace (w : World) (env : Env) (request : Request)
  (html provider : string) :
  request_of request (JStr html) (JStr provider) ->
  html <> EmptyString -> supported provider ->
  credentials_missing env provider = false ->
  calls (fst (POST w env request)) = [deploy_request w env html provider]
  /\ archives (fst (POST w env request)) = [site_archive w html].
Proof.
  intros Hreq Hh Hs Hm.
  pose proof (respond_deploys w env html provider Hh Hs Hm) as E.
  destruct (answer_of provider (fetch w (deploy_request w env html provider)))
    as [e|r].
  - rewrite (POST_throws w env request _ _ _ _ Hreq E). split; reflexivity.
  - rewrite (POST_returns w env request _ _ _ _ Hreq E). split; reflexivity.
Qed.

(** * Examples: the platform models on known values, and the tests of
      the specification *)

Example base64_vectors :
  Base64.encode (Buffer_from "M") = "TQ=="
  /\ Base64.encode (Buffer_from "Ma") = "TWE="
  /\ Base64.encode (Buffer_from "Man") = "TWFu"
  /\ Base64.decode "TWE=" = Some (Buffer_from "Ma")
  /\ Base64.decode "TWE" = None.
Proof. repeat split; vm_compute; reflexivity. Qed.

Example sha1_vectors :
  Hex.encode (SHA1.digest (Buffer_from "abc"))
  = "a9993e364706816aba3e25717850c26c9cd0d89d"
  /\ Hex.encode (SHA1.digest [])
     = "da39a3ee5e6b4b0d3255bfef95601890afd80709"
  /\ Hex.encode
       (SHA1.digest
          (Buffer_from "abcdbcdecdefdefgefghfghighijhijkijkljklmklmnlmnomnopnopq"))
     = "84983e441c3bd26ebaae4aa1f95129e5e54670f1".
Proof. repeat split; vm_compute; reflexivity. Qed.

Example crc32_check_value : CRC32.crc32 (Buffer_from "123456789") = 0xCBF43926.
Proof. vm_compute. reflexivity. Qed.

Example zip_of_two_files :
  Zip.load
    (Zip.generate 0 33
       [Zip.mkEntry "a.txt" (Buffer_from "hello"); Zip.mkEntry "b.txt" []])
  = Some [Zip.mkEntry "a.txt" (Buffer_from "hello"); Zip.mkEntry "b.txt" []].
Proof. vm_compute. reflexivity. Qed.

Example stringify_drops_undefined :
  JSON.stringify (JObj [("url", JUndefined)]) 0 = JStr "{}"
  /\ JSON.stringify (JArr [JNum 1; JUndefined; JBool true]) 0 = JStr "[1,null,true]"
  /\ JSON.parse "[1,null,true]" = Some (JArr [JNum 1; JNull; JBool true]).
Proof. repeat split; vm_compute; reflexivity. Qed.

(** [publish({ provider: bogus, html })]: 400, unknown provider. *)
Example publish_bogus_provider :
  snd (POST (world_of deployed) all_credentials
         (publish_request (JStr sample_html) (JStr "bogus")))
  = mkResponse 400 (JObj [("error", JStr "Unknown provider")]).
Proof. vm_compute. reflexivity. Qed.

(** A Vercel publish accepted by the provider: the [url] of the answer. *)
Example publish_vercel_success :
  snd (POST (world_of deployed) all_credentials
         (publish_request (JStr sample_html) (JStr "vercel")))
  = mkResponse 200 (JObj [("url", JStr "https://example.vercel.app")]).
Proof. vm_compute. reflexivity. Qed.

(** A provider that answers 500 [quota exceeded]. *)
Example publish_quota_exceeded :
  snd (POST (world_of quota_exceeded) all_credentials
         (publish_request (JStr sample_html) (JStr "netlify")))
  = mkResponse 500
      (JObj [("error", JStr "Netlify deploy failed");
             ("details", JStr "quota exceeded")]).
Proof. vm_compute. reflexivity. Qed.

(** A body that is not an object: [null] cannot be destructured, a body
    that is not JSON cannot be read; both end in the [catch] clause. *)
Example publish_null_body :
  status (snd (POST (world_of deployed) all_credentials (mkRequest (inr JNull))))
  = 500
  /\ lookup "error"
       (properties
          (snd (POST (world_of deployed) all_credentials (mkRequest (inr JNull)))))
     = JStr "Server error"
  /\ POST (world_of deployed) all_credentials
       (mkRequest (inl "Unexpected end of JSON input"))
     = ([ConsoleError "Unexpected end of JSON input"],
        mkResponse 500
          (JObj [("error", JStr "Server error");
                 ("details", JStr "Unexpected end of JSON input")])).
Proof. repeat split; vm_compute; reflexivity. Qed.

(** A content that is not a string is left to JSZip, which refuses it
    here. *)
Example publish_html_not_a_string :
  snd (POST (world_of deployed) all_credentials
         (publish_request (JNum 5) (JStr "vercel")))
  = mkResponse 500
      (JObj [("error", JStr "Server error");
             ("details", JStr "Can't read the data of 'index.html'.")]).
Proof. vm_compute. reflexivity. Qed.

(** * The properties of the specification: the publish route *)

Lemma request_of_publish_request (html provider : JsVal) :
  request_of (publish_request html provider) html provider.
Proof.
  exists [("html", html); ("provider", provider)]. repeat split; reflexivity.
Qed.

(** C1.  A request with a non-empty [html] for [netlify] (or [vercel])
    whose credentials are not set is answered by a fallback: decoding
    [zipBase64] from base64 and reading the entry [index.html] of the
    archive gives [html] back; the entry [package.json] decodes, as JSON,
    to the manifest [{ name: webmake-site, version: 1.0.0 }]; the
    message names the two configuration keys of the provider. *)
Theorem C1_fallback_archive_roundtrip
  (w : World) (env : Env) (request : Request) (html provider : string) :
  request_of request (JStr html) (JStr provider) ->
  html <> EmptyString ->
  js_string html ->
  supported provider ->
  credentials_missing env provider = true ->
  exists message zipBase64 text,
    snd (POST w env request)
    = mkResponse 200
        (JObj [("message", JStr message); ("zipBase64", JStr zipBase64)])
    /\ zipBase64 <> EmptyString
    /\ extract zipBase64 "index.html" = Some html
    /\ extract zipBase64 "package.json" = Some text
    /\ JSON.parse text = Some manifest
    /\ length (required env provider) = 2%nat
    /\ Forall (fun kv => includes message (fst kv) = true)
         (required env provider).
Proof.
  intros Hreq Hh Hjs Hs Hm.
  exists (fallback_message provider),
    (Base64.encode (site_archive w html)), manifest_pretty.
  rewrite (POST_returns w env request _ _ _ _ Hreq
             (respond_fallback w env html provider Hh Hs Hm)).
  destruct (extract_site_archive w html Hjs) as [Hi Hp].
  split; [reflexivity|].
  split; [apply Base64Facts.encode_nonempty, generate_nonempty|].
  split; [exact Hi|].
  split; [exact Hp|].
  split; [exact parse_manifest_pretty|].
  destruct Hs as [-> | ->]; split; try reflexivity;
    repeat constructor.
Qed.

Lemma C1_witness :
  exists message zipBase64 text,
    snd (POST (world_of deployed) no_credentials
           (publish_request (JStr sample_html) (JStr "netlify")))
    = mkResponse 200
        (JObj [("message", JStr message); ("zipBase64", JStr zipBase64)])
    /\ zipBase64 <> EmptyString
    /\ extract zipBase64 "index.html" = Some sample_html
    /\ extract zipBase64 "package.json" = Some text
    /\ JSON.parse text = Some manifest
    /\ length (required no_credentials "netlify") = 2%nat
    /\ Forall (fun kv => includes message (fst kv) = true)
         (required no_credentials "netlify").
Proof.
  apply (C1_fallback_archive_roundtrip (world_of deployed) no_credentials
           (publish_request (JStr sample_html) (JStr "netlify"))
           sample_html "netlify").
  - unfold request_of. eexists. split; [reflexivity | split; reflexivity].
  - discriminate.
  - unfold js_string, max_utf8_length. cbn. lia.
  - left. reflexivity.
  - reflexivity.
Defined.

(** C2.  On the Vercel path with [VERCEL_TOKEN] and [VERCEL_PROJECT_ID]
    set, the handler makes one call, to the deployments endpoint, whose
    body is the JSON text of the payload that lines 78 to 98 build; in
    the [files] of that payload,
    the entry for [index.html] has for [data] the base64 encoding of the
    UTF-8 bytes of [html], and for [sha] the SHA-1 digest of the same
    bytes, in hexadecimal. *)
Theorem C2_vercel_index_file
  (w : World) (env : Env) (request : Request) (html : string) :
  request_of request (JStr html) (JStr "vercel") ->
  html <> EmptyString ->
  credentials_missing env "vercel" = false ->
  exists payload text others,
    vercel_payload w (env_val (VERCEL_PROJECT_ID env))
      (env_val (VERCEL_TEAM_ID env)) (JStr html) []
    = ([], inr payload)
    /\ calls (fst (POST w env request))
       = [vercel_request (env_val (VERCEL_TOKEN env)) payload]
    /\ rq_url (vercel_request (env_val (VERCEL_TOKEN env)) payload)
       = "https://api.vercel.com/v13/deployments"
    /\ JSON.stringify payload 0 = JStr text
    /\ rq_body (vercel_request (env_val (VERCEL_TOKEN env)) payload)
       = BodyText text
    /\ get_prop payload "files"
       = inr (JArr (JObj [("file", JStr "index.html");
                          ("data", JStr (Base64.encode (Buffer_from html)));
                          ("sha", JStr (Hex.encode (SHA1.digest (Buffer_from html))))]
                      :: others)).
Proof.
  intros Hreq Hh Hm.
  destruct (POST_deploys_trace w env request html "vercel" Hreq Hh
              (or_intror eq_refl) Hm) as [Hc _].
  destruct (payload_text w (env_val (VERCEL_PROJECT_ID env))
              (env_val (VERCEL_TEAM_ID env)) html) as [text Ht].
  exists (payload_of w (env_val (VERCEL_PROJECT_ID env))
            (env_val (VERCEL_TEAM_ID env)) html),
    text, [manifest_file].
  split; [apply vercel_payload_string|].
  split; [exact Hc|].
  split; [reflexivity|].
  split; [exact Ht|].
  split; [unfold vercel_request; cbn [rq_body]; rewrite Ht; reflexivity|].
  apply files_of_payload.
Qed.

Lemma C2_witness :
  exists payload text others,
    vercel_payload (world_of deployed) (env_val (VERCEL_PROJECT_ID all_credentials))
      (env_val (VERCEL_TEAM_ID all_credentials)) (JStr sample_html) []
    = ([], inr payload)
    /\ calls (fst (POST (world_of deployed) all_credentials
                     (publish_request (JStr sample_html) (JStr "vercel"))))
       = [vercel_request (env_val (VERCEL_TOKEN all_credentials)) payload]
    /\ rq_url (vercel_request (env_val (VERCEL_TOKEN all_credentials)) payload)
       = "https://api.vercel.com/v13/deployments"
    /\ JSON.stringify payload 0 = JStr text
    /\ rq_body (vercel_request (env_val (VERCEL_TOKEN all_credentials)) payload)
       = BodyText text
    /\ get_prop payload "files"
       = inr (JArr (JObj [("file", JStr "index.html");
                          ("data", JStr (Base64.encode (Buffer_from sample_html)));
                          ("sha", JStr (Hex.encode
                                          (SHA1.digest (Buffer_from sample_html))))]
                      :: others)).
Proof.
  apply (C2_vercel_index_file (world_of deployed) all_credentials
           (publish_request (JStr sample_html) (JStr "vercel")) sample_html).
  - unfold request_of. eexists. split; [reflexivity | split; reflexivity].
  - discriminate.
  - reflexivity.
Defined.

(** C3, as stated, fails: in the deployment of the sample site, the
    [package.json] carried by the payload holds the compact JSON text of
    the manifest, and the [package.json] of the archive the same manifest
    indented by two spaces. *)
Lemma C3_manifest_bytes_counterexample :
  map (payload_file_data "package.json")
    (calls (fst (POST (world_of deployed) all_credentials
                   (publish_request (JStr sample_html) (JStr "vercel")))))
  = [Some (Buffer_from manifest_compact)]
  /\ map (archive_entry "package.json")
       (archives (fst (POST (world_of deployed) all_credentials
                         (publish_request (JStr sample_html) (JStr "vercel")))))
     = [Some (Buffer_from manifest_pretty)]
  /\ Buffer_from manifest_compact <> Buffer_from manifest_pretty.
Proof.
  split; [vm_compute; reflexivity|].
  split; [vm_compute; reflexivity|].
  vm_compute. discriminate.
Qed.

(** C3, amended.  In a Vercel publish with the credentials set, the
    [package.json] entry of the payload has for [data] the base64
    encoding, and for [sha] the SHA-1 digest, of the same bytes: the
    compact JSON text of the manifest.  The [package.json] entry of the
    archive built before is the text of the same manifest indented by
    two spaces.  The two texts decode to the same JSON value and are not
    the same bytes. *)
Theorem C3_manifest_of_payload_and_archive
  (w : World) (env : Env) (request : Request) (html : string) :
  request_of request (JStr html) (JStr "vercel") ->
  html <> EmptyString ->
  credentials_missing env "vercel" = false ->
  exists payload index,
    vercel_payload w (env_val (VERCEL_PROJECT_ID env))
      (env_val (VERCEL_TEAM_ID env)) (JStr html) []
    = ([], inr payload)
    /\ calls (fst (POST w env request))
       = [vercel_request (env_val (VERCEL_TOKEN env)) payload]
    /\ get_prop payload "files"
       = inr (JArr [index;
                    JObj [("file", JStr "package.json");
                          ("data", JStr (Base64.encode (Buffer_from manifest_compact)));
                          ("sha", JStr (Hex.encode
                                          (SHA1.digest (Buffer_from manifest_compact))))]])
    /\ archives (fst (POST w env request))
       = [Zip.generate (zip_time w) (zip_date w)
            [Zip.mkEntry "index.html" (Buffer_from html);
             Zip.mkEntry "package.json" (Buffer_from manifest_pretty)]]
    /\ JSON.parse manifest_compact = Some manifest
    /\ JSON.parse manifest_pretty = Some manifest
    /\ manifest_compact <> manifest_pretty.
Proof.
  intros Hreq Hh Hm.
  destruct (POST_deploys_trace w env request html "vercel" Hreq Hh
              (or_intror eq_refl) Hm) as [Hc Ha].
  exists (payload_of w (env_val (VERCEL_PROJECT_ID env))
            (env_val (VERCEL_TEAM_ID env)) html), (index_file html).
  split; [apply vercel_payload_string|].
  split; [exact Hc|].
  split; [apply files_of_payload|].
  split; [exact Ha|].
  split; [exact parse_manifest_compact|].
  split; [exact parse_manifest_pretty|].
  discriminate.
Qed.

Lemma C3_witness :
  exists payload index,
    vercel_payload (world_of deployed) (env_val (VERCEL_PROJECT_ID all_credentials))
      (env_val (VERCEL_TEAM_ID all_credentials)) (JStr sample_html) []
    = ([], inr payload)
    /\ calls (fst (POST (world_of deployed) all_credentials
                     (publish_request (JStr sample_html) (JStr "vercel"))))
       = [vercel_request (env_val (VERCEL_TOKEN all_credentials)) payload]
    /\ get_prop payload "files"
       = inr (JArr [index;
                    JObj [("file", JStr "package.json");
                          ("data", JStr (Base64.encode (Buffer_from manifest_compact)));
                          ("sha", JStr (Hex.encode
                                          (SHA1.digest (Buffer_from manifest_compact))))]])
    /\ archives (fst (POST (world_of deployed) all_credentials
                        (publish_request (JStr sample_html) (JStr "vercel"))))
       = [Zip.generate (zip_time (world_of deployed)) (zip_date (world_of deployed))
            [Zip.mkEntry "index.html" (Buffer_from sample_html);
             Zip.mkEntry "package.json" (Buffer_from manifest_pretty)]]
    /\ JSON.parse manifest_compact = Some manifest
    /\ JSON.parse manifest_pretty = Some manifest
    /\ manifest_compact <> manifest_pretty.
Proof.
  apply (C3_manifest_of_payload_and_archive (world_of deployed) all_credentials
           (publish_request (JStr sample_html) (JStr "vercel")) sample_html).
  - unfold request_of. eexists. split; [reflexivity | split; reflexivity].
  - discriminate.
  - reflexivity.
Defined.

(** C5.  For both providers, with the credentials set, when the endpoint
    of the provider answers with a status outside 200..299, the response
    is a failure with status 500 whose [details] is the text of that
    answer; it is neither a success nor a fallback. *)
Theorem C5_deploy_error_reports_body
  (w : World) (env : Env) (request : Request) (html provider : string)
  (res : FetchRes) (errText : string) :
  request_of request (JStr html) (JStr provider) ->
  html <> EmptyString ->
  supported provider ->
  credentials_missing env provider = false ->
  (forall rq, rq_url rq = endpoint env provider -> fetch w rq = inr res) ->
  ~ (200 <= res_status res <= 299) ->
  res_text res = inr errText ->
  exists error,
    (error = "Netlify deploy failed" \/ error = "Vercel deploy failed")
    /\ snd (POST w env request)
       = mkResponse 500 (JObj [("error", JStr error); ("details", JStr errText)])
    /\ is_failure (snd (POST w env request))
    /\ ~ is_success (snd (POST w env request))
    /\ ~ is_fallback (snd (POST w env request))
    /\ length (calls (fst (POST w env request))) = 1%nat.
Proof.
  intros Hreq Hh Hs Hm Hfetch Hst Htext.
  pose proof (respond_deploys w env html provider Hh Hs Hm) as E.
  assert (Hurl : rq_url (deploy_request w env html provider) = endpoint env provider)
    by (destruct Hs as [-> | ->]; reflexivity).
  rewrite (Hfetch _ Hurl) in E.
  assert (Hok : res_ok res = false).
  { unfold res_ok. apply andb_false_iff.
    destruct (Z.leb_spec 200 (res_status res));
      destruct (Z.leb_spec (res_status res) 299); auto; lia. }
  unfold answer_of in E. rewrite Hok, Htext in E. cbn [negb] in E.
  rewrite (POST_returns w env request _ _ _ _ Hreq E). cbn [fst snd].
  exists (if String.eqb provider "netlify"
          then "Netlify deploy failed" else "Vercel deploy failed").
  split; [destruct (String.eqb provider "netlify"); [left | right]; reflexivity|].
  split; [reflexivity|].
  split; [eexists; eexists; reflexivity|].
  split; [intros (u & H); cbn [body] in H; destruct u; discriminate H|].
  split; [intros (m & z & H); discriminate H | reflexivity].
Qed.

Lemma C5_witness :
  exists error,
    (error = "Netlify deploy failed" \/ error = "Vercel deploy failed")
    /\ snd (POST (world_of quota_exceeded) all_credentials
              (publish_request (JStr sample_html) (JStr "netlify")))
       = mkResponse 500
           (JObj [("error", JStr error); ("details", JStr "quota exceeded")])
    /\ is_failure
         (snd (POST (world_of quota_exceeded) all_credentials
                 (publish_request (JStr sample_html) (JStr "netlify"))))
    /\ ~ is_success
           (snd (POST (world_of quota_exceeded) all_credentials
                   (publish_request (JStr sample_html) (JStr "netlify"))))
    /\ ~ is_fallback
           (snd (POST (world_of quota_exceeded) all_credentials
                   (publish_request (JStr sample_html) (JStr "netlify"))))
    /\ length
         (calls (fst (POST (world_of quota_exceeded) all_credentials
                        (publish_request (JStr sample_html) (JStr "netlify")))))
       = 1%nat.
Proof.
  apply (C5_deploy_error_reports_body (world_of quota_exceeded) all_credentials
           (publish_request (JStr sample_html) (JStr "netlify"))
           sample_html "netlify" quota_exceeded "quota exceeded").
  - unfold request_of. eexists. split; [reflexivity | split; reflexivity].
  - discriminate.
  - left. reflexivity.
  - reflexivity.
  - intros rq _. reflexivity.
  - cbn. lia.
  - reflexivity.
Defined.




(** C7, as stated, fails when the provider is the empty string: the
    validation of line 19 takes it for a missing provider, and the
    error is [Missing html or provider], not [Unknown provider]. *)
Lemma C7_empty_provider_counterexample :
  request_of (publish_request (JStr sample_html) (JStr EmptyString))
    (JStr sample_html) (JStr EmptyString)
  /\ sample_html <> EmptyString
  /\ JStr EmptyString <> JStr "netlify"
  /\ JStr EmptyString <> JStr "vercel"
  /\ snd (POST (world_of deployed) all_credentials
            (publish_request (JStr sample_html) (JStr EmptyString)))
     = mkResponse 400 (JObj [("error", JStr "Missing html or provider")])
  /\ snd (POST (world_of deployed) all_credentials
            (publish_request (JStr sample_html) (JStr EmptyString)))
     <> mkResponse 400 (JObj [("error", JStr "Unknown provider")]).
Proof.
  split; [apply request_of_publish_request|].
  split; [discriminate|].
  split; [discriminate|].
  split; [discriminate|].
  split; [vm_compute; reflexivity | vm_compute; discriminate].
Qed.

(** C7, amended.  A request with a non-empty [html] and a provider that
    passes the validation (a truthy value) and is neither [netlify] nor
    [vercel] is answered 400 with the error [Unknown provider], and no
    call is made. *)
Theorem C7_unknown_provider
  (w : World) (env : Env) (request : Request) (html : string)
  (provider : JsVal) :
  request_of request (JStr html) provider ->
  html <> EmptyString ->
  truthy provider = true ->
  provider <> JStr "netlify" ->
  provider <> JStr "vercel" ->
  snd (POST w env request)
  = mkResponse 400 (JObj [("error", JStr "Unknown provider")])
  /\ calls (fst (POST w env request)) = [].
Proof.
  intros Hreq Hh Hp Hn Hv.
  assert (E : respond w env (JStr html) provider []
              = ([ArchiveBuilt (site_archive w html)],
                 inr (mkResponse 400 (JObj [("error", JStr "Unknown provider")])))).
  { rewrite (respond_valid w env html provider [] Hh Hp).
    rewrite (is_str_false provider "netlify" Hn).
    rewrite (is_str_false provider "vercel" Hv).
    reflexivity. }
  rewrite (POST_returns w env request _ _ _ _ Hreq E).
  split; reflexivity.
Qed.

Lemma C7_witness :
  snd (POST (world_of deployed) all_credentials
         (publish_request (JStr sample_html) (JStr "bogus")))
  = mkResponse 400 (JObj [("error", JStr "Unknown provider")])
  /\ calls (fst (POST (world_of deployed) all_credentials
                   (publish_request (JStr sample_html) (JStr "bogus")))) = [].
Proof.
  apply (C7_unknown_provider (world_of deployed) all_credentials
           (publish_request (JStr sample_html) (JStr "bogus"))
           sample_html (JStr "bogus")).
  - unfold request_of. eexists. split; [reflexivity | split; reflexivity].
  - discriminate.
  - reflexivity.
  - discriminate.
  - discriminate.
Defined.

(** C8, as stated, fails: the response to the request [{}] is a failure
    with status 400 and has no [details]. *)
Lemma C8_no_details_counterexample :
  is_failure (snd (POST (world_of deployed) all_credentials empty_request))
  /\ status (snd (POST (world_of deployed) all_credentials empty_request)) = 400
  /\ lookup "details"
       (properties (snd (POST (world_of deployed) all_credentials empty_request)))
     = JUndefined.
Proof.
  split; [exists "Missing html or provider", []; reflexivity|].
  split; reflexivity.
Qed.

Lemma failure_is_not_ok (r : HttpResponse) :
  is_failure r -> shaped r -> failure_400 r \/ failure_500 r.
Proof.
  intros (e & fs & He) [[_ [(u & Hu) | (m & z & Hz)]] | H]; [| |exact H].
  - rewrite Hu in He. destruct u; discriminate He.
  - rewrite Hz in He. discriminate He.
Qed.

(** C8, amended.  Every failure response is a JSON object with an
    [error]; its status is 400 for an invalid request and for an unknown
    provider, and the object then has no other property; it is 500 for a
    failed deployment and for a server error, and the object then has
    the [error] and its [details]. *)
Theorem C8_failure_responses
  (w : World) (env : Env) (request : Request) :
  is_failure (snd (POST w env request)) ->
  (status (snd (POST w env request)) = 400
   /\ exists e,
        body (snd (POST w env request)) = JObj [("error", JStr e)]
        /\ (e = "Missing html or provider" \/ e = "Unknown provider"))
  \/ (status (snd (POST w env request)) = 500
      /\ exists e d,
           body (snd (POST w env request))
           = JObj [("error", JStr e); ("details", JStr d)]
           /\ (e = "Netlify deploy failed" \/ e = "Vercel deploy failed"
               \/ e = "Server error")).
Proof.
  intros Hf. exact (failure_is_not_ok _ Hf (POST_shaped w env request)).
Qed.

Lemma C8_witness :
  (status (snd (POST (world_of quota_exceeded) all_credentials
                  (publish_request (JStr sample_html) (JStr "vercel")))) = 400
   /\ exists e,
        body (snd (POST (world_of quota_exceeded) all_credentials
                     (publish_request (JStr sample_html) (JStr "vercel"))))
        = JObj [("error", JStr e)]
        /\ (e = "Missing html or provider" \/ e = "Unknown provider"))
  \/ (status (snd (POST (world_of quota_exceeded) all_credentials
                     (publish_request (JStr sample_html) (JStr "vercel")))) = 500
      /\ exists e d,
           body (snd (POST (world_of quota_exceeded) all_credentials
                        (publish_request (JStr sample_html) (JStr "vercel"))))
           = JObj [("error", JStr e); ("details", JStr d)]
           /\ (e = "Netlify deploy failed" \/ e = "Vercel deploy failed"
               \/ e = "Server error")).
Proof.
  apply (C8_failure_responses (world_of quota_exceeded) all_credentials
           (publish_request (JStr sample_html) (JStr "vercel"))).
  exists "Vercel deploy failed", [("details", JStr "quota exceeded")].
  vm_compute. reflexivity.
Defined.

(** C9.  A request whose [html] is the empty string is answered like a
    request without [html]: 400 with the error [Missing html or
    provider], whatever the provider and the credentials; no archive is
    built and no call is made. *)
Theorem C9_empty_html_is_invalid_request
  (w : World) (env : Env) (request : Request) (provider : JsVal) :
  request_of request (JStr EmptyString) provider ->
  snd (POST w env request)
  = mkResponse 400 (JObj [("error", JStr "Missing html or provider")])
  /\ fst (POST w env request) = []
  /\ ~ is_fallback (snd (POST w env request))
  /\ ~ is_success (snd (POST w env request)).
Proof.
  intros Hreq.
  rewrite (POST_returns w env request (JStr EmptyString) provider _ _ Hreq
             (respond_rejects w env (JStr EmptyString) provider []
                (or_introl eq_refl))).
  cbn [fst snd]. repeat split.
  - intros (m & z & H). discriminate H.
  - intros (u & H). cbn [body] in H. destruct u; discriminate H.
Qed.

Lemma C9_witness :
  snd (POST (world_of deployed) all_credentials
         (publish_request (JStr EmptyString) (JStr "netlify")))
  = mkResponse 400 (JObj [("error", JStr "Missing html or provider")])
  /\ fst (POST (world_of deployed) all_credentials
            (publish_request (JStr EmptyString) (JStr "netlify"))) = []
  /\ ~ is_fallback
         (snd (POST (world_of deployed) all_credentials
                 (publish_request (JStr EmptyString) (JStr "netlify"))))
  /\ ~ is_success
         (snd (POST (world_of deployed) all_credentials
                 (publish_request (JStr EmptyString) (JStr "netlify")))).
Proof.
  apply (C9_empty_html_is_invalid_request (world_of deployed) all_credentials
           (publish_request (JStr EmptyString) (JStr "netlify")) (JStr "netlify")).
  unfold request_of. eexists. split; [reflexivity | split; reflexivity].
Defined.

(** C10.  The fallback returned when the credentials are missing has
    status 200; it carries [zipBase64] and no [url].  Every success has
    status 200 as well, and carries no [zipBase64]: the status does not
    tell a fallback from a success, the body does. *)
Theorem C10_fallback_status_is_200
  (w : World) (env : Env) (request : Request) (html provider : string) :
  request_of request (JStr html) (JStr provider) ->
  html <> EmptyString ->
  supported provider ->
  credentials_missing env provider = true ->
  is_fallback (snd (POST w env request))
  /\ status (snd (POST w env request)) = 200
  /\ lookup "zipBase64" (properties (snd (POST w env request))) <> JUndefined
  /\ lookup "url" (properties (snd (POST w env request))) = JUndefined
  /\ (forall w' env' request',
        is_success (snd (POST w' env' request')) ->
        status (snd (POST w' env' request')) = 200
        /\ lookup "zipBase64" (properties (snd (POST w' env' request')))
           = JUndefined).
Proof.
  intros Hreq Hh Hs Hm.
  rewrite (POST_returns w env request _ _ _ _ Hreq
             (respond_fallback w env html provider Hh Hs Hm)).
  cbn [snd status].
  split; [eexists; eexists; reflexivity|].
  split; [reflexivity|].
  split; [discriminate|].
  split; [reflexivity|].
  intros w' env' request' (u & Hu).
  split.
  - destruct (POST_shaped w' env' request')
      as [[H _] | [[_ (e & He & _)] | [_ (e & d & He & _)]]];
      [exact H | |]; rewrite Hu in He; destruct u; discriminate He.
  - unfold properties. rewrite Hu. destruct u; reflexivity.
Qed.

Lemma C10_witness :
  is_fallback (snd (POST (world_of deployed) no_credentials
                      (publish_request (JStr sample_html) (JStr "vercel"))))
  /\ status (snd (POST (world_of deployed) no_credentials
                    (publish_request (JStr sample_html) (JStr "vercel")))) = 200.
Proof.
  destruct (C10_fallback_status_is_200 (world_of deployed) no_credentials
              (publish_request (JStr sample_html) (JStr "vercel"))
              sample_html "vercel") as (H1 & H2 & _).
  - unfold request_of. eexists. split; [reflexivity | split; reflexivity].
  - discriminate.
  - right. reflexivity.
  - reflexivity.
  - split; [exact H1 | exact H2].
Defined.

(** * The properties of the specification: the renderer *)

Lemma prefix_append (s t : string) : String.prefix s (s +++ t) = true.
Proof.
  induction s as [|c s IH]; cbn [String.prefix String.append].
  - destruct t; reflexivity.
  - destruct (ascii_dec c c) as [_|N]; [exact IH|contradiction].
Qed.

Lemma includes_here (s t : string) : includes (s +++ t) s = true.
Proof.
  destruct (s +++ t) eqn:E; cbn [includes];
    rewrite <- E; rewrite prefix_append; reflexivity.
Qed.

Lemma join_empty_cons (x : string) (l : list string) :
  join EmptyString (x :: l) = x +++ join EmptyString l.
Proof.
  destruct l as [|y l]; cbn [join String.append].
  - now rewrite append_nil_r.
  - reflexivity.
Qed.

Lemma join_item (f : string -> string) (s : string) (l : list string) :
  In s l ->
  exists a b, join EmptyString (map f l) = a +++ f s +++ b.
Proof.
  induction l as [|x l IH]; intros H; [contradiction|].
  cbn [map]. rewrite join_empty_cons. destruct H as [-> | H].
  - exists EmptyString, (join EmptyString (map f l)). reflexivity.
  - destruct (IH H) as (a & b & E). rewrite E.
    exists (f x +++ a), b. now rewrite append_assoc.
Qed.

Lemma cta_text_spec (data : GenResult) :
  template (js_or (JStr (cta data)) (JStr "Contact Us")) = cta_text data.
Proof.
  unfold js_or, cta_text. cbn [truthy].
  destruct (String.eqb (cta data) EmptyString); reflexivity.
Qed.

(** A chunk of the template that ends, or starts, with a given text. *)
Ltac ends_with chunk lit p H :=
  assert (H : exists p, chunk = p +++ lit)
    by (exists (substring 0 (String.length chunk - String.length lit) chunk);
        vm_compute; reflexivity);
  destruct H as [p H].

Ltac starts_with chunk lit q H :=
  assert (H : exists q, chunk = lit +++ q)
    by (exists (substring (String.length lit)
                  (String.length chunk - String.length lit) chunk);
        vm_compute; reflexivity);
  destruct H as [q H].

Lemma includes_prefix (s sub post : string) :
  s = sub +++ post -> includes s sub = true.
Proof. intros ->. apply includes_here. Qed.

Lemma includes_skip (s t sub : string) :
  includes t sub = true -> includes (s +++ t) sub = true.
Proof.
  intros H. induction s as [|c s IH]; [exact H|].
  cbn [String.append includes]. rewrite IH. apply orb_true_r.
Qed.

(** Looks for a text in a concatenation, piece by piece. *)
Ltac peel :=
  repeat match goal with
    | |- ?a +++ _ = ?a +++ _ => apply (f_equal (String.append a))
    end;
  reflexivity.

Ltac here :=
  eapply includes_prefix; rewrite ?append_assoc; peel.

Ltac find_sub := first [ here | apply includes_skip; find_sub ].

Ltac embedded :=
  unfold buildHtml; rewrite ?cta_text_spec;
  repeat match goal with
    | H : _ = _ +++ _ |- _ => rewrite H; clear H
    end;
  rewrite ?append_assoc; find_sub.

Section Render.
Variables (year : Z) (data : GenResult).

Lemma title_embedded :
  includes (buildHtml year data) ("<title>" +++ headline data +++ "</title>")
  = true.
Proof.
  ends_with tpl0 "<title>" p0 E0. starts_with tpl1 "</title>" q1 E1.
  embedded.
Qed.

Lemma h1_embedded :
  includes (buildHtml year data) ("<h1>" +++ headline data +++ "</h1>") = true.
Proof.
  ends_with tpl3 "<h1>" p E0. starts_with tpl4 "</h1>" q E1.
  embedded.
Qed.

Lemma subheadline_embedded :
  includes (buildHtml year data) ("<p>" +++ subheadline data +++ "</p>") = true.
Proof.
  ends_with tpl4 "<p>" p E0. starts_with tpl5 "</p>" q E1.
  embedded.
Qed.

Lemma about_embedded :
  includes (buildHtml year data) ("<p>" +++ about data +++ "</p>") = true.
Proof.
  ends_with tpl7 "<p>" p E0. starts_with tpl8 "</p>" q E1.
  embedded.
Qed.

Lemma cta_embedded :
  includes (buildHtml year data)
    ("class=" +++ dq +++ "btn" +++ dq +++ ">" +++ cta_text data +++ "</a>")
  = true.
Proof.
  ends_with tpl5 ("class=" +++ dq +++ "btn" +++ dq +++ ">") p E0.
  starts_with tpl6 "</a>" q E1.
  embedded.
Qed.

Lemma services_embedded :
  includes (buildHtml year data)
    ("<ul class=" +++ dq +++ "services" +++ dq +++ ">" +++ nl +++ "        "
       +++ join EmptyString (map service_item (services data))
       +++ nl +++ "      </ul>")
  = true.
Proof.
  ends_with tpl8
    ("<ul class=" +++ dq +++ "services" +++ dq +++ ">" +++ nl +++ "        ") p E0.
  starts_with tpl9 (nl +++ "      </ul>") q E1.
  embedded.
Qed.

Lemma service_embedded (s : string) :
  In s (services data) ->
  includes (buildHtml year data) (service_item s) = true.
Proof.
  intros H. destruct (join_item service_item s (services data) H) as (a & b & E).
  unfold buildHtml. rewrite E, ?append_assoc. find_sub.
Qed.

(** The colour fills two slots of the template, and nothing else of the
    output depends on it. *)
Lemma color_slots :
  exists before between after,
    forall c,
      buildHtml year (with_color data c)
      = before +++ ("linear-gradient(135deg, " +++ c +++ ", #111827)")
          +++ between +++ (".btn{ background:" +++ c +++ ";") +++ after.
Proof.
  ends_with tpl1 "linear-gradient(135deg, " p1 E1.
  assert (E2 : exists m, tpl2 = ", #111827)" +++ m +++ ".btn{ background:")
    by (exists (substring 10 (String.length tpl2 - 27) tpl2);
        vm_compute; reflexivity).
  destruct E2 as [m E2].
  starts_with tpl3 ";" q3 E3.
  exists (tpl0 +++ headline data +++ p1), m. eexists. intros c.
  unfold buildHtml, with_color.
  cbn [headline subheadline about services cta color imageUrl].
  rewrite E1, E2, E3, ?append_assoc. peel.
Qed.

Lemma cta_text_cases :
  (cta data = EmptyString -> cta_text data = "Contact Us")
  /\ (cta data <> EmptyString -> cta_text data = cta data).
Proof.
  unfold cta_text. destruct (String.eqb_spec (cta data) EmptyString) as [E|N].
  - split; [reflexivity | intros H; contradiction].
  - split; [intros H; contradiction | reflexivity].
Qed.

End Render.

(** C4.  For a content with all its fields, the output of [buildHtml] is
    determined by the content and the year; it holds the headline (as
    title and as heading), the subheadline and the about text (each in a
    paragraph), one list item for each service, in order, in the list of
    services, the call to action (the text [Contact Us] when it is
    empty) in the button, and the colour in two slots, the gradient of
    the hero and the background of the button, and nowhere else. *)
Theorem C4_render_embeds_content (year : Z) (data : GenResult) :
  (forall year' data',
     year' = year -> data' = data -> buildHtml year' data' = buildHtml year data)
  /\ includes (buildHtml year data) ("<title>" +++ headline data +++ "</title>")
     = true
  /\ includes (buildHtml year data) ("<h1>" +++ headline data +++ "</h1>") = true
  /\ includes (buildHtml year data) ("<p>" +++ subheadline data +++ "</p>") = true
  /\ includes (buildHtml year data) ("<p>" +++ about data +++ "</p>") = true
  /\ includes (buildHtml year data)
       ("<ul class=" +++ dq +++ "services" +++ dq +++ ">" +++ nl +++ "        "
          +++ join EmptyString (map service_item (services data))
          +++ nl +++ "      </ul>") = true
  /\ length (map service_item (services data)) = length (services data)
  /\ (forall s, In s (services data) ->
        includes (buildHtml year data) ("<li>• " +++ s +++ "</li>") = true)
  /\ includes (buildHtml year data)
       ("class=" +++ dq +++ "btn" +++ dq +++ ">" +++ cta_text data +++ "</a>")
     = true
  /\ (cta data = EmptyString -> cta_text data = "Contact Us")
  /\ (cta data <> EmptyString -> cta_text data = cta data)
  /\ (exists before between after,
        forall c,
          buildHtml year (with_color data c)
          = before +++ ("linear-gradient(135deg, " +++ c +++ ", #111827)")
              +++ between +++ (".btn{ background:" +++ c +++ ";") +++ after).
Proof.
  split; [intros year' data' -> ->; reflexivity|].
  split; [apply title_embedded|].
  split; [apply h1_embedded|].
  split; [apply subheadline_embedded|].
  split; [apply about_embedded|].
  split; [apply services_embedded|].
  split; [apply length_map|].
  split; [intros s Hs; apply (service_embedded year data s Hs)|].
  split; [apply cta_embedded|].
  split; [apply cta_text_cases|].
  split; [apply cta_text_cases|].
  apply color_slots.
Qed.

(** The page of a sample site. *)
Example sample_page :
  let data :=
    mkGen "Peacock Salon" "Premium hair & beauty" "Hair, skin and bridal."
      ["Haircuts"; "Makeup"] EmptyString [] "#4f46e5" "https://example.com/hero.jpg" in
  includes (buildHtml 2024 data) "<li>• Haircuts</li><li>• Makeup</li>" = true
  /\ includes (buildHtml 2024 data) "© 2024 Peacock Salon" = true
  /\ includes (buildHtml 2024 data) ".btn{ background:#4f46e5;" = true
  /\ includes (buildHtml 2024 data) ">Contact Us</a>" = true.
Proof. repeat split; vm_compute; reflexivity. Qed.


(** * More properties of the publish route *)

(** *** Every run of the handler *)

Lemma nse_success (u : JsVal) :
  not_server_error (NextResponse_json (JObj [("url", u)]) 200).
Proof. unfold not_server_error, properties. destruct u; cbn; discriminate. Qed.

Lemma nse_fallback (m z : string) :
  not_server_error
    (NextResponse_json (JObj [("message", JStr m); ("zipBase64", JStr z)]) 200).
Proof. unfold not_server_error. cbn. discriminate. Qed.

Lemma nse_error (e : string) (st : Z) :
  e <> "Server error" ->
  not_server_error (NextResponse_json (JObj [("error", JStr e)]) st).
Proof. intros H. unfold not_server_error. cbn. congruence. Qed.

Lemma nse_details (e d : string) (st : Z) :
  e <> "Server error" ->
  not_server_error
    (NextResponse_json (JObj [("error", JStr e); ("details", JStr d)]) st).
Proof. intros H. unfold not_server_error. cbn. congruence. Qed.

Ltac split_run :=
  repeat (cbv beta iota;
          match goal with
          | |- context [match ?x with _ => _ end] =>
              lazymatch x with
              | context [match _ with _ => _ end] => fail
              | _ => destruct x eqn:?
              end
          end).

Ltac close_run :=
  cbv beta iota;
  eexists; eexists; split; [reflexivity|]; split; [constructor|];
  let r := fresh "r" in
  let H := fresh "H" in
  intros r H; inversion H; subst;
  first [ apply nse_success | apply nse_fallback
        | apply nse_error; discriminate | apply nse_details; discriminate ].

(** Whatever it is given, the handler builds at most the archive, then
    makes at most one call, and what it returns is not the response of
    the [catch] clause. *)
Lemma respond_run (w : World) (env : Env) (html provider : JsVal) :
  exists ev out,
    respond w env html provider [] = (ev, out)
    /\ respond_trace ev
    /\ (forall r, out = inr r -> not_server_error r).
Proof.
  unfold respond, build_archive, JSZip.generateAsync, deploy_netlify,
    deploy_vercel, vercel_payload, sha1, do_fetch.
  unfold bind, emit, await, ret. cbn [app].
  split_run; close_run.
Qed.

Lemma POST_run (w : World) (env : Env) (request : Request) :
  exists ev,
    respond_trace ev
    /\ ((fst (POST w env request) = ev
         /\ not_server_error (snd (POST w env request)))
        \/ exists err,
             POST w env request = (ev ++ [ConsoleError err], server_error err)).
Proof.
  unfold POST, try_catch, bind, await.
  destruct (req_json request) as [e|parsed].
  { exists []. split; [constructor|]. right. exists e. reflexivity. }
  destruct (destructure parsed "html") as [e|html].
  { exists []. split; [constructor|]. right. exists e. reflexivity. }
  destruct (destructure parsed "provider") as [e|provider].
  { exists []. split; [constructor|]. right. exists e. reflexivity. }
  destruct (respond_run w env html provider) as (ev & out & E & Ht & Hn).
  rewrite E. exists ev. split; [exact Ht|].
  destruct out as [e|r].
  - right. exists e. reflexivity.
  - left. split; [reflexivity|]. apply Hn. reflexivity.
Qed.

Lemma logged_respond_trace (ev : list Event) :
  respond_trace ev -> logged ev = [].
Proof. intros H. destruct H; reflexivity. Qed.

Lemma logged_app (a b : list Event) : logged (a ++ b) = logged a ++ logged b.
Proof.
  induction a as [|x a IH]; [reflexivity|].
  destruct x; cbn [app logged]; rewrite IH; reflexivity.
Qed.

(** With its credentials set, the handler answers from what the
    provider says, and from the [catch] clause when reading it fails. *)
Lemma POST_deploys (w : World) (env : Env) (request : Request)
  (html provider : string) :
  request_of request (JStr html) (JStr provider) ->
  html <> EmptyString -> supported provider ->
  credentials_missing env provider = false ->
  POST w env request
  = match answer_of provider (fetch w (deploy_request w env html provider)) with
    | inr r =>
        ([ArchiveBuilt (site_archive w html);
          Fetched (deploy_request w env html provider)], r)
    | inl err =>
        ([ArchiveBuilt (site_archive w html);
          Fetched (deploy_request w env html provider);
          ConsoleError err], server_error err)
    end.
Proof.
  intros Hreq Hh Hs Hm.
  pose proof (respond_deploys w env html provider Hh Hs Hm) as E.
  destruct (answer_of provider (fetch w (deploy_request w env html provider)))
    as [e|r].
  - rewrite (POST_throws w env request _ _ _ _ Hreq E). reflexivity.
  - rewrite (POST_returns w env request _ _ _ _ Hreq E). reflexivity.
Qed.

(** The address the handler returns: the first of the two properties of
    the answer when it is truthy, the second otherwise. *)
Lemma answer_of_object (provider : string) (res : FetchRes)
  (fields : list (string * JsVal)) :
  res_ok res = true ->
  res_json res = inr (JObj fields) ->
  answer_of provider (inr res)
  = inr (NextResponse_json
           (JObj [("url", js_or (lookup (fst (url_keys provider)) fields)
                            (lookup (snd (url_keys provider)) fields))]) 200).
Proof.
  intros Hok Hj. unfold answer_of, url_keys, js_or. rewrite Hok, Hj.
  cbn [negb get_prop].
  destruct (String.eqb provider "netlify"); cbn [fst snd];
    match goal with
    | |- context [truthy ?u] => destruct (truthy u)
    end; reflexivity.
Qed.

Lemma length_be_bytes (k : nat) (x : Z) : length (SHA1.be_bytes k x) = k.
Proof.
  revert x. induction k as [|k IH]; intros x; [reflexivity|].
  cbn [SHA1.be_bytes]. rewrite length_app, IH. cbn [length]. lia.
Qed.

Lemma length_digest (data : list byte) : length (SHA1.digest data) = 20%nat.
Proof.
  unfold SHA1.digest. cbv zeta. rewrite !length_app, !length_be_bytes.
  reflexivity.
Qed.

Lemma hex_digit_ok (b : byte) :
  is_hex_digit (Hex.digit (Z_of_byte b / 16)) = true
  /\ is_hex_digit (Hex.digit (Z_of_byte b mod 16)) = true.
Proof. destruct b; split; reflexivity. Qed.

Lemma hex_encode_ok (l : list byte) :
  String.length (Hex.encode l) = (2 * length l)%nat
  /\ forallb is_hex_digit (list_ascii_of_string (Hex.encode l)) = true.
Proof.
  induction l as [|b l [IHn IHd]]; [split; reflexivity|].
  cbn [Hex.encode String.length length list_ascii_of_string forallb].
  destruct (hex_digit_ok b) as [H1 H2]. rewrite H1, H2, IHn, IHd.
  split; [lia|reflexivity].
Qed.

(** ** Properties *)

(** X1.  Whatever the request, the configuration and the network, the
    handler does at most this, in this order: it builds the archive
    once, calls the provider once, logs one error.  It makes no call
    without an archive built before, and never calls twice. *)
Theorem POST_archive_then_one_call (w : World) (env : Env) (request : Request) :
  exists ev,
    respond_trace ev
    /\ (fst (POST w env request) = ev
        \/ exists err, fst (POST w env request) = ev ++ [ConsoleError err]).
Proof.
  destruct (POST_run w env request) as (ev & Ht & [[E _] | (err & E)]);
    exists ev; (split; [exact Ht|]).
  - left. exact E.
  - right. exists err. rewrite E. reflexivity.
Qed.

(** X2.  An error is logged on the console exactly when the response is
    the [Server error] of the [catch] clause; it is then logged once,
    and the [details] of the response are its message. *)
Theorem POST_logs_what_it_catches (w : World) (env : Env) (request : Request) :
  (logged (fst (POST w env request)) = []
   /\ lookup "error" (properties (snd (POST w env request)))
      <> JStr "Server error")
  \/ (exists err,
        logged (fst (POST w env request)) = [err]
        /\ snd (POST w env request)
           = mkResponse 500
               (JObj [("error", JStr "Server error"); ("details", JStr err)])).
Proof.
  destruct (POST_run w env request) as (ev & Ht & [[E Hn] | (err & E)]).
  - left. rewrite E. split; [apply logged_respond_trace, Ht | exact Hn].
  - right. exists err. rewrite E. cbn [fst snd].
    rewrite logged_app, (logged_respond_trace ev Ht). split; reflexivity.
Qed.

(** X3.  When the call to the provider is rejected (the network is
    down, the host is unknown), the response is 500 [Server error] with
    the message of the rejection; the archive was built, the call was
    made once and is not made again. *)
Theorem POST_network_error
  (w : World) (env : Env) (request : Request) (html provider : string)
  (err : Exn) :
  request_of request (JStr html) (JStr provider) ->
  html <> EmptyString ->
  supported provider ->
  credentials_missing env provider = false ->
  fetch w (deploy_request w env html provider) = inl err ->
  POST w env request
  = ([ArchiveBuilt (site_archive w html);
      Fetched (deploy_request w env html provider);
      ConsoleError err],
     mkResponse 500
       (JObj [("error", JStr "Server error"); ("details", JStr err)])).
Proof.
  intros Hreq Hh Hs Hm Hf.
  rewrite (POST_deploys w env request html provider Hreq Hh Hs Hm), Hf.
  reflexivity.
Qed.

Lemma POST_network_error_witness :
  POST offline all_credentials
    (publish_request (JStr sample_html) (JStr "netlify"))
  = ([ArchiveBuilt (site_archive offline sample_html);
      Fetched (deploy_request offline all_credentials sample_html "netlify");
      ConsoleError "fetch failed"],
     mkResponse 500
       (JObj [("error", JStr "Server error"); ("details", JStr "fetch failed")])).
Proof.
  apply (POST_network_error offline all_credentials
           (publish_request (JStr sample_html) (JStr "netlify"))
           sample_html "netlify" "fetch failed").
  - unfold request_of. eexists. split; [reflexivity | split; reflexivity].
  - discriminate.
  - left. reflexivity.
  - reflexivity.
  - reflexivity.
Defined.

(** X4.  When the provider answers with a status in 200..299 and a body
    that is not JSON, the response is 500 [Server error] with the
    message of the parser, not a success. *)
Theorem POST_answer_not_json
  (w : World) (env : Env) (request : Request) (html provider : string)
  (res : FetchRes) (err : Exn) :
  request_of request (JStr html) (JStr provider) ->
  html <> EmptyString ->
  supported provider ->
  credentials_missing env provider = false ->
  fetch w (deploy_request w env html provider) = inr res ->
  200 <= res_status res <= 299 ->
  res_json res = inl err ->
  snd (POST w env request)
  = mkResponse 500
      (JObj [("error", JStr "Server error"); ("details", JStr err)])
  /\ logged (fst (POST w env request)) = [err]
  /\ length (calls (fst (POST w env request))) = 1%nat.
Proof.
  intros Hreq Hh Hs Hm Hf Hst Hj.
  rewrite (POST_deploys w env request html provider Hreq Hh Hs Hm), Hf.
  assert (Hok : res_ok res = true).
  { unfold res_ok. apply andb_true_iff. split; apply Z.leb_le; lia. }
  unfold answer_of. rewrite Hok, Hj. cbn [negb].
  repeat split; reflexivity.
Qed.

Lemma POST_answer_not_json_witness :
  snd (POST (world_of not_json) all_credentials
         (publish_request (JStr sample_html) (JStr "vercel")))
  = mkResponse 500
      (JObj [("error", JStr "Server error");
             ("details", JStr "Unexpected token < in JSON at position 0")])
  /\ logged (fst (POST (world_of not_json) all_credentials
                    (publish_request (JStr sample_html) (JStr "vercel"))))
     = ["Unexpected token < in JSON at position 0"]
  /\ length (calls (fst (POST (world_of not_json) all_credentials
                           (publish_request (JStr sample_html) (JStr "vercel")))))
     = 1%nat.
Proof.
  apply (POST_answer_not_json (world_of not_json) all_credentials
           (publish_request (JStr sample_html) (JStr "vercel"))
           sample_html "vercel" not_json).
  - unfold request_of. eexists. split; [reflexivity | split; reflexivity].
  - discriminate.
  - right. reflexivity.
  - reflexivity.
  - reflexivity.
  - cbn. lia.
  - reflexivity.
Defined.

(** X5.  When the provider accepts the deployment and answers with a
    JSON object, the response is 200 and its [url] is, for Netlify, the
    [deploy_url] of the answer or else its [url]; for Vercel, the [url]
    of the answer or else its [inspectorUrl].  The first one is taken
    whenever it is truthy. *)
Theorem POST_success_address
  (w : World) (env : Env) (request : Request) (html provider : string)
  (res : FetchRes) (fields : list (string * JsVal)) :
  request_of request (JStr html) (JStr provider) ->
  html <> EmptyString ->
  supported provider ->
  credentials_missing env provider = false ->
  fetch w (deploy_request w env html provider) = inr res ->
  200 <= res_status res <= 299 ->
  res_json res = inr (JObj fields) ->
  snd (POST w env request)
  = mkResponse 200
      (JSON.clean
         (JObj [("url", js_or (lookup (fst (url_keys provider)) fields)
                          (lookup (snd (url_keys provider)) fields))]))
  /\ logged (fst (POST w env request)) = [].
Proof.
  intros Hreq Hh Hs Hm Hf Hst Hj.
  rewrite (POST_deploys w env request html provider Hreq Hh Hs Hm), Hf.
  assert (Hok : res_ok res = true).
  { unfold res_ok. apply andb_true_iff. split; apply Z.leb_le; lia. }
  rewrite (answer_of_object provider res fields Hok Hj).
  split; reflexivity.
Qed.

Lemma POST_success_address_witness :
  snd (POST (world_of deployed) all_credentials
         (publish_request (JStr sample_html) (JStr "vercel")))
  = mkResponse 200
      (JSON.clean
         (JObj [("url",
                 js_or (lookup (fst (url_keys "vercel"))
                          [("url", JStr "https://example.vercel.app")])
                   (lookup (snd (url_keys "vercel"))
                      [("url", JStr "https://example.vercel.app")]))]))
  /\ logged (fst (POST (world_of deployed) all_credentials
                    (publish_request (JStr sample_html) (JStr "vercel")))) = [].
Proof.
  apply (POST_success_address (world_of deployed) all_credentials
           (publish_request (JStr sample_html) (JStr "vercel"))
           sample_html "vercel" deployed).
  - unfold request_of. eexists. split; [reflexivity | split; reflexivity].
  - discriminate.
  - right. reflexivity.
  - reflexivity.
  - reflexivity.
  - cbn. lia.
  - reflexivity.
Defined.

(** X6.  When the provider accepts the deployment and its answer has
    neither of the two properties, the response is still 200, and its
    body is the empty object: a success without an address. *)
Theorem POST_success_without_address
  (w : World) (env : Env) (request : Request) (html provider : string)
  (res : FetchRes) (fields : list (string * JsVal)) :
  request_of request (JStr html) (JStr provider) ->
  html <> EmptyString ->
  supported provider ->
  credentials_missing env provider = false ->
  fetch w (deploy_request w env html provider) = inr res ->
  200 <= res_status res <= 299 ->
  res_json res = inr (JObj fields) ->
  lookup (fst (url_keys provider)) fields = JUndefined ->
  lookup (snd (url_keys provider)) fields = JUndefined ->
  snd (POST w env request) = mkResponse 200 (JObj []).
Proof.
  intros Hreq Hh Hs Hm Hf Hst Hj H1 H2.
  rewrite (POST_deploys w env request html provider Hreq Hh Hs Hm), Hf.
  assert (Hok : res_ok res = true).
  { unfold res_ok. apply andb_true_iff. split; apply Z.leb_le; lia. }
  rewrite (answer_of_object provider res fields Hok Hj), H1, H2.
  reflexivity.
Qed.

Lemma POST_success_without_address_witness :
  snd (POST (world_of no_address) all_credentials
         (publish_request (JStr sample_html) (JStr "netlify")))
  = mkResponse 200 (JObj []).
Proof.
  apply (POST_success_without_address (world_of no_address) all_credentials
           (publish_request (JStr sample_html) (JStr "netlify"))
           sample_html "netlify" no_address [("id", JNum 7)]).
  - unfold request_of. eexists. split; [reflexivity | split; reflexivity].
  - discriminate.
  - left. reflexivity.
  - reflexivity.
  - reflexivity.
  - cbn. lia.
  - reflexivity.
  - reflexivity.
  - reflexivity.
Defined.

Lemma credentials_set (o : option string) :
  truthy (env_val o) = true -> exists s, o = Some s /\ s <> EmptyString.
Proof.
  destruct o as [s|]; [|discriminate]. intros H. exists s. split; [reflexivity|].
  cbn [env_val truthy] in H. apply negb_true_iff, String.eqb_neq in H. exact H.
Qed.

Lemma archives_app (a b : list Event) :
  archives (a ++ b) = archives a ++ archives b.
Proof.
  induction a as [|x a IH]; [reflexivity|].
  destruct x; cbn [app archives]; rewrite IH; reflexivity.
Qed.

Lemma calls_app (a b : list Event) : calls (a ++ b) = calls a ++ calls b.
Proof.
  induction a as [|x a IH]; [reflexivity|].
  destruct x; cbn [app calls]; rewrite IH; reflexivity.
Qed.

(** What the [catch] clause adds to the trace. *)
Lemma fst_try_catch (m : M HttpResponse) (tr : list Event) :
  fst (try_catch m on_error tr)
  = fst (m tr) ++ match snd (m tr) with
                  | inl err => [ConsoleError err]
                  | inr _ => []
                  end.
Proof.
  unfold try_catch. destruct (m tr) as [tr' [e|r]]; cbn [fst snd on_error].
  - reflexivity.
  - symmetry. apply app_nil_r.
Qed.

(** Past the validation, the archive of the site is the first thing
    built, and the only archive. *)
Lemma respond_archive (w : World) (env : Env) (html : string) (provider : JsVal) :
  html <> EmptyString -> truthy provider = true ->
  exists rest,
    fst (respond w env (JStr html) provider [])
    = ArchiveBuilt (site_archive w html) :: rest
    /\ archives rest = [].
Proof.
  intros Hh Hp. rewrite (respond_valid w env html provider [] Hh Hp).
  unfold deploy_netlify, deploy_vercel, vercel_payload, sha1, do_fetch.
  unfold bind, emit, await, ret. cbn [app].
  split_run; cbv beta iota; cbn [fst app]; eexists; split; reflexivity.
Qed.

(** X7.  The deployment sent to Vercel has the properties [name],
    [project], [files] and [target], in this order, and a [teamId] last
    exactly when [VERCEL_TEAM_ID] is set to a non-empty string; the name
    ends with the time of the request, the project is
    [VERCEL_PROJECT_ID], the target is [production]; the call carries
    the token as a bearer token and announces JSON. *)
Theorem POST_vercel_deployment
  (w : World) (env : Env) (request : Request) (html : string) :
  request_of request (JStr html) (JStr "vercel") ->
  html <> EmptyString ->
  credentials_missing env "vercel" = false ->
  exists token fields,
    VERCEL_TOKEN env = Some token
    /\ calls (fst (POST w env request))
       = [mkFetch "https://api.vercel.com/v13/deployments" "POST"
            [("Authorization", "Bearer " +++ token);
             ("Content-Type", "application/json")]
            (body_of (JSON.stringify (JObj fields) 0))]
    /\ map fst fields
       = ["name"; "project"; "files"; "target"]
           ++ (if unset (VERCEL_TEAM_ID env) then [] else ["teamId"])
    /\ lookup "name" fields = JStr ("webmake-site-" +++ decimal (Date_now w))
    /\ lookup "project" fields = env_val (VERCEL_PROJECT_ID env)
    /\ lookup "target" fields = JStr "production"
    /\ lookup "teamId" fields
       = (if unset (VERCEL_TEAM_ID env) then JUndefined
          else env_val (VERCEL_TEAM_ID env)).
Proof.
  intros Hreq Hh Hm.
  destruct (POST_deploys_trace w env request html "vercel" Hreq Hh
              (or_intror eq_refl) Hm) as [Hc _].
  destruct (credentials_present env "vercel" (or_intror eq_refl) Hm)
    as [(E & _) | (_ & Ht & _)]; [discriminate E|].
  destruct (credentials_set _ Ht) as (token & Etok & _).
  exists token.
  rewrite Hc. unfold deploy_request, vercel_request, payload_of.
  cbn [String.eqb Ascii.eqb Bool.eqb]. rewrite Etok. cbn [env_val template].
  unfold unset. destruct (truthy (env_val (VERCEL_TEAM_ID env)));
    cbn [negb]; eexists; (split; [reflexivity|]); (split; [reflexivity|]);
    repeat split; reflexivity.
Qed.

Lemma POST_vercel_deployment_witness :
  exists token fields,
    VERCEL_TOKEN team_credentials = Some token
    /\ calls (fst (POST (world_of deployed) team_credentials
                     (publish_request (JStr sample_html) (JStr "vercel"))))
       = [mkFetch "https://api.vercel.com/v13/deployments" "POST"
            [("Authorization", "Bearer " +++ token);
             ("Content-Type", "application/json")]
            (body_of (JSON.stringify (JObj fields) 0))]
    /\ map fst fields
       = ["name"; "project"; "files"; "target"]
           ++ (if unset (VERCEL_TEAM_ID team_credentials) then [] else ["teamId"])
    /\ lookup "name" fields
       = JStr ("webmake-site-" +++ decimal (Date_now (world_of deployed)))
    /\ lookup "project" fields = env_val (VERCEL_PROJECT_ID team_credentials)
    /\ lookup "target" fields = JStr "production"
    /\ lookup "teamId" fields
       = (if unset (VERCEL_TEAM_ID team_credentials) then JUndefined
          else env_val (VERCEL_TEAM_ID team_credentials)).
Proof.
  apply (POST_vercel_deployment (world_of deployed) team_credentials
           (publish_request (JStr sample_html) (JStr "vercel")) sample_html).
  - unfold request_of. eexists. split; [reflexivity | split; reflexivity].
  - discriminate.
  - reflexivity.
Defined.

(** X8.  The upload to Netlify is one call, to the deploys of the site
    [NETLIFY_SITE_ID], with the token as a bearer token and the
    content type of the form; the form has one part, the field [file]
    named [site.zip] of type [application/zip], whose content is the
    archive that was built; the [index.html] of that archive is [html]. *)
Theorem POST_netlify_upload
  (w : World) (env : Env) (request : Request) (html : string) :
  request_of request (JStr html) (JStr "netlify") ->
  html <> EmptyString ->
  js_string html ->
  credentials_missing env "netlify" = false ->
  exists token siteId zipped,
    NETLIFY_TOKEN env = Some token
    /\ NETLIFY_SITE_ID env = Some siteId
    /\ calls (fst (POST w env request))
       = [mkFetch
            ("https://api.netlify.com/api/v1/sites/" +++ siteId +++ "/deploys")
            "POST"
            [("Authorization", "Bearer " +++ token);
             ("content-type",
              "multipart/form-data; boundary=" +++ new_boundary w)]
            (BodyForm
               (mkForm (new_boundary w)
                  [mkPart "file" zipped "site.zip" "application/zip"]))]
    /\ archives (fst (POST w env request)) = [zipped]
    /\ archive_entry "index.html" zipped = Some (Buffer_from html).
Proof.
  intros Hreq Hh Hjs Hm.
  destruct (POST_deploys_trace w env request html "netlify" Hreq Hh
              (or_introl eq_refl) Hm) as [Hc Ha].
  destruct (credentials_present env "netlify" (or_introl eq_refl) Hm)
    as [(_ & Ht & Hi) | (E & _)]; [|discriminate E].
  destruct (credentials_set _ Ht) as (token & Etok & _).
  destruct (credentials_set _ Hi) as (siteId & Esite & _).
  exists token, siteId, (site_archive w html).
  split; [exact Etok|]. split; [exact Esite|].
  split.
  { rewrite Hc. unfold deploy_request, netlify_request.
    cbn [String.eqb Ascii.eqb Bool.eqb]. rewrite Etok, Esite. reflexivity. }
  split; [exact Ha|].
  unfold archive_entry. rewrite (load_site_archive w html Hjs). reflexivity.
Qed.

Lemma POST_netlify_upload_witness :
  exists token siteId zipped,
    NETLIFY_TOKEN all_credentials = Some token
    /\ NETLIFY_SITE_ID all_credentials = Some siteId
    /\ calls (fst (POST (world_of deployed) all_credentials
                     (publish_request (JStr sample_html) (JStr "netlify"))))
       = [mkFetch
            ("https://api.netlify.com/api/v1/sites/" +++ siteId +++ "/deploys")
            "POST"
            [("Authorization", "Bearer " +++ token);
             ("content-type",
              "multipart/form-data; boundary=" +++ new_boundary (world_of deployed))]
            (BodyForm
               (mkForm (new_boundary (world_of deployed))
                  [mkPart "file" zipped "site.zip" "application/zip"]))]
    /\ archives (fst (POST (world_of deployed) all_credentials
                        (publish_request (JStr sample_html) (JStr "netlify"))))
       = [zipped]
    /\ archive_entry "index.html" zipped = Some (Buffer_from sample_html).
Proof.
  apply (POST_netlify_upload (world_of deployed) all_credentials
           (publish_request (JStr sample_html) (JStr "netlify")) sample_html).
  - unfold request_of. eexists. split; [reflexivity | split; reflexivity].
  - discriminate.
  - unfold js_string, max_utf8_length. cbn. lia.
  - reflexivity.
Defined.

(** X9.  [sha1] always returns, with or without SubtleCrypto, and what
    it returns is a text of 40 lowercase hexadecimal digits; it throws
    nothing and leaves no trace. *)
Theorem sha1_is_forty_hex_digits (w : World) (data : list byte)
  (tr : list Event) :
  exists h,
    sha1 w data tr = (tr, inr h)
    /\ String.length h = 40%nat
    /\ forallb is_hex_digit (list_ascii_of_string h) = true.
Proof.
  exists (Hex.encode (SHA1.digest data)).
  split; [apply sha1_returns|].
  destruct (hex_encode_ok (SHA1.digest data)) as [Hn Hd].
  rewrite Hn, length_digest. split; [reflexivity | exact Hd].
Qed.

(** X10.  A body that is JSON and neither an object nor [null] (a
    number, a text, a boolean, an array) is answered like a request
    without fields: 400 [Missing html or provider], nothing built,
    nothing called, nothing logged. *)
Theorem POST_body_not_an_object
  (w : World) (env : Env) (request : Request) (v : JsVal) :
  req_json request = inr v ->
  v <> JNull -> v <> JUndefined ->
  (forall fields, v <> JObj fields) ->
  POST w env request
  = ([], mkResponse 400 (JObj [("error", JStr "Missing html or provider")])).
Proof.
  intros Hj Hn Hu Ho. unfold POST, try_catch, bind, await. rewrite Hj.
  destruct v; try reflexivity.
  - congruence.
  - congruence.
  - exfalso. exact (Ho _ eq_refl).
Qed.

Lemma POST_body_not_an_object_witness :
  POST (world_of deployed) all_credentials (mkRequest (inr (JArr [JStr "x"])))
  = ([], mkResponse 400 (JObj [("error", JStr "Missing html or provider")])).
Proof.
  apply (POST_body_not_an_object (world_of deployed) all_credentials
           (mkRequest (inr (JArr [JStr "x"]))) (JArr [JStr "x"])).
  - reflexivity.
  - discriminate.
  - discriminate.
  - discriminate.
Defined.

(** X11.  A request whose body cannot be read as JSON, or is the JSON
    [null], is not answered 400: reading it throws inside the [try], so
    the response is 500 [Server error] with the message of the
    exception, which is logged; nothing is built and nothing is called. *)
Theorem POST_body_unreadable
  (w : World) (env : Env) (request : Request) :
  (exists err, req_json request = inl err) \/ req_json request = inr JNull ->
  exists err,
    POST w env request
    = ([ConsoleError err],
       mkResponse 500
         (JObj [("error", JStr "Server error"); ("details", JStr err)]))
    /\ (forall e, req_json request = inl e -> err = e).
Proof.
  intros [(err & Hj) | Hj]; unfold POST, try_catch, bind, await; rewrite Hj.
  - exists err. split; [reflexivity|]. intros e [= ->]. reflexivity.
  - eexists. split; [reflexivity|]. intros e [=].
Qed.

Lemma POST_body_unreadable_witness :
  exists err,
    POST (world_of deployed) all_credentials (mkRequest (inr JNull))
    = ([ConsoleError err],
       mkResponse 500
         (JObj [("error", JStr "Server error"); ("details", JStr err)]))
    /\ (forall e, req_json (mkRequest (inr JNull)) = inl e -> err = e).
Proof.
  apply (POST_body_unreadable (world_of deployed) all_credentials
           (mkRequest (inr JNull))).
  right. reflexivity.
Defined.

(** X12.  The status of every response is 200, 400 or 500, and the
    body has an [error] exactly when the status is not 200. *)
Theorem POST_status_tells_errors (w : World) (env : Env) (request : Request) :
  (status (snd (POST w env request)) = 200
   /\ lookup "error" (properties (snd (POST w env request))) = JUndefined)
  \/ ((status (snd (POST w env request)) = 400
       \/ status (snd (POST w env request)) = 500)
      /\ exists e, lookup "error" (properties (snd (POST w env request)))
                   = JStr e).
Proof.
  destruct (POST_shaped w env request)
    as [[Hs [(u & Hu) | (m & z & Hz)]]
       | [[Hs (e & He & _)] | [Hs (e & d & He & _)]]];
    unfold properties.
  - left. split; [exact Hs|]. rewrite Hu. destruct u; reflexivity.
  - left. split; [exact Hs|]. rewrite Hz. reflexivity.
  - right. split; [left; exact Hs|]. exists e. rewrite He. reflexivity.
  - right. split; [right; exact Hs|]. exists e. rewrite He. reflexivity.
Qed.

(** X13.  With the credentials of the provider missing, the handler
    never touches the network: all it does is build the archive, and
    the [zipBase64] of its response decodes to exactly that archive. *)
Theorem POST_fallback_calls_nobody
  (w : World) (env : Env) (request : Request) (html provider : string) :
  request_of request (JStr html) (JStr provider) ->
  html <> EmptyString ->
  supported provider ->
  credentials_missing env provider = true ->
  exists zipped zipBase64,
    fst (POST w env request) = [ArchiveBuilt zipped]
    /\ lookup "zipBase64" (properties (snd (POST w env request)))
       = JStr zipBase64
    /\ Base64.decode zipBase64 = Some zipped
    /\ calls (fst (POST w env request)) = [].
Proof.
  intros Hreq Hh Hs Hm.
  rewrite (POST_returns w env request _ _ _ _ Hreq
             (respond_fallback w env html provider Hh Hs Hm)).
  exists (site_archive w html), (Base64.encode (site_archive w html)).
  split; [reflexivity|]. split; [reflexivity|].
  split; [apply Base64Facts.decode_encode | reflexivity].
Qed.

Lemma POST_fallback_calls_nobody_witness :
  exists zipped zipBase64,
    fst (POST offline no_credentials
           (publish_request (JStr sample_html) (JStr "vercel")))
    = [ArchiveBuilt zipped]
    /\ lookup "zipBase64"
         (properties (snd (POST offline no_credentials
                             (publish_request (JStr sample_html) (JStr "vercel")))))
       = JStr zipBase64
    /\ Base64.decode zipBase64 = Some zipped
    /\ calls (fst (POST offline no_credentials
                     (publish_request (JStr sample_html) (JStr "vercel")))) = [].
Proof.
  apply (POST_fallback_calls_nobody offline no_credentials
           (publish_request (JStr sample_html) (JStr "vercel"))
           sample_html "vercel").
  - unfold request_of. eexists. split; [reflexivity | split; reflexivity].
  - discriminate.
  - right. reflexivity.
  - reflexivity.
Defined.

(** X14.  Every request that passes the validation with a text for
    [html] has the same archive built, whatever the provider (an unknown
    one included), the configuration and the answer of the network: one
    archive, holding [index.html] with the bytes of [html] and
    [package.json] with the manifest indented by two spaces, in this
    order. *)
Theorem POST_archive_of_every_provider
  (w : World) (env : Env) (request : Request) (html : string)
  (provider : JsVal) :
  request_of request (JStr html) provider ->
  html <> EmptyString ->
  js_string html ->
  truthy provider = true ->
  exists zipped,
    archives (fst (POST w env request)) = [zipped]
    /\ Zip.load zipped
       = Some [Zip.mkEntry "index.html" (Buffer_from html);
               Zip.mkEntry "package.json" (Buffer_from manifest_pretty)].
Proof.
  intros Hreq Hh Hjs Hp.
  rewrite (POST_request_of w env request _ _ Hreq), fst_try_catch.
  destruct (respond_archive w env html provider Hh Hp) as (rest & E & Hr).
  rewrite E. exists (site_archive w html).
  split; [|exact (load_site_archive w html Hjs)].
  rewrite archives_app. cbn [archives]. rewrite Hr.
  destruct (snd (respond w env (JStr html) provider [])); reflexivity.
Qed.

Lemma POST_archive_of_every_provider_witness :
  exists zipped,
    archives (fst (POST (world_of deployed) all_credentials
                     (publish_request (JStr sample_html) (JStr "bogus"))))
    = [zipped]
    /\ Zip.load zipped
       = Some [Zip.mkEntry "index.html" (Buffer_from sample_html);
               Zip.mkEntry "package.json" (Buffer_from manifest_pretty)].
Proof.
  apply (POST_archive_of_every_provider (world_of deployed) all_credentials
           (publish_request (JStr sample_html) (JStr "bogus"))
           sample_html (JStr "bogus")).
  - unfold request_of. eexists. split; [reflexivity | split; reflexivity].
  - discriminate.
  - unfold js_string, max_utf8_length. cbn. lia.
  - reflexivity.
Defined.

(** * More properties of the page *)

(** ** The services editor *)

Lemma split_not_nil (sep : ascii) (s : string) : Page.split sep s <> [].
Proof.
  destruct s as [|c r]; cbn [Page.split]; [discriminate|].
  destruct (Ascii.eqb c sep); [discriminate|].
  destruct (Page.split sep r); discriminate.
Qed.

Lemma single_line_cons (c : ascii) (s : string) :
  Page.single_line (String c s) = true ->
  Ascii.eqb c Page.newline = false /\ Page.single_line s = true.
Proof.
  unfold Page.single_line. cbn [list_ascii_of_string existsb].
  intros H. apply negb_true_iff, orb_false_iff in H. destruct H as [H1 H2].
  split; [exact H1 | now rewrite H2].
Qed.

Lemma split_single (x : string) :
  Page.single_line x = true -> Page.split Page.newline x = [x].
Proof.
  induction x as [|c x IH]; intros H; [reflexivity|].
  apply single_line_cons in H. destruct H as [Hc Hx].
  cbn [Page.split]. rewrite Hc, (IH Hx). reflexivity.
Qed.

Lemma split_line (x rest : string) :
  Page.single_line x = true ->
  Page.split Page.newline (x +++ String Page.newline rest)
  = x :: Page.split Page.newline rest.
Proof.
  induction x as [|c x IH]; intros H.
  - cbn [String.append Page.split]. rewrite Ascii.eqb_refl. reflexivity.
  - apply single_line_cons in H. destruct H as [Hc Hx].
    cbn [String.append Page.split]. rewrite Hc, (IH Hx). reflexivity.
Qed.

Lemma split_services_text (l : list string) :
  l <> [] ->
  Forall (fun s => Page.single_line s = true) l ->
  Page.split Page.newline (Page.services_text l) = l.
Proof.
  unfold Page.services_text.
  induction l as [|x l IH]; intros Hn Hl; [contradiction|].
  inversion Hl as [|? ? Hx Hr]; subst.
  destruct l as [|y l].
  - cbn [join]. apply split_single, Hx.
  - change (join nl (x :: y :: l))
      with (x +++ String Page.newline (join nl (y :: l))).
    rewrite (split_line _ _ Hx), IH; [reflexivity|discriminate|exact Hr].
Qed.

Lemma filter_nonempty (l : list string) :
  Forall (fun s => s <> EmptyString) l ->
  filter (fun s => truthy (JStr s)) l = l.
Proof.
  induction 1 as [|x l Hx _ IH]; [reflexivity|].
  cbn [filter]. rewrite (truthy_JStr x Hx), IH. reflexivity.
Qed.

Lemma split_single_lines (v : string) :
  Forall (fun s => Page.single_line s = true) (Page.split Page.newline v).
Proof.
  induction v as [|c v IH]; [repeat constructor|].
  cbn [Page.split]. destruct (Ascii.eqb c Page.newline) eqn:Ec.
  - constructor; [reflexivity | exact IH].
  - destruct (Page.split Page.newline v) as [|x xs].
    + repeat constructor. unfold Page.single_line.
      cbn [list_ascii_of_string existsb]. rewrite Ec. reflexivity.
    + inversion IH as [|? ? Hx Hxs]; subst. constructor; [|exact Hxs].
      unfold Page.single_line in *. cbn [list_ascii_of_string existsb].
      rewrite Ec. exact Hx.
Qed.

Lemma services_of_text_lines (v : string) :
  Forall Page.service_line (Page.services_of_text v).
Proof.
  unfold Page.services_of_text.
  pose proof (split_single_lines v) as H.
  induction H as [|x l Hx _ IH]; [constructor|].
  cbn [filter]. destruct (truthy (JStr x)) eqn:Et; [|exact IH].
  constructor; [|exact IH]. split; [|exact Hx].
  intros ->. discriminate Et.
Qed.

Lemma services_read_back (l : list string) :
  Forall Page.service_line l ->
  Page.services_of_text (Page.services_text l) = l.
Proof.
  intros H. unfold Page.services_of_text.
  destruct l as [|x l]; [reflexivity|].
  rewrite split_services_text.
  - apply filter_nonempty. eapply Forall_impl; [|exact H].
    intros s [Hs _]. exact Hs.
  - discriminate.
  - eapply Forall_impl; [|exact H]. intros s [_ Hs]. exact Hs.
Qed.

Lemma split_trailing (v : string) :
  Page.split Page.newline (v +++ nl)
  = Page.split Page.newline v ++ [EmptyString].
Proof.
  induction v as [|c v IH]; [reflexivity|].
  cbn [String.append Page.split]. rewrite IH.
  destruct (Ascii.eqb c Page.newline); [reflexivity|].
  destruct (Page.split Page.newline v) as [|x xs] eqn:E; [|reflexivity].
  exfalso. exact (split_not_nil _ _ E).
Qed.

(** X15.  The services editor gives back what it shows: a list of
    services that are not empty and have no line break is shown one per
    line, and reading that text gives the same list. *)
Theorem services_editor_round_trip (data : GenResult) :
  Forall Page.service_line (services data) ->
  Page.edit_services data (Page.services_text (services data)) = data.
Proof.
  intros H. unfold Page.edit_services. rewrite (services_read_back _ H).
  destruct data; reflexivity.
Qed.

Lemma services_editor_round_trip_witness :
  Page.edit_services sample_site (Page.services_text (services sample_site))
  = sample_site.
Proof.
  apply (services_editor_round_trip sample_site).
  repeat constructor; discriminate.
Defined.

(** X16.  Whatever is typed in the text area, the services read from it
    are not empty and have no line break; and the text the editor then
    shows reads back as the same services. *)
Theorem services_editor_settles (value : string) :
  Forall Page.service_line (Page.services_of_text value)
  /\ Page.services_of_text (Page.services_text (Page.services_of_text value))
     = Page.services_of_text value.
Proof.
  split; [apply services_of_text_lines|].
  apply services_read_back, services_of_text_lines.
Qed.

(** X17.  A line break typed at the end of the text area is lost: the
    services read are those read without it, so the editor shows the
    text as it was before the key was pressed. *)
Theorem services_editor_drops_last_line_break (value : string) :
  Page.services_of_text (value +++ nl) = Page.services_of_text value.
Proof.
  unfold Page.services_of_text. rewrite split_trailing, filter_app.
  cbn [filter truthy String.eqb negb]. apply app_nil_r.
Qed.

(** ** The renderer *)

Lemma buildHtml_starts (year : Z) (data : GenResult) :
  exists rest, buildHtml year data = "<!doctype html>" +++ rest.
Proof.
  starts_with tpl0 "<!doctype html>" q E.
  unfold buildHtml. rewrite E, !append_assoc. eexists. reflexivity.
Qed.

Lemma buildHtml_not_empty (year : Z) (data : GenResult) :
  buildHtml year data <> EmptyString.
Proof.
  destruct (buildHtml_starts year data) as [rest ->]. discriminate.
Qed.

Lemma ends_with_html (year : Z) (data : GenResult) :
  exists before, buildHtml year data = before +++ "</html>".
Proof.
  ends_with tpl11 "</html>" p E.
  unfold buildHtml. rewrite E, <- !append_assoc. eexists. reflexivity.
Qed.

(** X18.  The page [buildHtml] writes is a document from [<!doctype html>]
    to [</html>]; the hero image has [imageUrl] for source; the footer
    holds the year and the headline; the [keywords] of the content are
    not used. *)
Theorem buildHtml_document (year : Z) (data : GenResult) :
  (exists rest, buildHtml year data = "<!doctype html>" +++ rest)
  /\ (exists before, buildHtml year data = before +++ "</html>")
  /\ includes (buildHtml year data)
       ("<img class=" +++ dq +++ "hero-img" +++ dq +++ " src=" +++ dq
          +++ imageUrl data +++ dq +++ " alt=" +++ dq +++ "hero" +++ dq +++ " />")
     = true
  /\ includes (buildHtml year data)
       ("© " +++ decimal year +++ " " +++ headline data +++ nl +++ "  </footer>")
     = true
  /\ (forall words,
        buildHtml year
          (mkGen (headline data) (subheadline data) (about data) (services data)
             (cta data) words (color data) (imageUrl data))
        = buildHtml year data).
Proof.
  split; [apply buildHtml_starts|].
  split; [apply ends_with_html|].
  split.
  { ends_with tpl6
      ("<img class=" +++ dq +++ "hero-img" +++ dq +++ " src=" +++ dq) p E0.
    starts_with tpl7 (dq +++ " alt=" +++ dq +++ "hero" +++ dq +++ " />") q E1.
    embedded. }
  split.
  { ends_with tpl9 "© " p E0.
    starts_with tpl11 (nl +++ "  </footer>") q E1.
    change tpl10 with " ".
    embedded. }
  intros words. reflexivity.
Qed.

(** ** [exportZip] *)

Lemma load_page_archive (time date : Z) (html : string) :
  js_string html ->
  Zip.load (Zip.generate time date [Zip.mkEntry "index.html" (Buffer_from html)])
  = Some [Zip.mkEntry "index.html" (Buffer_from html)].
Proof.
  intros H. unfold js_string, max_utf8_length in H.
  apply ZipFacts.load_generate.
  - repeat constructor; cbn [Zip.name Zip.data];
      unfold Zip.len; rewrite ?length_Buffer_from;
      cbn [String.length]; lia.
  - unfold Zip.len. cbn [length]. lia.
  - cbn [Zip.locals]. rewrite !ZipFacts.len_app, !ZipFacts.len_local_part.
    cbn [Zip.name Zip.data]. unfold Zip.len. rewrite !length_Buffer_from.
    cbn [String.length length]. lia.
Qed.

(** X19.  With a site in the editor, [exportZip] makes one download,
    named [webmake-site.zip], of an archive whose only entry is
    [index.html] with the page of the site as [buildHtml] writes it; the
    address made for the download is revoked after the click, and the
    state of the page is left as it was. *)
Theorem exportZip_downloads_the_page
  (w : World) (year : Z) (object_url : string) (s : Page.Session)
  (site : GenResult) :
  Page.edit (Page.state s) = Some site ->
  js_string (buildHtml year site) ->
  exists blob,
    Page.exportZip w year object_url s
    = (Page.mkSession (Page.state s)
         (Page.effects s
            ++ [Page.ObjectURLCreated object_url blob;
                Page.Clicked object_url "webmake-site.zip";
                Page.ObjectURLRevoked object_url]),
       inr tt)
    /\ Zip.load blob
       = Some [Zip.mkEntry "index.html" (Buffer_from (buildHtml year site))].
Proof.
  intros He Hjs.
  exists (Zip.generate (zip_time w) (zip_date w)
            [Zip.mkEntry "index.html" (Buffer_from (buildHtml year site))]).
  split; [|apply load_page_archive, Hjs].
  unfold Page.exportZip. rewrite He.
  unfold JSZip.file, JSZip.new. cbn [set_prop JSZip.entries].
  unfold JSZip.content. rewrite (truthy_JStr _ (buildHtml_not_empty year site)).
  cbn [negb].
  unfold Page.bind, Page.await, Page.effect. cbn [Page.state Page.effects].
  rewrite <- !app_assoc. reflexivity.
Qed.

Lemma exportZip_downloads_the_page_witness :
  exists blob,
    Page.exportZip (world_of deployed) 2024 "blob:1" (editing sample_site)
    = (Page.mkSession (Page.state (editing sample_site))
         (Page.effects (editing sample_site)
            ++ [Page.ObjectURLCreated "blob:1" blob;
                Page.Clicked "blob:1" "webmake-site.zip";
                Page.ObjectURLRevoked "blob:1"]),
       inr tt)
    /\ Zip.load blob
       = Some [Zip.mkEntry "index.html" (Buffer_from (buildHtml 2024 sample_site))].
Proof.
  apply (exportZip_downloads_the_page (world_of deployed) 2024 "blob:1"
           (editing sample_site) sample_site).
  - reflexivity.
  - unfold js_string, max_utf8_length. vm_compute. discriminate.
Defined.

(** ** [publish] and [generate] *)

Lemma message_or_not_empty (e fallback : string) :
  fallback <> EmptyString -> Page.message_or e fallback <> EmptyString.
Proof.
  intros H. unfold Page.message_or, js_or. cbn [truthy].
  destruct (String.eqb_spec e EmptyString) as [E|N]; cbn [negb template];
    assumption.
Qed.

Lemma message_or_message (e fallback : string) :
  e <> EmptyString -> Page.message_or e fallback = e.
Proof.
  intros H. unfold Page.message_or, js_or. rewrite (truthy_JStr e H).
  reflexivity.
Qed.

Ltac run_page :=
  unfold Page.try_catch_finally, Page.do_fetch, Page.setLoading,
    Page.setResult, Page.setError, Page.setPublishing, Page.setPublishUrl,
    Page.update, Page.effect, Page.throw;
  unfold Page.bind, Page.await, Page.ret;
  cbv beta iota zeta
    delta [Page.state Page.effects Page.input Page.loading Page.result
           Page.edit Page.error Page.publishing Page.publishUrl].

(** [publish] with a site in the editor: one call, and the state its
    answer leaves. *)
Lemma publish_run (w : World) (year : Z) (provider : string)
  (s : Page.Session) (site : GenResult) :
  Page.edit (Page.state s) = Some site ->
  Page.publish w year provider s
  = (Page.mkSession
       (published (Page.state s)
          (publish_outcome
             (fetch w (Page.publish_call provider (buildHtml year site)))))
       (Page.effects s
          ++ [Page.Called (Page.publish_call provider (buildHtml year site))]),
     inr tt).
Proof.
  destruct s as [[i l r e er p u] eff]. cbn [Page.state Page.effects Page.edit].
  intros ->. unfold Page.publish. cbn [Page.state Page.edit].
  unfold published, publish_outcome.
  set (rq := Page.publish_call provider (buildHtml year site)).
  run_page. fold rq.
  destruct (fetch w rq) as [e|res]; [reflexivity|].
  cbv beta iota.
  destruct (res_json res) as [e|data]; [reflexivity|].
  cbv beta iota.
  destruct (negb (res_ok res)); cbv beta iota.
  - destruct (get_prop data "error") as [e|err]; reflexivity.
  - destruct (get_prop data "url") as [e|url]; reflexivity.
Qed.

Lemma publish_outcome_cases (answer : Result FetchRes) :
  fst (publish_outcome answer) = None
  \/ exists m, publish_outcome answer = (Some m, JNull) /\ m <> EmptyString.
Proof.
  assert (F : forall e,
             exists m, (Some (Page.message_or e "Publishing error."), JNull)
                       = (Some m, JNull) /\ m <> EmptyString).
  { intros e. eexists. split; [reflexivity|].
    apply message_or_not_empty. discriminate. }
  unfold publish_outcome. cbv zeta.
  destruct answer as [e|res]; [right; apply F|].
  destruct (res_json res) as [e|data]; [right; apply F|].
  destruct (negb (res_ok res)).
  - destruct (get_prop data "error") as [e|err]; right; apply F.
  - destruct (get_prop data "url") as [e|url]; [right; apply F|].
    left. reflexivity.
Qed.

(** X20.  [publish] never throws.  Without a site in the editor it does
    nothing.  With one, it makes one call, to [/api/publish], with the
    provider and the page of the site; when it settles, [publishing] is
    [null] again, the site in the editor is untouched, and either there
    is no error, or there is an error message that is not empty and no
    address. *)
Theorem publish_settles (w : World) (year : Z) (provider : string)
  (s : Page.Session) :
  exists s',
    Page.publish w year provider s = (s', inr tt)
    /\ Page.edit (Page.state s') = Page.edit (Page.state s)
    /\ match Page.edit (Page.state s) with
       | None => s' = s
       | Some site =>
           Page.publishing (Page.state s') = None
           /\ Page.effects s'
              = Page.effects s
                  ++ [Page.Called
                        (Page.publish_call provider (buildHtml year site))]
           /\ (Page.error (Page.state s') = None
               \/ exists m,
                    Page.error (Page.state s') = Some m
                    /\ m <> EmptyString
                    /\ Page.publishUrl (Page.state s') = JNull)
       end.
Proof.
  destruct (Page.edit (Page.state s)) as [site|] eqn:He.
  - rewrite (publish_run w year provider s site He).
    eexists. split; [reflexivity|].
    cbn [Page.state Page.effects published Page.edit Page.publishing
           Page.error Page.publishUrl].
    split; [exact He|]. split; [reflexivity|]. split; [reflexivity|].
    destruct (publish_outcome_cases
                (fetch w (Page.publish_call provider (buildHtml year site))))
      as [H | (m & H & Hm)].
    + left. exact H.
    + right. exists m. rewrite H. repeat split. exact Hm.
  - exists s. unfold Page.publish. rewrite He.
    split; [reflexivity|]. split; reflexivity.
Qed.

(** X21.  [generate] never throws.  It makes one call, to
    [/api/generate]; when it settles, [loading] is [false] again and
    the address of an earlier publication is forgotten; either there is
    no error and [result] is the JSON body of the answer, or there is
    an error message that is not empty and [result] is what it was. *)
Theorem generate_settles (w : World) (payload : Page.GenInput)
  (s : Page.Session) :
  exists s',
    Page.generate w payload s = (s', inr tt)
    /\ Page.loading (Page.state s') = false
    /\ Page.publishUrl (Page.state s') = JNull
    /\ Page.effects s'
       = Page.effects s ++ [Page.Called (Page.generate_call payload)]
    /\ ((Page.error (Page.state s') = None
         /\ exists res,
              fetch w (Page.generate_call payload) = inr res
              /\ res_ok res = true
              /\ res_json res = inr (Page.result (Page.state s')))
        \/ (exists m,
              Page.error (Page.state s') = Some m
              /\ m <> EmptyString
              /\ Page.result (Page.state s') = Page.result (Page.state s))).
Proof.
  destruct s as [[i l r e er p u] eff].
  unfold Page.generate.
  set (rq := Page.generate_call payload).
  run_page. fold rq.
  assert (N : forall x, Page.message_or x "Something went wrong." <> EmptyString)
    by (intros x; apply message_or_not_empty; discriminate).
  destruct (fetch w rq) as [x|res] eqn:Ef; cbv beta iota.
  { eexists. split; [reflexivity|]. cbn.
    repeat (split; [reflexivity|]). right. eexists.
    split; [reflexivity|]. split; [apply N | reflexivity]. }
  destruct (res_ok res) eqn:Eok; cbn [negb]; cbv beta iota;
    [|eexists; split; [reflexivity|];
      cbn [Page.state Page.effects Page.loading Page.publishUrl Page.edit
             Page.error Page.result];
      repeat (split; [reflexivity|]); right; eexists;
      split; [reflexivity|]; split; [apply N | reflexivity]].
  destruct (res_json res) as [x|data] eqn:Ej; cbv beta iota.
  { eexists. split; [reflexivity|]. cbn.
    repeat (split; [reflexivity|]). right. eexists.
    split; [reflexivity|]. split; [apply N | reflexivity]. }
  eexists. split; [reflexivity|]. cbn.
  repeat (split; [reflexivity|]). left. split; [reflexivity|].
  exists res. split; [reflexivity|]. split; [exact Eok | exact Ej].
Qed.

Lemma not_ok (res : FetchRes) :
  ~ (200 <= res_status res <= 299) -> res_ok res = false.
Proof.
  intros H. unfold res_ok. apply andb_false_iff.
  destruct (Z.leb_spec 200 (res_status res));
    destruct (Z.leb_spec (res_status res) 299); auto; lia.
Qed.

Lemma is_ok (res : FetchRes) :
  200 <= res_status res <= 299 -> res_ok res = true.
Proof.
  intros H. unfold res_ok. apply andb_true_iff. split; apply Z.leb_le; lia.
Qed.

(** X22.  When the server answers [generate] with a status outside
    200..299, the error shown is [Generation failed] with that status
    between brackets; the body of the answer is not read, and the
    earlier result stays. *)
Theorem generate_reports_the_status (w : World) (payload : Page.GenInput)
  (s : Page.Session) (res : FetchRes) :
  fetch w (Page.generate_call payload) = inr res ->
  ~ (200 <= res_status res <= 299) ->
  Page.state (fst (Page.generate w payload s))
  = Page.mkState (Page.input (Page.state s)) false
      (Page.result (Page.state s)) (Page.edit (Page.state s))
      (Some ("Generation failed (" +++ decimal (res_status res) +++ ")"))
      (Page.publishing (Page.state s)) JNull.
Proof.
  intros Hf Hst. destruct s as [[i l r e er p u] eff].
  unfold Page.generate. run_page. rewrite Hf. cbv beta iota.
  rewrite (not_ok res Hst). cbn [negb]. cbv beta iota.
  cbn [fst Page.state template].
  rewrite message_or_message; [reflexivity | discriminate].
Qed.

Lemma generate_reports_the_status_witness :
  Page.state (fst (Page.generate (world_of quota_exceeded)
                     (Page.mkInput "Peacock Salon" "Premium salon" "salon")
                     (editing sample_site)))
  = Page.mkState (Page.input (Page.state (editing sample_site))) false
      (Page.result (Page.state (editing sample_site)))
      (Page.edit (Page.state (editing sample_site)))
      (Some ("Generation failed (" +++ decimal (res_status quota_exceeded) +++ ")"))
      (Page.publishing (Page.state (editing sample_site))) JNull.
Proof.
  apply (generate_reports_the_status (world_of quota_exceeded)
           (Page.mkInput "Peacock Salon" "Premium salon" "salon")
           (editing sample_site) quota_exceeded).
  - reflexivity.
  - cbn. lia.
Defined.

(** ** The page and the route together *)

Lemma publish_outcome_delivered (r : HttpResponse)
  (fields : list (string * JsVal)) :
  body r = JObj fields ->
  publish_outcome (inr (delivered r))
  = if (200 <=? status r) && (status r <=? 299) then (None, lookup "url" fields)
    else
      (Some (Page.message_or
               (template
                  (js_or (lookup "error" fields)
                     (JStr ("Publish failed (" +++ decimal (status r) +++ ")"))))
               "Publishing error."),
       JNull).
Proof.
  intros Hb. unfold publish_outcome, delivered, res_ok.
  cbn [res_json res_status]. rewrite Hb. cbn [get_prop].
  destruct ((200 <=? status r) && (status r <=? 299)); reflexivity.
Qed.

(** The route never answers 400 to a page for one of its two
    providers: it answers 200 without an [error], or 500 with one. *)
Lemma POST_supported (w : World) (env : Env) (request : Request)
  (html provider : string) :
  request_of request (JStr html) (JStr provider) ->
  html <> EmptyString ->
  supported provider ->
  (status (snd (POST w env request)) = 200
   /\ exists fields,
        body (snd (POST w env request)) = JObj fields
        /\ lookup "error" fields = JUndefined)
  \/ (status (snd (POST w env request)) = 500
      /\ exists e d,
           body (snd (POST w env request))
           = JObj [("error", JStr e); ("details", JStr d)]
           /\ e <> EmptyString).
Proof.
  intros Hreq Hh Hs.
  assert (N : status (snd (POST w env request)) <> 400).
  { destruct (credentials_missing env provider) eqn:Hm.
    - rewrite (POST_returns w env request _ _ _ _ Hreq
                 (respond_fallback w env html provider Hh Hs Hm)).
      discriminate.
    - rewrite (POST_deploys w env request html provider Hreq Hh Hs Hm).
      unfold answer_of.
      repeat match goal with
        | |- context [match ?x with _ => _ end] =>
            lazymatch x with
            | context [match _ with _ => _ end] => fail
            | _ => destruct x
            end
        end; discriminate. }
  destruct (POST_shaped w env request)
    as [[H200 [(u & Hu) | (m & z & Hz)]]
       | [[H400 _] | [H500 (e & d & He & Hc)]]].
  - left. split; [exact H200|]. rewrite Hu.
    destruct u; eexists; split; reflexivity.
  - left. split; [exact H200|]. rewrite Hz. eexists. split; reflexivity.
  - contradiction.
  - right. split; [exact H500|]. exists e, d. split; [exact He|].
    destruct Hc as [-> | [-> | ->]]; discriminate.
Qed.

Lemma url_of_success (u : JsVal) :
  lookup "url" (properties (NextResponse_json (JObj [("url", u)]) 200))
  = JSON.clean u.
Proof. destruct u; reflexivity. Qed.

Lemma body_of_success (u : JsVal) :
  exists fields,
    body (NextResponse_json (JObj [("url", u)]) 200) = JObj fields.
Proof. destruct u; eexists; reflexivity. Qed.

(** X23.  The page publishing through the route.  When the call of
    [publish] is answered by the route, run on the page of the site and
    one of the two providers, the answer is never a 400: either it is a
    200, and the page then has no error and takes for address the [url]
    of the answer (which may have none); or it is a 500, and the page
    then shows the [error] of the answer, and has no address. *)
Theorem publish_shows_the_answer
  (b w : World) (env : Env) (year : Z) (provider : string)
  (s : Page.Session) (site : GenResult) (request : Request) :
  Page.edit (Page.state s) = Some site ->
  supported provider ->
  request_of request (JStr (buildHtml year site)) (JStr provider) ->
  fetch b (Page.publish_call provider (buildHtml year site))
  = inr (delivered (snd (POST w env request))) ->
  (status (snd (POST w env request)) = 200
   /\ Page.error (Page.state (fst (Page.publish b year provider s))) = None
   /\ Page.publishUrl (Page.state (fst (Page.publish b year provider s)))
      = lookup "url" (properties (snd (POST w env request))))
  \/ (status (snd (POST w env request)) = 500
      /\ exists e,
           lookup "error" (properties (snd (POST w env request))) = JStr e
           /\ Page.error (Page.state (fst (Page.publish b year provider s)))
              = Some e
           /\ Page.publishUrl (Page.state (fst (Page.publish b year provider s)))
              = JNull).
Proof.
  intros He Hs Hreq Hf.
  rewrite (publish_run b year provider s site He), Hf.
  cbn [fst Page.state published Page.error Page.publishUrl].
  destruct (POST_supported w env request _ provider Hreq
              (buildHtml_not_empty year site) Hs)
    as [(H200 & fields & Hb & Herr) | (H500 & e & d & Hb & Hne)];
    rewrite (publish_outcome_delivered _ _ Hb); unfold properties; rewrite Hb.
  - left. rewrite H200. cbn [Z.leb Z.compare Pos.compare Pos.compare_cont andb fst snd].
    repeat split; reflexivity.
  - right. rewrite H500. cbn [Z.leb Z.compare Pos.compare Pos.compare_cont andb fst snd].
    split; [reflexivity|]. exists e.
    cbn [lookup String.eqb Ascii.eqb Bool.eqb]. unfold js_or.
    rewrite (truthy_JStr e Hne). cbn [template].
    rewrite (message_or_message e _ Hne). repeat split; reflexivity.
Qed.

Lemma publish_shows_the_answer_witness :
  (status (snd (POST offline all_credentials
                  (publish_request (JStr (buildHtml 2024 sample_site))
                     (JStr "netlify")))) = 200
   /\ Page.error
        (Page.state
           (fst (Page.publish
                   (answering
                      (snd (POST offline all_credentials
                              (publish_request (JStr (buildHtml 2024 sample_site))
                                 (JStr "netlify")))))
                   2024 "netlify" (editing sample_site)))) = None
   /\ Page.publishUrl
        (Page.state
           (fst (Page.publish
                   (answering
                      (snd (POST offline all_credentials
                              (publish_request (JStr (buildHtml 2024 sample_site))
                                 (JStr "netlify")))))
                   2024 "netlify" (editing sample_site))))
      = lookup "url"
          (properties
             (snd (POST offline all_credentials
                     (publish_request (JStr (buildHtml 2024 sample_site))
                        (JStr "netlify"))))))
  \/ (status (snd (POST offline all_credentials
                     (publish_request (JStr (buildHtml 2024 sample_site))
                        (JStr "netlify")))) = 500
      /\ exists e,
           lookup "error"
             (properties
                (snd (POST offline all_credentials
                        (publish_request (JStr (buildHtml 2024 sample_site))
                           (JStr "netlify"))))) = JStr e
           /\ Page.error
                (Page.state
                   (fst (Page.publish
                           (answering
                              (snd (POST offline all_credentials
                                      (publish_request
                                         (JStr (buildHtml 2024 sample_site))
                                         (JStr "netlify")))))
                           2024 "netlify" (editing sample_site)))) = Some e
           /\ Page.publishUrl
                (Page.state
                   (fst (Page.publish
                           (answering
                              (snd (POST offline all_credentials
                                      (publish_request
                                         (JStr (buildHtml 2024 sample_site))
                                         (JStr "netlify")))))
                           2024 "netlify" (editing sample_site)))) = JNull).
Proof.
  apply (publish_shows_the_answer
           (answering
              (snd (POST offline all_credentials
                      (publish_request (JStr (buildHtml 2024 sample_site))
                         (JStr "netlify")))))
           offline all_credentials 2024 "netlify" (editing sample_site)
           sample_site
           (publish_request (JStr (buildHtml 2024 sample_site)) (JStr "netlify"))).
  - reflexivity.
  - left. reflexivity.
  - unfold request_of. eexists. split; [reflexivity | split; reflexivity].
  - reflexivity.
Defined.

(** X24.  When the credentials of the provider are missing, the route
    answers the page with the fallback, and the page shows nothing of
    it: no error, no address ([publishUrl] is [undefined]), and the
    archive of the answer is kept nowhere in the state. *)
Theorem publish_fallback_is_silent
  (b w : World) (env : Env) (year : Z) (provider : string)
  (s : Page.Session) (site : GenResult) (request : Request) :
  Page.edit (Page.state s) = Some site ->
  supported provider ->
  request_of request (JStr (buildHtml year site)) (JStr provider) ->
  fetch b (Page.publish_call provider (buildHtml year site))
  = inr (delivered (snd (POST w env request))) ->
  credentials_missing env provider = true ->
  is_fallback (snd (POST w env request))
  /\ Page.state (fst (Page.publish b year provider s))
     = Page.mkState (Page.input (Page.state s)) (Page.loading (Page.state s))
         (Page.result (Page.state s)) (Some site) None None JUndefined.
Proof.
  intros He Hs Hreq Hf Hm.
  rewrite (publish_run b year provider s site He), Hf.
  rewrite (POST_returns w env request _ _ _ _ Hreq
             (respond_fallback w env _ provider
                (buildHtml_not_empty year site) Hs Hm)).
  cbn [snd]. split; [eexists; eexists; reflexivity|].
  erewrite publish_outcome_delivered; [|reflexivity].
  unfold published.
  cbn [fst snd Page.state status Z.leb Z.compare Pos.compare
         Pos.compare_cont andb lookup String.eqb Ascii.eqb Bool.eqb].
  rewrite He. reflexivity.
Qed.

Lemma publish_fallback_is_silent_witness :
  is_fallback
    (snd (POST offline no_credentials
            (publish_request (JStr (buildHtml 2024 sample_site)) (JStr "vercel"))))
  /\ Page.state
       (fst (Page.publish
               (answering
                  (snd (POST offline no_credentials
                          (publish_request (JStr (buildHtml 2024 sample_site))
                             (JStr "vercel")))))
               2024 "vercel" (editing sample_site)))
     = Page.mkState (Page.input (Page.state (editing sample_site)))
         (Page.loading (Page.state (editing sample_site)))
         (Page.result (Page.state (editing sample_site)))
         (Some sample_site) None None JUndefined.
Proof.
  apply (publish_fallback_is_silent
           (answering
              (snd (POST offline no_credentials
                      (publish_request (JStr (buildHtml 2024 sample_site))
                         (JStr "vercel")))))
           offline no_credentials 2024 "vercel" (editing sample_site)
           sample_site
           (publish_request (JStr (buildHtml 2024 sample_site)) (JStr "vercel"))).
  - reflexivity.
  - right. reflexivity.
  - unfold request_of. eexists. split; [reflexivity | split; reflexivity].
  - reflexivity.
  - reflexivity.
Defined.

(** X25.  When the provider refuses the deployment, the page shows the
    name of the failure only, [Netlify deploy failed] or [Vercel deploy
    failed]: the text the provider gave, which the route passes on as
    [details], is kept nowhere in the state. *)
Theorem publish_failure_drops_details
  (b w : World) (env : Env) (year : Z) (provider : string)
  (s : Page.Session) (site : GenResult) (request : Request)
  (res : FetchRes) (errText : string) :
  Page.edit (Page.state s) = Some site ->
  supported provider ->
  request_of request (JStr (buildHtml year site)) (JStr provider) ->
  fetch b (Page.publish_call provider (buildHtml year site))
  = inr (delivered (snd (POST w env request))) ->
  credentials_missing env provider = false ->
  fetch w (deploy_request w env (buildHtml year site) provider) = inr res ->
  ~ (200 <= res_status res <= 299) ->
  res_text res = inr errText ->
  lookup "details" (properties (snd (POST w env request))) = JStr errText
  /\ Page.state (fst (Page.publish b year provider s))
     = Page.mkState (Page.input (Page.state s)) (Page.loading (Page.state s))
         (Page.result (Page.state s)) (Some site)
         (Some (if String.eqb provider "netlify" then "Netlify deploy failed"
                else "Vercel deploy failed"))
         None JNull.
Proof.
  intros He Hs Hreq Hf Hm Hp Hst Ht.
  rewrite (publish_run b year provider s site He), Hf.
  rewrite (POST_deploys w env request _ provider Hreq
             (buildHtml_not_empty year site) Hs Hm), Hp.
  unfold answer_of. rewrite (not_ok res Hst), Ht. cbn [negb snd].
  split; [reflexivity|].
  erewrite publish_outcome_delivered; [|reflexivity].
  unfold published.
  cbn [fst snd Page.state status Z.leb Z.compare Pos.compare
         Pos.compare_cont andb lookup String.eqb Ascii.eqb Bool.eqb].
  rewrite He.
  destruct (String.eqb provider "netlify"); reflexivity.
Qed.

Lemma publish_failure_drops_details_witness :
  lookup "details"
    (properties
       (snd (POST (world_of quota_exceeded) all_credentials
               (publish_request (JStr (buildHtml 2024 sample_site))
                  (JStr "vercel")))))
  = JStr "quota exceeded"
  /\ Page.state
       (fst (Page.publish
               (answering
                  (snd (POST (world_of quota_exceeded) all_credentials
                          (publish_request (JStr (buildHtml 2024 sample_site))
                             (JStr "vercel")))))
               2024 "vercel" (editing sample_site)))
     = Page.mkState (Page.input (Page.state (editing sample_site)))
         (Page.loading (Page.state (editing sample_site)))
         (Page.result (Page.state (editing sample_site)))
         (Some sample_site)
         (Some (if String.eqb "vercel" "netlify" then "Netlify deploy failed"
                else "Vercel deploy failed"))
         None JNull.
Proof.
  apply (publish_failure_drops_details
           (answering
              (snd (POST (world_of quota_exceeded) all_credentials
                      (publish_request (JStr (buildHtml 2024 sample_site))
                         (JStr "vercel")))))
           (world_of quota_exceeded) all_credentials 2024 "vercel"
           (editing sample_site) sample_site
           (publish_request (JStr (buildHtml 2024 sample_site)) (JStr "vercel"))
           quota_exceeded "quota exceeded").
  - reflexivity.
  - right. reflexivity.
  - unfold request_of. eexists. split; [reflexivity | split; reflexivity].
  - reflexivity.
  - reflexivity.
  - reflexivity.
  - cbn. lia.
  - reflexivity.
Defined.

(** X26.  When the provider accepts the deployment and answers with a
    JSON object, the page has no error, and its address is the one the
    route chose in that object: for Netlify the [deploy_url] or else the
    [url], for Vercel the [url] or else the [inspectorUrl]. *)
Theorem publish_success_address
  (b w : World) (env : Env) (year : Z) (provider : string)
  (s : Page.Session) (site : GenResult) (request : Request)
  (res : FetchRes) (fields : list (string * JsVal)) :
  Page.edit (Page.state s) = Some site ->
  supported provider ->
  request_of request (JStr (buildHtml year site)) (JStr provider) ->
  fetch b (Page.publish_call provider (buildHtml year site))
  = inr (delivered (snd (POST w env request))) ->
  credentials_missing env provider = false ->
  fetch w (deploy_request w env (buildHtml year site) provider) = inr res ->
  200 <= res_status res <= 299 ->
  res_json res = inr (JObj fields) ->
  Page.state (fst (Page.publish b year provider s))
  = Page.mkState (Page.input (Page.state s)) (Page.loading (Page.state s))
      (Page.result (Page.state s)) (Some site) None None
      (JSON.clean
         (js_or (lookup (fst (url_keys provider)) fields)
            (lookup (snd (url_keys provider)) fields))).
Proof.
  intros He Hs Hreq Hf Hm Hp Hst Hj.
  rewrite (publish_run b year provider s site He), Hf.
  rewrite (POST_deploys w env request _ provider Hreq
             (buildHtml_not_empty year site) Hs Hm), Hp.
  rewrite (answer_of_object provider res fields (is_ok res Hst) Hj).
  cbn [snd].
  set (u := js_or (lookup (fst (url_keys provider)) fields)
              (lookup (snd (url_keys provider)) fields)).
  destruct (body_of_success u) as [fs Hb].
  rewrite (publish_outcome_delivered _ fs Hb).
  pose proof (url_of_success u) as Hu. unfold properties in Hu.
  rewrite Hb in Hu. rewrite <- Hu.
  unfold published.
  cbn [fst snd Page.state status NextResponse_json Z.leb Z.compare
         Pos.compare Pos.compare_cont andb].
  rewrite He. reflexivity.
Qed.

Lemma publish_success_address_witness :
  Page.state
    (fst (Page.publish
            (answering
               (snd (POST (world_of deployed) all_credentials
                       (publish_request (JStr (buildHtml 2024 sample_site))
                          (JStr "vercel")))))
            2024 "vercel" (editing sample_site)))
  = Page.mkState (Page.input (Page.state (editing sample_site)))
      (Page.loading (Page.state (editing sample_site)))
      (Page.result (Page.state (editing sample_site)))
      (Some sample_site) None None
      (JSON.clean
         (js_or (lookup (fst (url_keys "vercel"))
                   [("url", JStr "https://example.vercel.app")])
            (lookup (snd (url_keys "vercel"))
               [("url", JStr "https://example.vercel.app")]))).
Proof.
  apply (publish_success_address
           (answering
              (snd (POST (world_of deployed) all_credentials
                      (publish_request (JStr (buildHtml 2024 sample_site))
                         (JStr "vercel")))))
           (world_of deployed) all_credentials 2024 "vercel"
           (editing sample_site) sample_site
           (publish_request (JStr (buildHtml 2024 sample_site)) (JStr "vercel"))
           deployed).
  - reflexivity.
  - right. reflexivity.
  - unfold request_of. eexists. split; [reflexivity | split; reflexivity].
  - reflexivity.
  - reflexivity.
  - reflexivity.
  - cbn. lia.
  - reflexivity.
Defined.

(** ** The body of the call of [publish], read by the route *)

Lemma list_ascii_app (a b : string) :
  list_ascii_of_string (a +++ b)
  = list_ascii_of_string a ++ list_ascii_of_string b.
Proof.
  induction a as [|c a IH]; [reflexivity|].
  cbn [String.append list_ascii_of_string app]. now rewrite IH.
Qed.

Lemma quote_chars_cons (c : ascii) (s : string) :
  JSON.quote_chars (String c s)
  = JSON.quote_chars (String c EmptyString) +++ JSON.quote_chars s.
Proof.
  cbn [JSON.quote_chars]. now rewrite append_nil_r.
Qed.

Lemma string_chars_char (c : ascii) (l : list ascii) :
  plain_char c = true ->
  JSON.string_chars
    (list_ascii_of_string (JSON.quote_chars (String c EmptyString)) ++ l)
  = match JSON.string_chars l with
    | Some (s, rest) => Some (String c s, rest)
    | None => None
    end.
Proof.
  destruct c as [b0 b1 b2 b3 b4 b5 b6 b7].
  destruct b0, b1, b2, b3, b4, b5, b6, b7; intros H;
    try discriminate H; reflexivity.
Qed.

(** Reading what [JSON.stringify] wrote of a text gives the text. *)
Lemma string_chars_quote (s : string) (rest : list ascii) :
  plain s = true ->
  JSON.string_chars
    (list_ascii_of_string (JSON.quote_chars s) ++ dquote :: rest)
  = Some (s, rest).
Proof.
  unfold plain. induction s as [|c s IH]; intros H; [reflexivity|].
  cbn [list_ascii_of_string forallb] in H.
  apply andb_true_iff in H. destruct H as [Hc Hs].
  rewrite quote_chars_cons, list_ascii_app, <- app_assoc.
  rewrite (string_chars_char c _ Hc), (IH Hs). reflexivity.
Qed.

Lemma body_chars (p h : string) :
  list_ascii_of_string
    ("{" +++ (((dq +++ JSON.quote_chars "provider" +++ dq)
                 +++ ":" +++ dq +++ JSON.quote_chars p +++ dq)
                +++ "," +++ (dq +++ JSON.quote_chars "html" +++ dq)
                +++ ":" +++ dq +++ JSON.quote_chars h +++ dq)
         +++ "}")
  = list_ascii_of_string ("{" +++ dq +++ "provider" +++ dq +++ ":" +++ dq)
      ++ (list_ascii_of_string (JSON.quote_chars p)
            ++ dquote
            :: list_ascii_of_string ("," +++ dq +++ "html" +++ dq +++ ":" +++ dq)
            ++ (list_ascii_of_string (JSON.quote_chars h)
                  ++ dquote :: list_ascii_of_string "}")).
Proof.
  change (JSON.quote_chars "provider") with "provider".
  change (JSON.quote_chars "html") with "html".
  rewrite !append_assoc, !list_ascii_app.
  cbn [list_ascii_of_string app dq]. rewrite <- ?app_assoc. reflexivity.
Qed.

Lemma value_body (A B : list ascii) (p h : string) (fuel : nat) :
  JSON.string_chars A
  = Some (p, list_ascii_of_string ("," +++ dq +++ "html" +++ dq +++ ":" +++ dq)
               ++ B) ->
  JSON.string_chars B = Some (h, list_ascii_of_string "}") ->
  JSON.value (S (S (S (S fuel))))
    (list_ascii_of_string ("{" +++ dq +++ "provider" +++ dq +++ ":" +++ dq) ++ A)
  = Some (JObj [("provider", JStr p); ("html", JStr h)], []).
Proof.
  intros H1 H2. simpl. rewrite H1. simpl. rewrite H2. reflexivity.
Qed.

(** X27.  The route reads what the page sent: the body of the call of
    [publish], which the page writes with [JSON.stringify], is read by
    [JSON.parse] as the object with the same [provider] and the same
    [html], whenever these have no control character other than
    backspace, tab, line feed, form feed and carriage return. *)
Theorem publish_body_is_read_back (provider html : string) :
  plain provider = true ->
  plain html = true ->
  received (Page.publish_call provider html)
  = Some (JObj [("provider", JStr provider); ("html", JStr html)])
  /\ request_of
       (mkRequest
          (inr (JObj [("provider", JStr provider); ("html", JStr html)])))
       (JStr html) (JStr provider).
Proof.
  intros Hp Hh. split.
  - unfold received, Page.publish_call, JSON.stringify.
    cbn [rq_body JSON.serialize Nat.min JSON.spaces String.eqb].
    unfold JSON.wrap, JSON.quote. cbn [String.eqb join body_of template].
    unfold JSON.parse. cbv zeta. rewrite body_chars.
    set (B := list_ascii_of_string (JSON.quote_chars html)
                ++ dquote :: list_ascii_of_string "}").
    set (A := list_ascii_of_string (JSON.quote_chars provider)
                ++ dquote
                :: list_ascii_of_string
                     ("," +++ dq +++ "html" +++ dq +++ ":" +++ dq) ++ B).
    assert (E : exists fuel,
               S (length
                    (list_ascii_of_string
                       ("{" +++ dq +++ "provider" +++ dq +++ ":" +++ dq) ++ A))
               = S (S (S (S fuel))))
      by (eexists; rewrite length_app; reflexivity).
    destruct E as [fuel ->].
    rewrite (value_body A B provider html fuel
               (string_chars_quote provider _ Hp)
               (string_chars_quote html _ Hh)).
    reflexivity.
  - exists [("provider", JStr provider); ("html", JStr html)].
    repeat split; reflexivity.
Qed.

Lemma publish_body_is_read_back_witness :
  received (Page.publish_call "vercel" (buildHtml 2024 sample_site))
  = Some (JObj [("provider", JStr "vercel");
                ("html", JStr (buildHtml 2024 sample_site))])
  /\ request_of
       (mkRequest
          (inr (JObj [("provider", JStr "vercel");
                      ("html", JStr (buildHtml 2024 sample_site))])))
       (JStr (buildHtml 2024 sample_site)) (JStr "vercel").
Proof.
  apply (publish_body_is_read_back "vercel" (buildHtml 2024 sample_site)).
  - reflexivity.
  - vm_compute. reflexivity.
Defined.

